(** * Timesheet parser: a shallow embedding of [data_processor.py]

    The development follows [load_and_clean_data] and its three local helpers
    ([parse_custom_date], [clean_minutes], [check_billable]).

    Conventions of the embedding.
    - Text is [string]; each [ascii] stands for one code point below 256, so
      Python's [str.strip], [str.lower], [\s] and [\d] are the restrictions of
      the Unicode operations to that range.
    - A cell of the frame returned by [pd.read_csv(..., header=None)] is a
      missing value, a text, or a number.  The program observes a number only
      through [str(x)] and [pd.isna(x)], so a number carries its [str].
    - A [dict] is an association list kept in insertion order.
    - [try/except] is an explicit sum: [inl] is a raised exception. *)

From Stdlib Require Import String Ascii List Bool Arith NArith ZArith Lia.
Import ListNotations.
Open Scope string_scope.
Open Scope nat_scope.

(* ------------------------------------------------------------------ *)
(** ** Python text primitives *)

Module Py.

Definition code (c : ascii) : nat := nat_of_ascii c.

Definition between (lo hi n : nat) : bool := (lo <=? n) && (n <=? hi).

(** [str.isspace] on one character; also the class [\s] of [re]. *)
Definition isspace (c : ascii) : bool :=
  let n := code c in
  between 9 13 n || between 28 32 n || (n =? 133) || (n =? 160).

(** [str.isdigit] restricted to the class [\d] of [re]. *)
Definition isdigit (c : ascii) : bool := between 48 57 (code c).

Fixpoint lstrip (s : string) : string :=
  match s with
  | String c s' => if isspace c then lstrip s' else s
  | EmptyString => EmptyString
  end.

Fixpoint rstrip (s : string) : string :=
  match s with
  | EmptyString => EmptyString
  | String c s' =>
      match rstrip s' with
      | EmptyString => if isspace c then EmptyString else String c EmptyString
      | r => String c r
      end
  end.

(** [s.strip()] *)
Definition strip (s : string) : string := rstrip (lstrip s).

(** The pattern [^\s*$] used by [Series.replace(..., regex=True)]. *)
Fixpoint all_space (s : string) : bool :=
  match s with
  | EmptyString => true
  | String c s' => isspace c && all_space s'
  end.

Definition lower_char (c : ascii) : ascii :=
  let n := code c in
  if between 65 90 n || (between 192 222 n && negb (n =? 215))
  then ascii_of_nat (n + 32) else c.

(** [s.lower()] *)
Fixpoint lower (s : string) : string :=
  match s with
  | EmptyString => EmptyString
  | String c s' => String (lower_char c) (lower s')
  end.

(** [sub in s] *)
Fixpoint contains (sub s : string) : bool :=
  prefix sub s ||
  match s with
  | EmptyString => false
  | String _ s' => contains sub s'
  end.

(** [s.replace(',', '')] *)
Fixpoint remove_commas (s : string) : string :=
  match s with
  | EmptyString => EmptyString
  | String c s' =>
      if Ascii.eqb c "," then remove_commas s' else String c (remove_commas s')
  end.

(** Truth value of a text: [if val]. *)
Definition truthy (s : string) : bool := negb (s =? "")%string.

Fixpoint drop (n : nat) (s : string) : string :=
  match n, s with
  | S n', String _ s' => drop n' s'
  | _, _ => s
  end.

Fixpoint take (n : nat) (s : string) : string :=
  match n, s with
  | S n', String c s' => String c (take n' s')
  | _, _ => EmptyString
  end.

End Py.

(* ------------------------------------------------------------------ *)
(** ** Cells and frames *)

(** A value held in a frame, or passed to the per-cell helpers.  [NaN] is
    [np.nan] (a blank CSV field); [Num r] is a number that is not NaN (or a
    boolean), [r] being [str] of it, which is never blank. *)
Inductive cell : Type :=
| NaN
| Str (s : string)
| Num (repr : string).

(** [str(x)] *)
Definition str (x : cell) : string :=
  match x with
  | NaN => "nan"
  | Str s => s
  | Num r => r
  end.

(** [pd.isna(x)] *)
Definition isna (x : cell) : bool :=
  match x with
  | NaN => true
  | _ => false
  end.

(** A row of a frame, read by column label ([row[c]]). *)
Definition Series : Type := nat -> cell.

(** The frame [df_raw]: [shape0] rows by [shape1] columns, rectangular as
    [read_csv] builds it; [iat i j] is the cell of row [i], column [j]. *)
Record DataFrame : Type := mkFrame {
  shape0 : nat;
  shape1 : nat;
  iat : nat -> nat -> cell
}.

(** A frame from rows given as lists, short rows padded with [NaN] as
    [read_csv] pads them; the width is that of the widest row. *)
Definition frame_of_rows (rows : list (list cell)) : DataFrame :=
  {| shape0 := length rows;
     shape1 := fold_right (fun r m => Nat.max (length r) m) 0 rows;
     iat := fun i j => nth j (nth i rows []) NaN |}.

Inductive exn : Type :=
| KeyError (label : nat)
| IndexError.

(** [df.iloc[i]] *)
Definition iloc (df : DataFrame) (i : nat) : exn + Series :=
  if i <? shape0 df then inr (iat df i) else inl IndexError.

(** [df.iloc[start:]] as the list of its rows (with [reset_index]). *)
Definition iloc_from (df : DataFrame) (start : nat) : list Series :=
  map (iat df) (seq start (shape0 df - start)).

(** [row] with the cell of column [c] replaced by [v]. *)
Definition upd (row : Series) (c : nat) (v : cell) : Series :=
  fun j => if j =? c then v else row j.

(** [x] after [.replace(r'^\s*$', np.nan, regex=True)]: only texts are
    matched against the pattern. *)
Definition blank_to_nan (x : cell) : cell :=
  match x with
  | Str s => if Py.all_space s then NaN else x
  | _ => x
  end.

(** [data[c] = data[c].replace(r'^\s*$', np.nan, regex=True)]; the label
    [c] must be a column of the frame. *)
Definition replace_blank (ncols c : nat) (data : list Series)
  : exn + list Series :=
  if c <? ncols
  then inr (map (fun row => upd row c (blank_to_nan (row c))) data)
  else inl (KeyError c).

(** [data[c] = data[c].ffill()], [last] being the last valid value above. *)
Fixpoint ffill_from (c : nat) (last : cell) (data : list Series)
  : list Series :=
  match data with
  | [] => []
  | row :: rest =>
      let v := if isna (row c) then last else row c in
      upd row c v :: ffill_from c v rest
  end.

Definition ffill (c : nat) (data : list Series) : list Series :=
  ffill_from c NaN data.

(** [data.dropna(subset=[c])] *)
Definition dropna (c : nat) (data : list Series) : list Series :=
  filter (fun row => negb (isna (row c))) data.

(* ------------------------------------------------------------------ *)
(** ** Insertion-ordered dictionaries *)

Definition dict (K V : Type) : Type := list (K * V).

Section Dict.
Context {K V : Type}.
Variable keq : K -> K -> bool.

(** [d.get(k)] *)
Fixpoint dict_get (k : K) (d : dict K V) : option V :=
  match d with
  | [] => None
  | (k', v) :: d' => if keq k k' then Some v else dict_get k d'
  end.

(** [d[k] = v]: an existing key keeps its place, a new one goes last. *)
Fixpoint dict_set (k : K) (v : V) (d : dict K V) : dict K V :=
  match d with
  | [] => [(k, v)]
  | (k', v') :: d' =>
      if keq k k' then (k, v) :: d' else (k', v') :: dict_set k v d'
  end.

(** [d.get(k, default)] *)
Definition dict_get_or (k : K) (default : V) (d : dict K V) : V :=
  match dict_get k d with
  | Some v => v
  | None => default
  end.

(** [k in d] *)
Definition dict_mem (k : K) (d : dict K V) : bool :=
  match dict_get k d with
  | Some _ => true
  | None => false
  end.
End Dict.

(* ------------------------------------------------------------------ *)
(** ** Column roles *)

(** The keys of a task bundle: 'Attendance_Status', 'Activity Category',
    'Task Priority', 'Start Time', 'End Time', 'Work Time (Mins)',
    'Description'. *)
Inductive field : Type :=
| Attendance_Status
| Activity_Category
| Task_Priority
| Start_Time
| End_Time
| Work_Time_Mins
| Description.

Definition field_eqb (a b : field) : bool :=
  match a, b with
  | Attendance_Status, Attendance_Status
  | Activity_Category, Activity_Category
  | Task_Priority, Task_Priority
  | Start_Time, Start_Time
  | End_Time, End_Time
  | Work_Time_Mins, Work_Time_Mins
  | Description, Description => true
  | _, _ => false
  end.

(** The [if/elif] chain over [header_val]. *)
Definition classify (header_val : string) : option field :=
  if Py.contains "Attendance" header_val then Some Attendance_Status
  else if Py.contains "Activity Category" header_val then Some Activity_Category
  else if Py.contains "Task Priority" header_val then Some Task_Priority
  else if Py.contains "Start" header_val then Some Start_Time
  else if Py.contains "End" header_val then Some End_Time
  else if Py.contains "Work Time" header_val || Py.contains "Mins" header_val
       then Some Work_Time_Mins
  else if Py.contains "Description" header_val then Some Description
  else None.

(** [val and val.lower() != 'nan'] *)
Definition is_date_label (val : string) : bool :=
  Py.truthy val && negb (Py.lower val =? "nan")%string.

(** [current_date_str and field], on a pair that passed the test. *)
Definition date_and_field (current_date_str : option string)
  (fld : option field) : option (string * field) :=
  match current_date_str, fld with
  | Some d, Some f => if Py.truthy d then Some (d, f) else None
  | _, _ => None
  end.

Definition ColMap : Type := dict nat (string * field).

(** The body of [for c in range(7, total_cols)], over the columns [cols]
    still to visit. *)
Fixpoint scan_columns (dates_row headers_row : Series) (cols : list nat)
  (current_date_str : option string) (col_map : ColMap) : ColMap :=
  match cols with
  | [] => col_map
  | c :: cols' =>
      let val := Py.strip (str (dates_row c)) in
      let current_date_str :=
        if is_date_label val then Some val else current_date_str in
      let header_val := Py.strip (str (headers_row c)) in
      let fld := classify header_val in
      let col_map :=
        match date_and_field current_date_str fld with
        | Some df => dict_set Nat.eqb c df col_map
        | None => col_map
        end in
      scan_columns dates_row headers_row cols' current_date_str col_map
  end.

Definition build_col_map (dates_row headers_row : Series) (total_cols : nat)
  : ColMap :=
  scan_columns dates_row headers_row (seq 7 (total_cols - 7)) None [].

(* ------------------------------------------------------------------ *)
(** ** Row reconstruction *)

Definition TaskData : Type := dict field cell.
Definition RowTasks : Type := dict string TaskData.

(** One turn of [for col_idx, (date_str, field) in col_map.items()]. *)
Definition add_cell (row : Series) (row_tasks : RowTasks)
  (item : nat * (string * field)) : RowTasks :=
  let '(col_idx, (date_str, fld)) := item in
  let cell_val := row col_idx in
  let row_tasks :=
    if dict_mem String.eqb date_str row_tasks then row_tasks
    else dict_set String.eqb date_str [] row_tasks in
  dict_set String.eqb date_str
    (dict_set field_eqb fld cell_val
       (dict_get_or String.eqb date_str [] row_tasks))
    row_tasks.

Definition build_row_tasks (col_map : ColMap) (row : Series) : RowTasks :=
  fold_left (add_cell row) col_map [].

(** A dictionary appended to [processed_rows]. *)
Record entry : Type := mkEntry {
  e_Employee_Name : cell;
  e_Location : cell;
  e_Date : string;
  e_Attendance : cell;
  e_Activity_Category : cell;
  e_Task_Priority : cell;
  e_Start_Time : cell;
  e_End_Time : cell;
  e_Work_Time_Mins : cell;
  e_Description : cell
}.

(** [t == '' or t.lower() == 'nan'] *)
Definition is_blank (t : string) : bool :=
  (t =? "")%string || (Py.lower t =? "nan")%string.

(** The test before [continue]: the bundle is skipped when it holds. *)
Definition is_empty_task (task_data : TaskData) : bool :=
  let activity :=
    Py.strip (str (dict_get_or field_eqb Activity_Category (Str "") task_data)) in
  let desc :=
    Py.strip (str (dict_get_or field_eqb Description (Str "") task_data)) in
  is_blank activity && is_blank desc.

Definition make_entry (emp_name location : cell) (date_str : string)
  (task_data : TaskData) : entry :=
  {| e_Employee_Name := emp_name;
     e_Location := location;
     e_Date := date_str;
     e_Attendance := dict_get_or field_eqb Attendance_Status NaN task_data;
     e_Activity_Category := dict_get_or field_eqb Activity_Category NaN task_data;
     e_Task_Priority := dict_get_or field_eqb Task_Priority NaN task_data;
     e_Start_Time := dict_get_or field_eqb Start_Time NaN task_data;
     e_End_Time := dict_get_or field_eqb End_Time NaN task_data;
     e_Work_Time_Mins := dict_get_or field_eqb Work_Time_Mins (Num "0") task_data;
     e_Description := dict_get_or field_eqb Description (Str "") task_data |}.

(** [for date_str, task_data in row_tasks.items()] *)
Definition flatten_row_tasks (emp_name location : cell)
  (row_tasks : RowTasks) : list entry :=
  flat_map
    (fun item : string * TaskData =>
       let '(date_str, task_data) := item in
       if is_empty_task task_data then []
       else [make_entry emp_name location date_str task_data])
    row_tasks.

(** The body of [for idx, row in data.iterrows()]. *)
Definition row_entries (col_map : ColMap) (row : Series) : list entry :=
  let emp_name := row 1 in
  let location := row 2 in
  flatten_row_tasks emp_name location (build_row_tasks col_map row).

Definition processed_rows (col_map : ColMap) (data : list Series)
  : list entry :=
  flat_map (row_entries col_map) data.

(* ------------------------------------------------------------------ *)
(** ** Regular expressions, as [re] runs them *)

Module Re.

(** The fragment of patterns the program and [datetime.strptime] use.
    [Chr] is a literal compared under [IGNORECASE]; [Many1 p] is the greedy
    [p+] over a character class. *)
Inductive re : Type :=
| Eps
| Chr (c : ascii)
| Cls (p : ascii -> bool)
| Many1 (p : ascii -> bool)
| Cat (a b : re)
| Alt (a b : re)
| Group (name : string) (a : re).

Definition captures : Type := list (string * string).

Section Exec.
Context {R : Type}.

(** Greedy [p*]: the longest run first, giving characters back one at a
    time while the continuation fails. *)
Fixpoint many0 (p : ascii -> bool) (s : string) (k : string -> option R)
  : option R :=
  match s with
  | String x s' =>
      if p x
      then match many0 p s' k with
           | Some r => Some r
           | None => k s
           end
      else k s
  | EmptyString => k s
  end.

(** Backtracking match of [r] at the head of [s]; [k] is what remains of
    the pattern. *)
Fixpoint exec (r : re) (s : string) (caps : captures)
  (k : string -> captures -> option R) : option R :=
  match r with
  | Eps => k s caps
  | Chr c =>
      match s with
      | String x s' =>
          if Ascii.eqb (Py.lower_char x) (Py.lower_char c)
          then k s' caps else None
      | EmptyString => None
      end
  | Cls p =>
      match s with
      | String x s' => if p x then k s' caps else None
      | EmptyString => None
      end
  | Many1 p =>
      match s with
      | String x s' =>
          if p x then many0 p s' (fun s'' => k s'' caps) else None
      | EmptyString => None
      end
  | Cat a b => exec a s caps (fun s' caps' => exec b s' caps' k)
  | Alt a b =>
      match exec a s caps k with
      | Some r => Some r
      | None => exec b s caps k
      end
  | Group name a =>
      exec a s caps
        (fun s' caps' =>
           k s' ((name, Py.take (String.length s - String.length s') s) :: caps'))
  end.
End Exec.

(** [pattern.match(s)]: the captures and the unmatched tail. *)
Definition rmatch (r : re) (s : string) : option (string * captures) :=
  exec r s [] (fun s' caps => Some (s', caps)).

Fixpoint lit (s : string) : re :=
  match s with
  | EmptyString => Eps
  | String c s' => Cat (Chr c) (lit s')
  end.

Fixpoint alts (l : list re) : re :=
  match l with
  | [] => Cls (fun _ => false)
  | [r] => r
  | r :: l' => Alt r (alts l')
  end.

Fixpoint cats (l : list re) : re :=
  match l with
  | [] => Eps
  | r :: l' => Cat r (cats l')
  end.

Definition range (lo hi : ascii) : re :=
  Cls (fun x => Py.between (Py.code lo) (Py.code hi) (Py.code x)).

Definition group_get (name : string) (caps : captures) : string :=
  dict_get_or String.eqb name "" caps.

End Re.

(* ------------------------------------------------------------------ *)
(** ** Date parsing *)

(** The rewriting [re.sub(r'(\d+)(st|nd|rd|th)', r'\1', s)].  A match starts
    at a digit and takes the whole run of digits up to the suffix, so while
    scanning it is enough to know whether the previous character kept was a
    digit of the current attempt; after a suffix is removed the search
    resumes behind it. *)
Fixpoint sub_ordinal_from (after_digit : bool) (s : string) : string :=
  match s with
  | EmptyString => EmptyString
  | String c rest =>
      if after_digit &&
         (prefix "st" s || prefix "nd" s || prefix "rd" s || prefix "th" s)
      then match rest with
           | String _ rest' => sub_ordinal_from false rest'
           | EmptyString => EmptyString
           end
      else String c (sub_ordinal_from (Py.isdigit c) rest)
  end.

Definition sub_ordinal (s : string) : string := sub_ordinal_from false s.

Record date : Type := mkDate { year : nat; month : nat; day : nat }.

Module Strptime.

(** [calendar.day_abbr] and [calendar.month_abbr], lower-cased, in the C
    locale. *)
Definition a_weekday : list string :=
  ["mon"; "tue"; "wed"; "thu"; "fri"; "sat"; "sun"].

Definition a_month : list string :=
  [""; "jan"; "feb"; "mar"; "apr"; "may"; "jun";
   "jul"; "aug"; "sep"; "oct"; "nov"; "dec"].

Definition seqToRE (names : list string) (directive : string) : Re.re :=
  Re.Group directive (Re.alts (map Re.lit names)).

(** The directives of [TimeRE] met in the format. *)
Definition re_a : Re.re := seqToRE a_weekday "a".
Definition re_b : Re.re := seqToRE (tl a_month) "b".

(** [(?P<d>3[0-1]|[1-2]\d|0[1-9]|[1-9]| [1-9])] *)
Definition re_d : Re.re :=
  Re.Group "d"
    (Re.alts
       [Re.Cat (Re.Chr "3") (Re.range "0" "1");
        Re.Cat (Re.range "1" "2") (Re.Cls Py.isdigit);
        Re.Cat (Re.Chr "0") (Re.range "1" "9");
        Re.range "1" "9";
        Re.Cat (Re.Chr " ") (Re.range "1" "9")]).

(** [(?P<y>\d\d)] *)
Definition re_y : Re.re :=
  Re.Group "y" (Re.Cat (Re.Cls Py.isdigit) (Re.Cls Py.isdigit)).

(** The pattern compiled from ["%a, %b %d, %y"]: every run of blanks of the
    format becomes [\s+]. *)
Definition format_regex : Re.re :=
  Re.cats [re_a; Re.Chr ","; Re.Many1 Py.isspace;
           re_b; Re.Many1 Py.isspace;
           re_d; Re.Chr ","; Re.Many1 Py.isspace;
           re_y].

(** [int(s)] for a text of blanks and decimal digits. *)
Definition int_of (s : string) : nat :=
  let fix go (acc : nat) (t : string) : nat :=
    match t with
    | EmptyString => acc
    | String c t' =>
        if Py.isdigit c then go (10 * acc + (Py.code c - 48)) t' else go acc t'
    end in
  go 0 s.

(** [names.index(x)] *)
Fixpoint index_of (x : string) (names : list string) : option nat :=
  match names with
  | [] => None
  | n :: names' =>
      if (x =? n)%string then Some 0
      else option_map S (index_of x names')
  end.

Definition is_leap (y : nat) : bool :=
  (y mod 4 =? 0) && (negb (y mod 100 =? 0) || (y mod 400 =? 0)).

Definition days_in_month (y m : nat) : nat :=
  match m with
  | 2 => if is_leap y then 29 else 28
  | 4 | 6 | 9 | 11 => 30
  | _ => 31
  end.

(** [datetime.strptime(data_string, "%a, %b %d, %y")]; [None] is a raised
    [ValueError]. *)
Definition strptime (data_string : string) : option date :=
  match Re.rmatch format_regex data_string with
  | None => None
  | Some (rest, found_dict) =>
      if negb (rest =? "")%string then None
      else
        let y := int_of (Re.group_get "y" found_dict) in
        let year := if y <=? 68 then y + 2000 else y + 1900 in
        match index_of (Py.lower (Re.group_get "b" found_dict)) a_month,
              index_of (Py.lower (Re.group_get "a" found_dict)) a_weekday with
        | Some month, Some _ =>
            let day := int_of (Re.group_get "d" found_dict) in
            if (1 <=? day) && (day <=? days_in_month year month)
            then Some (mkDate year month day)
            else None
        | _, _ => None
        end
  end.

End Strptime.

(** [parse_custom_date]; [None] is [pd.NaT]. *)
Definition parse_custom_date (d_str : string) : option date :=
  let clean_d := sub_ordinal d_str in
  Strptime.strptime clean_d.

(* ------------------------------------------------------------------ *)
(** ** Numbers read from text *)

(** A Python [float] as [float(text)] builds it.  [FDec neg m e] is the
    decimal [(-1)^neg * m * 10^e] the text denotes; Python keeps the binary64
    value nearest to it, a rounding this embedding leaves out. *)
Inductive pyfloat : Type :=
| FNaN
| FInf (neg : bool)
| FDec (neg : bool) (mant : N) (exp10 : Z).

(** A Python number returned by [clean_minutes]: the [int] of [return 0] or
    a [float]. *)
Inductive number : Type :=
| PInt (z : Z)
| PFloat (f : pyfloat).

Module Float.

(** Blanks that [float] skips at both ends: [Py_ISSPACE], and the spaces
    above 127 that are first turned into [' ']. *)
Definition isspace (c : ascii) : bool :=
  let n := Py.code c in
  Py.between 9 13 n || (n =? 32) || (n =? 133) || (n =? 160).

Fixpoint ltrim (s : string) : string :=
  match s with
  | String c s' => if isspace c then ltrim s' else s
  | EmptyString => EmptyString
  end.

Fixpoint rtrim (s : string) : string :=
  match s with
  | EmptyString => EmptyString
  | String c s' =>
      match rtrim s' with
      | EmptyString => if isspace c then EmptyString else String c EmptyString
      | r => String c r
      end
  end.

(** Underscores are dropped when each stands between two digits; any other
    underscore is an error.  [prev] is the character before [s]. *)
Fixpoint strip_underscores (prev : option ascii) (s : string)
  : option string :=
  let prev_digit :=
    match prev with Some p => Py.isdigit p | None => false end in
  let prev_underscore :=
    match prev with Some p => Ascii.eqb p "_" | None => false end in
  match s with
  | EmptyString => if prev_underscore then None else Some EmptyString
  | String c s' =>
      if Ascii.eqb c "_"
      then if prev_digit then strip_underscores (Some c) s' else None
      else if prev_underscore && negb (Py.isdigit c) then None
      else option_map (String c) (strip_underscores (Some c) s')
  end.

(** The leading decimal digits of [s]: their value after [acc], how many
    they are, and what follows. *)
Fixpoint digits (acc : N) (s : string) : N * nat * string :=
  match s with
  | String c s' =>
      if Py.isdigit c
      then let '(v, n, r) := digits (10 * acc + N.of_nat (Py.code c - 48)) s' in
           (v, S n, r)
      else (acc, 0, s)
  | EmptyString => (acc, 0, s)
  end.

(** An optional sign: whether it is ['-'], and what follows. *)
Definition sign (s : string) : bool * string :=
  match s with
  | String c s' =>
      if Ascii.eqb c "-" then (true, s')
      else if Ascii.eqb c "+" then (false, s')
      else (false, s)
  | EmptyString => (false, s)
  end.

(** What may follow the mantissa: nothing, or a complete exponent. *)
Definition exponent (s : string) : option Z :=
  match s with
  | EmptyString => Some 0%Z
  | String c s' =>
      if Ascii.eqb (Py.lower_char c) "e"
      then let '(neg, t) := sign s' in
           match digits 0 t with
           | (v, S _, EmptyString) =>
               Some (if neg then (- Z.of_N v)%Z else Z.of_N v)
           | _ => None
           end
      else None
  end.

(** [inf], [infinity] and [nan] in any case, after the sign. *)
Definition inf_or_nan (neg : bool) (s : string) : option pyfloat :=
  let l := Py.lower s in
  if (l =? "inf")%string || (l =? "infinity")%string then Some (FInf neg)
  else if (l =? "nan")%string then Some FNaN
  else None.

(** The number a text without blanks or underscores denotes. *)
Definition parse (s : string) : option pyfloat :=
  let '(neg, t) := sign s in
  let '(ip, ni, r1) := digits 0 t in
  let '(m, nf, r2) :=
    match r1 with
    | String c r =>
        if Ascii.eqb c "." then digits ip r else (ip, 0, r1)
    | EmptyString => (ip, 0, r1)
    end in
  if (ni + nf =? 0)
  then inf_or_nan neg t
  else match exponent r2 with
       | Some e => Some (FDec neg m (e - Z.of_nat nf))
       | None => None
       end.

(** [float(s)]; [None] is a raised [ValueError]. *)
Definition float (s : string) : option pyfloat :=
  match strip_underscores None (rtrim (ltrim s)) with
  | Some t => parse t
  | None => None
  end.

End Float.

(** [clean_minutes]: any exception raised inside makes it return [0]. *)
Definition clean_minutes (x : cell) : number :=
  if isna x || (Py.strip (str x) =? "")%string then PInt 0
  else match Float.float (Py.remove_commas (str x)) with
       | Some f => PFloat f
       | None => PInt 0
       end.

(* ------------------------------------------------------------------ *)
(** ** Billing *)

Definition billable_keywords : list string :=
  ["Training"; "Assessment"; "Content"; "Development"].

(** [check_billable] *)
Definition check_billable (cat : cell) : bool :=
  let cat_str := Py.lower (str cat) in
  existsb (fun k => Py.contains (Py.lower k) cat_str) billable_keywords.

(* ------------------------------------------------------------------ *)
(** ** The whole load *)

(** A row of the frame returned on success.  The columns 'Month', 'Week'
    and 'DayOfWeek' are computed from [Date_Obj] alone and are not kept
    here. *)
Record task_record : Type := mkRecord {
  r_Employee_Name : cell;
  r_Location : cell;
  r_Date : string;
  r_Attendance : cell;
  r_Activity_Category : cell;
  r_Task_Priority : cell;
  r_Start_Time : cell;
  r_End_Time : cell;
  r_Work_Time_Mins : number;
  r_Description : cell;
  Date_Obj : option date;
  Is_Billable : bool
}.

(** The column assignments after [df = pd.DataFrame(processed_rows)], on
    one row. *)
Definition post_process (e : entry) : task_record :=
  {| r_Employee_Name := e_Employee_Name e;
     r_Location := e_Location e;
     r_Date := e_Date e;
     r_Attendance := e_Attendance e;
     r_Activity_Category := e_Activity_Category e;
     r_Task_Priority := e_Task_Priority e;
     r_Start_Time := e_Start_Time e;
     r_End_Time := e_End_Time e;
     r_Work_Time_Mins := clean_minutes (e_Work_Time_Mins e);
     r_Description := e_Description e;
     Date_Obj := parse_custom_date (e_Date e);
     Is_Billable := check_billable (e_Activity_Category e) |}.

(** The second member of the returned pair, when it is not [None]:
    [f"Error loading CSV: {e}"], ["No data found."], or
    [f"Error processing data: {str(e)}\n{traceback.format_exc()}"]. *)
Inductive message : Type :=
| Error_loading_CSV (e : string)
| No_data_found
| Error_processing_data (e : exn).

Definition bind {A B : Type} (m : exn + A) (f : A -> exn + B) : exn + B :=
  match m with
  | inl e => inl e
  | inr a => f a
  end.

Notation "x <- m ;; k" := (bind m (fun x => k))
  (at level 61, m at next level, right associativity).

Definition date_row_idx : nat := 1.
Definition header_row_idx : nat := 2.
Definition data_start_idx : nat := 3.

(** The rows of [data] once blank identity cells are made missing and
    filled from above. *)
Definition filled_data (df_raw : DataFrame) : exn + list Series :=
  let data := iloc_from df_raw data_start_idx in
  data <- replace_blank (shape1 df_raw) 1 data ;;
  data <- replace_blank (shape1 df_raw) 2 data ;;
  let data := ffill 1 data in
  let data := ffill 2 data in
  inr data.

(** [data] after the rows without an employee are removed. *)
Definition clean_data (df_raw : DataFrame) : exn + list Series :=
  data <- filled_data df_raw ;;
  inr (dropna 1 data).

(** The second [try] up to [df = pd.DataFrame(processed_rows)]. *)
Definition reconstruct (df_raw : DataFrame) : exn + list entry :=
  data <- clean_data df_raw ;;
  dates_row <- iloc df_raw date_row_idx ;;
  headers_row <- iloc df_raw header_row_idx ;;
  let total_cols := shape1 df_raw in
  let col_map := build_col_map dates_row headers_row total_cols in
  inr (processed_rows col_map data).

(** The body of the second [try]. *)
Definition process (df_raw : DataFrame)
  : exn + (list task_record * option message) :=
  df <- reconstruct df_raw ;;
  match df with
  | [] => inr ([], Some No_data_found)
  | _ => inr (map post_process df, None)
  end.

Section Loader.
(** [pd.read_csv(file_path, header=None)]: the frame, or the text of the
    exception it raises. *)
Variable read_csv : string -> string + DataFrame.

Definition load_and_clean_data (file_path : string)
  : list task_record * option message :=
  match read_csv file_path with
  | inl e => ([], Some (Error_loading_CSV e))
  | inr df_raw =>
      match process df_raw with
      | inl e => ([], Some (Error_processing_data e))
      | inr result => result
      end
  end.
End Loader.


(* ================================================================== *)
(** * Specification-side definitions *)

(** The keyword set of the billing rule, in lower case. *)
Definition keyword_set : list string :=
  ["training"; "assessment"; "content"; "development"].

(** The ordinal suffixes removed from a date label. *)
Definition ordinal_suffixes : list string := ["st"; "nd"; "rd"; "th"].

Fixpoint all_digits (s : string) : bool :=
  match s with
  | EmptyString => true
  | String c s' => Py.isdigit c && all_digits s'
  end.

Fixpoint no_digit (s : string) : bool :=
  match s with
  | EmptyString => true
  | String c s' => negb (Py.isdigit c) && no_digit s'
  end.

(** A sheet with one day block under the label [label], whose only data
    row has the cells [name], [location], [activity] and [description]. *)
Definition identity_headers : list cell :=
  [Str "Sl. No."; Str "Employee Name"; Str "Location";
   Str "P"; Str "L"; Str "A"; Str "WO/H"].

Definition block_headers : list cell :=
  [Str "Attendance"; Str "Activity Category"; Str "Task Priority";
   Str "Start"; Str "End"; Str "Work Time (Mins)"; Str "Description"].

Definition no_cells (n : nat) : list cell := repeat NaN n.

Definition one_day_sheet (label : cell) (name location activity description : cell)
  : DataFrame :=
  frame_of_rows
    [ no_cells 14;
      (no_cells 7 ++ [label])%list;
      (identity_headers ++ block_headers)%list;
      ([Str "1"; name; location] ++ no_cells 4 ++
       [Str "P"; activity; Str "High"; Str "09:00"; Str "10:00";
        Str "1,250"; description])%list ].

(** The ordered table of header markers and the role each one gives. *)
Definition markers : list (string * field) :=
  [("Attendance", Attendance_Status);
   ("Activity Category", Activity_Category);
   ("Task Priority", Task_Priority);
   ("Start", Start_Time);
   ("End", End_Time);
   ("Work Time", Work_Time_Mins);
   ("Mins", Work_Time_Mins);
   ("Description", Description)].

(** The role of the first marker of [table] found in [header_val]. *)
Fixpoint first_marker (table : list (string * field)) (header_val : string)
  : option field :=
  match table with
  | [] => None
  | (m, f) :: table' =>
      if Py.contains m header_val then Some f
      else first_marker table' header_val
  end.

(** The date label in force at column [start + n - 1] when the scan began
    at column [start]: the nearest date label at or left of that column and
    not left of [start]. *)
Fixpoint label_in_force (dates_row : Series) (start n : nat)
  : option string :=
  match n with
  | 0 => None
  | S n' =>
      let val := Py.strip (str (dates_row (start + n'))) in
      if is_date_label val then Some val
      else label_in_force dates_row start n'
  end.

(** A cell that is not blank once trimmed; a missing cell is blank. *)
Definition nonblank (x : cell) : bool :=
  negb (isna x) && negb (Py.strip (str x) =? "")%string.

(** The rule for column [c] as the specification words it: [c] is in the
    role map exactly when a date-axis cell at an index up to [c] is not
    blank and the field-axis cell of [c] holds a marker. *)
Definition role_map_rule_as_specified (df_raw : DataFrame) (c : nat) : Prop :=
  dict_mem Nat.eqb c
    (build_col_map (iat df_raw 1) (iat df_raw 2) (shape1 df_raw)) = true <->
  (exists j, j <= c /\ nonblank (iat df_raw 1 j) = true) /\
  (exists f,
      first_marker markers (Py.strip (str (iat df_raw 2 c))) = Some f).

(** A sheet whose date row only holds a caption left of the day blocks. *)
Definition caption_sheet : DataFrame :=
  frame_of_rows
    [ no_cells 8;
      [Str "Timesheet"];
      (identity_headers ++ [Str "Attendance"])%list;
      ([Str "1"; Str "Asha"; Str "Pune"] ++ no_cells 4 ++ [Str "P"])%list ].

(** A sheet whose date cell over column 7 holds the text "NAN". *)
Definition nan_label_sheet : DataFrame :=
  frame_of_rows
    [ no_cells 8;
      (no_cells 7 ++ [Str "NAN"])%list;
      (identity_headers ++ [Str "Attendance"])%list;
      ([Str "1"; Str "Asha"; Str "Pune"] ++ no_cells 4 ++ [Str "P"])%list ].

(** The cell an entry keeps under the role [f]. *)
Definition entry_field (f : field) (e : entry) : cell :=
  match f with
  | Attendance_Status => e_Attendance e
  | Activity_Category => e_Activity_Category e
  | Task_Priority => e_Task_Priority e
  | Start_Time => e_Start_Time e
  | End_Time => e_End_Time e
  | Work_Time_Mins => e_Work_Time_Mins e
  | Description => e_Description e
  end.

(** The value an entry takes for a role that no column of the day gave. *)
Definition field_default (f : field) : cell :=
  match f with
  | Work_Time_Mins => Num "0"
  | Description => Str ""
  | _ => NaN
  end.

(** The cell a bundle holds under [f], if any. *)
Definition cell_of (row_tasks : RowTasks) (date_str : string) (f : field)
  : option cell :=
  match dict_get String.eqb date_str row_tasks with
  | Some task_data => dict_get field_eqb f task_data
  | None => None
  end.

(** The column of the last item of the role map that carries
    [(date_str, f)]. *)
Fixpoint last_write (col_map : ColMap) (date_str : string) (f : field)
  : option nat :=
  match col_map with
  | [] => None
  | (c, (d, f')) :: rest =>
      match last_write rest date_str f with
      | Some c' => Some c'
      | None => if String.eqb d date_str && field_eqb f' f then Some c else None
      end
  end.

(** The cell of a bundle under [f]; a role without a column is a missing
    cell. *)
Definition bundle_cell (f : field) (task_data : TaskData) : cell :=
  dict_get_or field_eqb f NaN task_data.

(** A cell that counts as filled for the program: once made a text and
    trimmed, it is neither empty nor "nan" in any letter case. *)
Definition is_filled (x : cell) : bool :=
  negb (is_blank (Py.strip (str x))).

(** The validity rule as the specification words it, for the bundles of
    one row: the bundle of a date label gives a record exactly when its
    Activity Category or its Description is not blank once trimmed. *)
Definition validity_rule_as_specified (col_map : ColMap) (row : Series)
  : Prop :=
  forall (date_str : string) (task_data : TaskData),
    In (date_str, task_data) (build_row_tasks col_map row) ->
    ((exists e, In e (row_entries col_map row) /\ e_Date e = date_str) <->
     nonblank (bundle_cell Activity_Category task_data) ||
     nonblank (bundle_cell Description task_data) = true).

(** A sheet whose only activity is the text "NAN", without description. *)
Definition nan_activity_sheet : DataFrame :=
  one_day_sheet (Str "Sat, Nov 01, 25") (Str "Asha") (Str "Pune")
    (Str "NAN") NaN.

(** A day block with two "Description" columns. *)
Definition two_descriptions_sheet : DataFrame :=
  frame_of_rows
    [ no_cells 10;
      (no_cells 7 ++ [Str "Sat, Nov 01, 25"])%list;
      (identity_headers ++
       [Str "Activity Category"; Str "Description"; Str "Description"])%list;
      ([Str "1"; Str "Asha"; Str "Pune"] ++ no_cells 4 ++
       [Str "Training"; Str "first"; Str "second"])%list ].

(** The last value of a column that is not missing; [NaN] when none is. *)
Definition last_valid_from (last : cell) (col : list cell) : cell :=
  fold_left (fun acc x => if isna x then acc else x) col last.

Definition last_valid (col : list cell) : cell := last_valid_from NaN col.

(** A column of cells filled from above. *)
Fixpoint ffill_values (last : cell) (col : list cell) : list cell :=
  match col with
  | [] => []
  | x :: col' =>
      let v := if isna x then last else x in
      v :: ffill_values v col'
  end.

(** Column [c] of a list of rows. *)
Definition column (c : nat) (data : list Series) : list cell :=
  map (fun row => row c) data.

(** The cells of column [c] in the data rows [0 .. i] of the sheet (rows
    [3 .. 3+i] of the frame), blank texts taken as missing. *)
Definition identity_cells (df_raw : DataFrame) (c i : nat) : list cell :=
  map (fun r => blank_to_nan (iat df_raw r c)) (seq 3 (S i)).

(** The nearest cell of column [c] at or above data row [i] that is not
    blank. *)
Definition nearest_above (df_raw : DataFrame) (c i : nat) : cell :=
  last_valid (identity_cells df_raw c i).

(** An employee name that is present: not missing and not a text of
    blanks. *)
Definition name_ok (x : cell) : bool :=
  match x with
  | NaN => false
  | Str s => negb (Py.all_space s)
  | Num _ => true
  end.

(** A sheet of two data rows for one employee: the second row has no name
    of its own, and no row gives a location. *)
Definition continuation_sheet : DataFrame :=
  frame_of_rows
    [ no_cells 9;
      (no_cells 7 ++ [Str "Sat, Nov 01, 25"])%list;
      (identity_headers ++ [Str "Activity Category"; Str "Description"])%list;
      ([Str "1"; Str "Asha"; Str " "] ++ no_cells 4 ++
       [Str "Training"; Str "Morning"])%list;
      ([NaN; Str "  "; NaN] ++ no_cells 4 ++
       [Str "Travel"; Str "Evening"])%list ].

(** A sheet whose first data row has no employee name. *)
Definition nameless_sheet : DataFrame :=
  frame_of_rows
    [ no_cells 9;
      (no_cells 7 ++ [Str "Sat, Nov 01, 25"])%list;
      (identity_headers ++ [Str "Activity Category"; Str "Description"])%list;
      ([NaN; Str " "; Str "Pune"] ++ no_cells 4 ++
       [Str "Total"; Str "Footer"])%list ].

(** A cell that is either missing or present in the sense of [name_ok]:
    what [blank_to_nan] returns. *)
Definition missing_or_present (x : cell) : bool := isna x || name_ok x.

(* ================================================================== *)
(** * Further specification-side definitions *)

From Stdlib Require Import Sorted.

(** The date label of an item of the role map. *)
Definition item_label (item : nat * (string * field)) : string :=
  fst (snd item).

(** The labels of [l] that are not in [seen], each at its first
    occurrence. *)
Fixpoint dedup_first (seen l : list string) : list string :=
  match l with
  | [] => []
  | d :: l' =>
      if existsb (String.eqb d) seen then dedup_first seen l'
      else d :: dedup_first (seen ++ [d])%list l'
  end.

(** The date labels of a role map in the order of their first columns. *)
Definition first_labels (col_map : ColMap) : list string :=
  dedup_first [] (map item_label col_map).

(** Whether the bundle of [date_str] in the row passes the validity
    test. *)
Definition has_record (col_map : ColMap) (row : Series) (date_str : string)
  : bool :=
  negb (is_empty_task
          (dict_get_or String.eqb date_str [] (build_row_tasks col_map row))).

(** What an item of the role map satisfies, for a scan that began at
    column [lo] and has reached column [hi]. *)
Definition item_ok (lo hi : nat) (item : nat * (string * field)) : Prop :=
  lo <= fst item /\ fst item < hi /\
  is_date_label (item_label item) = true /\
  Py.strip (item_label item) = item_label item.


(** The cell of data row [i] that a record of date [date_str] shows for the
    field [f]: the one in the last column the role map gives to that date
    and that field, or the default of the field when there is none. *)
Definition day_cell (df_raw : DataFrame) (i : nat) (date_str : string)
  (f : field) : cell :=
  match last_write
          (build_col_map (iat df_raw 1) (iat df_raw 2) (shape1 df_raw))
          date_str f with
  | Some c => iat df_raw (3 + i) c
  | None => field_default f
  end.

(** Whether [s] begins with one of the ordinal suffixes. *)
Definition starts_with_suffix (s : string) : bool :=
  prefix "st" s || prefix "nd" s || prefix "rd" s || prefix "th" s.

(** Whether some digit of [s] is directly followed by an ordinal suffix. *)
Fixpoint has_ordinal (s : string) : bool :=
  match s with
  | EmptyString => false
  | String c rest =>
      (Py.isdigit c && starts_with_suffix rest) || has_ordinal rest
  end.

(** The whole number written by the digits of [s], read after [acc]; the
    other characters are skipped. *)
Fixpoint digits_value (acc : N) (s : string) : N :=
  match s with
  | EmptyString => acc
  | String c s' =>
      if Py.isdigit c
      then digits_value (10 * acc + N.of_nat (Py.code c - 48)) s'
      else digits_value acc s'
  end.

(** A text made of decimal digits and commas only. *)
Fixpoint digits_or_commas (s : string) : bool :=
  match s with
  | EmptyString => true
  | String c s' => (Py.isdigit c || Ascii.eqb c ",") && digits_or_commas s'
  end.

Fixpoint has_digit (s : string) : bool :=
  match s with
  | EmptyString => false
  | String c s' => Py.isdigit c || has_digit s'
  end.

(* ------------------------------------------------------------------ *)
(** ** Consumers of the Activity Category column *)

(** [any(k.lower() in text for k in keywords)], [text] being lower-cased
    already. *)
Definition any_keyword (keywords : list string) (text : string) : bool :=
  existsb (fun k => Py.contains (Py.lower k) text) keywords.

(** [analysis_location.py], [plot_location_performance]. *)
Module Location.

(** [categorize] *)
Definition categorize (cat : cell) : string :=
  let cat := Py.lower (str cat) in
  if Py.contains "travel" cat then "Travel"
  else if Py.contains "training" cat || Py.contains "session" cat
       then "Training"
  else if Py.contains "content" cat then "Content Creation"
  else "Other/Admin".

End Location.

(** [analysis_travel.py], [analyze_travel_efficiency]. *)
Module Travel.

Definition travel_keywords : list string := ["Travel"; "Travelling"].
Definition training_keywords : list string := ["Training"; "Session"; "Class"].

(** [is_travel] *)
Definition is_travel (cat : cell) : bool :=
  any_keyword travel_keywords (Py.lower (str cat)).

(** [is_onsite_delivery] *)
Definition is_onsite_delivery (cat : cell) : bool :=
  let cat_str := Py.lower (str cat) in
  let is_tr := any_keyword training_keywords cat_str in
  let is_online := Py.contains "online" cat_str in
  is_tr && negb is_online.

End Travel.

(** [analysis_training.py]. *)
Module Training.

Definition training_keywords : list string := ["Training"; "Session"; "Class"].

(** The row filter of [get_training_metrics].  [astype(str)] is taken as
    pandas 2 does it: every value, a missing one too, becomes the text
    [str] gives for it. *)
Definition is_training (cat : cell) : bool :=
  any_keyword training_keywords (Py.lower (str cat)).

(** [categorize_mode] of [plot_online_vs_offline] *)
Definition categorize_mode (cat : cell) : string :=
  let cat := Py.lower (str cat) in
  if Py.contains "online" cat then "Online"
  else if Py.contains "offline" cat || Py.contains "onsite" cat then "Offline"
  else "Other".

End Training.

(** [analysis_trends.py], [get_weekly_summary]. *)
Module Trends.

(** [check_cat] *)
Definition check_cat (x : cell) (key : string) : bool :=
  Py.contains (Py.lower key) (Py.lower (str x)).

End Trends.

(** [analysis_activities.py]. *)
Module Activities.

Definition custom_palette : list string :=
  ["#F97B72"; "#85C1E9"; "#7DCEA0"; "#F7DC6F";
   "#BB8FCE"; "#F0B27A"; "#76D7C4"; "#D7BDE2"].

(** The body of [for i, cat in enumerate(cat_order)], from rank [i] on.
    [cat_order] is the list of the categories by decreasing total. *)
Fixpoint color_map_from (i : nat) (cat_order : list string)
  (color_map : dict string string) : dict string string :=
  match cat_order with
  | [] => color_map
  | cat :: rest =>
      let color :=
        if Py.contains "other" (Py.lower cat) then "#B0B0B0"
        else nth (i mod List.length custom_palette) custom_palette "" in
      color_map_from (S i) rest (dict_set String.eqb cat color color_map)
  end.

(** [get_activity_color_map], after [cat_order] is computed. *)
Definition get_activity_color_map (cat_order : list string)
  : dict string string :=
  color_map_from 0 cat_order [].

End Activities.

(** The colour the map should give the category of rank [i]. *)
Definition rank_color (i : nat) (cat : string) : string :=
  if Py.contains "other" (Py.lower cat) then "#B0B0B0"
  else nth (i mod 8) Activities.custom_palette "".

(* ------------------------------------------------------------------ *)
(** ** What a match of a pattern is *)

Fixpoint all_chars (p : ascii -> bool) (s : string) : bool :=
  match s with
  | EmptyString => true
  | String c s' => p c && all_chars p s'
  end.

(** [matched r s s' caps caps']: the pattern [r] matches the part of [s]
    that precedes [s'], turning the captures [caps] into [caps']. *)
Fixpoint matched (r : Re.re) (s s' : string) (caps caps' : Re.captures)
  : Prop :=
  match r with
  | Re.Eps => s' = s /\ caps' = caps
  | Re.Chr c =>
      exists x, s = String x s' /\
                Py.lower_char x = Py.lower_char c /\ caps' = caps
  | Re.Cls p => exists x, s = String x s' /\ p x = true /\ caps' = caps
  | Re.Many1 p =>
      exists x pre, s = String x (pre ++ s') /\ p x = true /\
                    all_chars p pre = true /\ caps' = caps
  | Re.Cat a b =>
      exists s1 c1, matched a s s1 caps c1 /\ matched b s1 s' c1 caps'
  | Re.Alt a b => matched a s s' caps caps' \/ matched b s s' caps caps'
  | Re.Group name a =>
      exists c1, matched a s s' caps c1 /\
                 caps' =
                 (name, Py.take (String.length s - String.length s') s) :: c1
  end.

(** A float that carries the minus sign. *)
Definition is_negative (f : pyfloat) : bool :=
  match f with
  | FNaN => false
  | FInf neg => neg
  | FDec neg _ _ => neg
  end.

(** Whether the character [c] occurs in [s]. *)
Fixpoint has_char (c : ascii) (s : string) : bool :=
  match s with
  | EmptyString => false
  | String x s' => Ascii.eqb x c || has_char c s'
  end.

(* ------------------------------------------------------------------ *)
(** ** The PDF report ([pdf_generator.py]) *)

Module Pdf.

(** The content of a paragraph: a plain text, or one of the formatted
    texts of the generator with the values it is built from.  The texts
    are taken to be markup that reportlab's paragraph parser accepts, as
    the titles and the settings of the dashboard are: building a
    paragraph is not a source of exceptions here. *)
Inductive text : Type :=
| Plain (s : string)
| GeneratedOn (now : string)
| ReportConfiguration (page_size_name orientation : string)
| ShowingRows (max_rows len : nat)
| ChartNote (title : string).

Inductive table_kind : Type := SummaryTable | DataTable.

(** The flowables of a story.  Lengths are in tenths of an inch; a style
    is given by its name in [self.styles]; [k] tells which [TableStyle] a
    table carries. *)
Inductive flowable (Png : Type) : Type :=
| Spacer (height : nat)
| Paragraph (t : text) (style : string)
| Table (table_data : list (list string)) (k : table_kind)
| PageBreak
| Image (img_bytes : Png) (width height : nat).

Arguments Spacer {Png} height.
Arguments Paragraph {Png} t style.
Arguments Table {Png} table_data k.
Arguments PageBreak {Png}.
Arguments Image {Png} img_bytes width height.

(** A frame handed to the report: [df.columns.tolist()], and for each row
    of [df.iterrows()], in order, its [row.values].  These are the values
    as [iterrows] yields them, so after pandas has brought the row to one
    dtype (a whole number next to a float arrives as a float); a cell
    stands for a value by the text [str] gives for it. *)
Record frame : Type := mkPdfFrame {
  columns : list string;
  iterrows : list (list cell)
}.

(** A section of the report, by its ['type']. *)
Inductive section (Fig : Type) : Type :=
| Summary (metrics : list (string * cell))
| PageBreakSection
| Chart (fig : Fig) (title : string)
| TableSection (df : frame) (title : string) (max_rows : nat).

Arguments Summary {Fig} metrics.
Arguments PageBreakSection {Fig}.
Arguments Chart {Fig} fig title.
Arguments TableSection {Fig} df title max_rows.

(** The keys of [config] that the report reads; [None] is a missing key. *)
Record config : Type := mkConfig {
  page_size : option string;
  orientation : option string;
  include_cover : option bool;
  include_tables : option (list string)
}.

Definition get_or {A : Type} (o : option A) (default : A) : A :=
  match o with
  | Some a => a
  | None => default
  end.

(** [max(map(_rowLen, data))], the number of columns [Table] computes. *)
Definition ncols (table_data : list (list string)) : nat :=
  fold_right (fun row n => Nat.max (List.length row) n) 0 table_data.

(** [Table(table_data)] with reportlab's settings left as they are:
    [None] stands for the [ValueError] ("must have at least a row and
    column") raised when the data has no row or no row has a cell. *)
Definition new_table {Png : Type} (table_data : list (list string))
  (k : table_kind) : option (flowable Png) :=
  if (0 <? List.length table_data) && (0 <? ncols table_data)
  then Some (Table table_data k)
  else None.

Section Generator.
Context {Fig Png : Type}.

(** [pio.to_image(fig, ...)]; [None] when it raises. *)
Variable to_image : Fig -> option Png.

(** [datetime.now().strftime('%B %d, %Y at %I:%M %p')] *)
Variable now : string.

(** [create_cover_page()], called without subtitle. *)
Definition create_cover_page (page_size_name orientation : string)
  : list (flowable Png) :=
  [Spacer 20;
   Paragraph (Plain "Timesheet Analytics Report") "CoverTitle";
   Spacer 5;
   Paragraph (GeneratedOn now) "Normal";
   Spacer 10;
   Paragraph (ReportConfiguration page_size_name orientation) "Normal";
   PageBreak].

(** [create_summary_section]; [None] when it raises. *)
Definition create_summary_section (metrics_dict : list (string * cell))
  : option (list (flowable Png)) :=
  let story :=
    [Paragraph (Plain "Executive Summary") "CustomTitle"; Spacer 3] in
  let table_data :=
    ["Metric"; "Value"] ::
    map (fun kv => [fst kv; str (snd kv)]) metrics_dict in
  match new_table table_data SummaryTable with
  | None => None
  | Some table => Some (story ++ [table; Spacer 5])%list
  end.

(** The rows handed to [Table] by [create_data_table]: the column names,
    then the first [max_rows] rows, each value as its text cut to 50
    characters. *)
Definition data_rows (df : frame) (max_rows : nat) : list (list string) :=
  let df_subset := firstn max_rows (iterrows df) in
  columns df ::
  map (fun row => map (fun val => Py.take 50 (str val)) row) df_subset.

(** [create_data_table], for [max_rows >= 0]; [None] when it raises. *)
Definition create_data_table (df : frame) (title : string) (max_rows : nat)
  : option (list (flowable Png)) :=
  let story := [Paragraph (Plain title) "CustomSubtitle"; Spacer 2] in
  match new_table (data_rows df max_rows) DataTable with
  | None => None
  | Some table =>
      let story := (story ++ [table])%list in
      let story :=
        if max_rows <? List.length (iterrows df)
        then (story ++
              [Spacer 1;
               Paragraph (ShowingRows max_rows (List.length (iterrows df)))
                 "Normal"])%list
        else story in
      Some (story ++ [Spacer 3])%list
  end.

(** [add_chart_image], with the default width and height. *)
Definition add_chart_image (fig : Fig) (title : string)
  : list (flowable Png) :=
  [Paragraph (Plain title) "CustomSubtitle"; Spacer 2;
   match to_image fig with
   | Some img_bytes => Image img_bytes 60 40
   | None => Paragraph (ChartNote title) "Normal"
   end;
   Spacer 3].

(** The flowables of one section in [generate_report]; [None] when the
    call that builds them raises. *)
Definition section_story (s : section Fig) : option (list (flowable Png)) :=
  match s with
  | Summary metrics => create_summary_section metrics
  | TableSection df title max_rows => create_data_table df title max_rows
  | Chart fig title => Some (add_chart_image fig title)
  | PageBreakSection => Some [PageBreak]
  end.

(** The loop over [sections]: each section extends [story]; the first one
    that raises ends the loop with its exception. *)
Fixpoint extend_story (sections : list (section Fig))
  (story : list (flowable Png)) : option (list (flowable Png)) :=
  match sections with
  | [] => Some story
  | s :: sections' =>
      match section_story s with
      | None => None
      | Some flowables => extend_story sections' (story ++ flowables)%list
      end
  end.

(** The [story] built by [generate_report]; [None] when a section
    raises. *)
Definition generate_report (page_size_name orientation : string)
  (include_cover : bool) (sections : list (section Fig))
  : option (list (flowable Png)) :=
  extend_story sections
    (if include_cover then create_cover_page page_size_name orientation
     else []).

(** The [sections] built by [create_timesheet_report]; a chart is given
    with its figure and its title, if it has one. *)
Definition report_sections (df : option frame)
  (metrics : list (string * cell)) (charts : list (Fig * option string))
  (cfg : config) : list (section Fig) :=
  ([Summary metrics; PageBreakSection] ++
   map (fun chart_info =>
          Chart (fst chart_info) (get_or (snd chart_info) "Chart")) charts ++
   match df with
   | Some d =>
       if existsb (String.eqb "raw_data") (get_or (include_tables cfg) [])
       then [PageBreakSection; TableSection d "Raw Timesheet Data" 100]
       else []
   | None => []
   end)%list.

(** The story of [create_timesheet_report]; [None] when it raises. *)
Definition create_timesheet_report (df : option frame)
  (metrics : list (string * cell)) (charts : list (Fig * option string))
  (cfg : config) : option (list (flowable Png)) :=
  generate_report
    (get_or (page_size cfg) "A4") (get_or (orientation cfg) "Portrait")
    (get_or (include_cover cfg) true)
    (report_sections df metrics charts cfg).

End Generator.

Definition is_table {Png : Type} (f : flowable Png) : bool :=
  match f with
  | Table _ DataTable => true
  | _ => false
  end.

Definition is_page_break {Png : Type} (f : flowable Png) : bool :=
  match f with
  | PageBreak => true
  | _ => false
  end.

End Pdf.
(* ================================================================== *)
(** * Properties *)

(** ** Text *)

Lemma lstrip_all_space (s : string) :
  Py.all_space s = true -> Py.lstrip s = "".
Proof.
  induction s as [|c s IH]; simpl; [reflexivity|].
  intros H. apply andb_prop in H as [Hc Hs]. rewrite Hc. auto.
Qed.

Lemma rstrip_empty (s : string) :
  Py.rstrip s = "" -> Py.all_space s = true.
Proof.
  induction s as [|c s IH]; simpl; [reflexivity|].
  destruct (Py.rstrip s) eqn:E; [|discriminate].
  destruct (Py.isspace c); [|discriminate].
  intros _. simpl. auto.
Qed.

Lemma lstrip_head (s : string) :
  match Py.lstrip s with
  | String c _ => Py.isspace c = false
  | EmptyString => Py.all_space s = true
  end.
Proof.
  induction s as [|c s IH]; simpl; [reflexivity|].
  destruct (Py.isspace c) eqn:E; simpl.
  - destruct (Py.lstrip s); auto.
  - exact E.
Qed.

(** A text is blank once trimmed exactly when it matches [^\s*$]. *)
Lemma strip_empty_iff (s : string) :
  Py.strip s = "" <-> Py.all_space s = true.
Proof.
  unfold Py.strip. split.
  - intros H. apply rstrip_empty in H.
    pose proof (lstrip_head s) as Hh.
    destruct (Py.lstrip s) as [|c t]; [exact Hh|].
    simpl in H. rewrite Hh in H. discriminate.
  - intros H. rewrite (lstrip_all_space _ H). reflexivity.
Qed.

Lemma strip_eqb_empty (s : string) :
  (Py.strip s =? "")%string = Py.all_space s.
Proof.
  destruct (Py.all_space s) eqn:E.
  - apply String.eqb_eq. now apply strip_empty_iff.
  - apply String.eqb_neq. intros H. apply strip_empty_iff in H. congruence.
Qed.

Lemma prefix_app (a b : string) : prefix a (a ++ b) = true.
Proof. induction a as [|c a IH]; simpl.
  - now destruct b.
  - destruct (ascii_dec c c); [exact IH|congruence].
Qed.

Lemma prefix_split (a s : string) :
  prefix a s = true -> exists post, s = (a ++ post)%string.
Proof.
  revert s. induction a as [|c a IH]; intros s H.
  - exists s. reflexivity.
  - destruct s as [|d s]; simpl in H; [discriminate|].
    destruct (ascii_dec c d) as [->|]; [|discriminate].
    destruct (IH _ H) as [post ->]. exists post. reflexivity.
Qed.

Lemma contains_nil (sub : string) :
  Py.contains sub "" = prefix sub "" || false.
Proof. reflexivity. Qed.

Lemma contains_cons (sub : string) (c : ascii) (s : string) :
  Py.contains sub (String c s) = prefix sub (String c s) || Py.contains sub s.
Proof. reflexivity. Qed.

(** [sub in s] holds exactly when [s] is [sub] between two texts. *)
Lemma contains_spec (sub s : string) :
  Py.contains sub s = true <->
  exists pre post, s = (pre ++ sub ++ post)%string.
Proof.
  split.
  - induction s as [|c s IH]; intros H.
    + rewrite contains_nil, orb_false_r in H.
      apply prefix_split in H as [post Hp].
      exists "", post. exact Hp.
    + rewrite contains_cons in H. apply orb_prop in H as [H|H].
      * apply prefix_split in H as [post Hp]. exists "", post. exact Hp.
      * destruct (IH H) as (pre & post & ->).
        exists (String c pre), post. reflexivity.
  - intros (pre & post & ->). induction pre as [|c pre IH].
    + change (Py.contains sub (sub ++ post) = true).
      destruct (sub ++ post)%string eqn:E.
      * rewrite contains_nil, <- E, prefix_app. reflexivity.
      * rewrite contains_cons, <- E, prefix_app. reflexivity.
    + change (Py.contains sub (String c (pre ++ sub ++ post)) = true).
      rewrite contains_cons, IH. apply orb_true_r.
Qed.

(** ** Dictionaries *)

Section DictFacts.
Context {K V : Type}.
Variable keq : K -> K -> bool.
Hypothesis keq_spec : forall a b, keq a b = true <-> a = b.

Lemma keq_refl (a : K) : keq a a = true.
Proof. now apply keq_spec. Qed.

Lemma keq_neq (a b : K) : a <> b -> keq a b = false.
Proof.
  intros H. destruct (keq a b) eqn:E; [|reflexivity].
  apply keq_spec in E. contradiction.
Qed.

Lemma dict_get_set_same (k : K) (v : V) (d : dict K V) :
  dict_get keq k (dict_set keq k v d) = Some v.
Proof.
  induction d as [|[k' v'] d IH]; simpl.
  - now rewrite keq_refl.
  - destruct (keq k k') eqn:E; simpl.
    + now rewrite keq_refl.
    + now rewrite E.
Qed.

Lemma dict_get_set_other (k k0 : K) (v : V) (d : dict K V) :
  k0 <> k -> dict_get keq k0 (dict_set keq k v d) = dict_get keq k0 d.
Proof.
  intros Hne. induction d as [|[k' v'] d IH]; simpl.
  - now rewrite (keq_neq _ _ Hne).
  - destruct (keq k k') eqn:E; simpl.
    + apply keq_spec in E. subst k'.
      now rewrite (keq_neq _ _ Hne).
    + now rewrite IH.
Qed.

Lemma dict_set_keys (k : K) (v : V) (d : dict K V) :
  map fst (dict_set keq k v d) =
  if dict_mem keq k d then map fst d else (map fst d ++ [k])%list.
Proof.
  unfold dict_mem. induction d as [|[k' v'] d IH]; simpl; [reflexivity|].
  destruct (keq k k') eqn:E; simpl.
  - apply keq_spec in E. now subst.
  - rewrite IH. now destruct (dict_get keq k d).
Qed.

Lemma dict_get_none_keys (k : K) (d : dict K V) :
  dict_get keq k d = None -> ~ In k (map fst d).
Proof.
  induction d as [|[k' v'] d IH]; simpl; [tauto|].
  destruct (keq k k') eqn:E; [discriminate|].
  intros H [Hk|Hk].
  - subst. rewrite keq_refl in E. discriminate.
  - now apply IH.
Qed.

Lemma dict_set_nodup (k : K) (v : V) (d : dict K V) :
  NoDup (map fst d) -> NoDup (map fst (dict_set keq k v d)).
Proof.
  intros H. rewrite dict_set_keys. unfold dict_mem.
  destruct (dict_get keq k d) eqn:E; [exact H|].
  apply dict_get_none_keys in E.
  apply NoDup_rev in H. rewrite <- rev_involutive. apply NoDup_rev.
  rewrite rev_app_distr. simpl. constructor; [|exact H].
  now rewrite <- in_rev.
Qed.

Lemma dict_in_get (k : K) (v : V) (d : dict K V) :
  NoDup (map fst d) -> In (k, v) d -> dict_get keq k d = Some v.
Proof.
  induction d as [|[k' v'] d IH]; simpl; [tauto|].
  intros Hnd [Heq|Hin].
  - inversion Heq; subst. now rewrite keq_refl.
  - inversion Hnd as [|? ? Hnot Hnd']; subst.
    destruct (keq k k') eqn:E.
    + apply keq_spec in E. subst k'. exfalso. apply Hnot.
      apply (in_map fst) in Hin. exact Hin.
    + now apply IH.
Qed.

Lemma dict_get_in (k : K) (v : V) (d : dict K V) :
  dict_get keq k d = Some v -> In (k, v) d.
Proof.
  induction d as [|[k' v'] d IH]; simpl; [discriminate|].
  destruct (keq k k') eqn:E.
  - apply keq_spec in E. subst k'. intros H. inversion H; subst. now left.
  - intros H. right. now apply IH.
Qed.
End DictFacts.

Lemma field_eqb_spec (a b : field) : field_eqb a b = true <-> a = b.
Proof. destruct a, b; simpl; split; intros H; congruence. Qed.

Lemma nat_eqb_spec (a b : nat) : Nat.eqb a b = true <-> a = b.
Proof. apply Nat.eqb_eq. Qed.

Lemma string_eqb_spec (a b : string) : String.eqb a b = true <-> a = b.
Proof. apply String.eqb_eq. Qed.

(** ** Characters *)

Ltac ascii_cases c :=
  destruct c as [[] [] [] [] [] [] [] []]; vm_compute;
  try discriminate; try (intros; discriminate); auto.

Lemma space_char (c : ascii) :
  Py.isspace c = true ->
  Ascii.eqb c "-" = false /\ Ascii.eqb c "+" = false /\
  Ascii.eqb c "." = false /\ Ascii.eqb c "_" = false /\
  Ascii.eqb c "," = false /\ Py.isdigit c = false /\
  Ascii.eqb (Py.lower_char c) "i" = false /\
  Ascii.eqb (Py.lower_char c) "n" = false.
Proof. ascii_cases c; intros _; repeat split. Qed.

Lemma digit_char (c : ascii) :
  Py.isdigit c = true ->
  Ascii.eqb c "s" = false /\ Ascii.eqb c "n" = false /\
  Ascii.eqb c "r" = false /\ Ascii.eqb c "t" = false.
Proof. ascii_cases c; intros _; repeat split. Qed.

(** ** Billing classifier *)

Lemma keyword_set_lower : map Py.lower billable_keywords = keyword_set.
Proof. reflexivity. Qed.

(** C7: the billing classifier depends on the text of the Activity Category
    alone and is true exactly when the lower-cased text contains one of
    "training", "assessment", "content", "development"; the four sample
    categories are classified as the specification lists them. *)
Theorem check_billable_keyword_rule :
  (forall cat : cell,
      check_billable cat = true <->
      exists k pre post,
        In k keyword_set /\ Py.lower (str cat) = (pre ++ k ++ post)%string) /\
  (forall cat : cell, check_billable cat = check_billable (Str (str cat))) /\
  (forall e : entry,
      Is_Billable (post_process e) = check_billable (e_Activity_Category e)) /\
  check_billable (Str "Online Training Session") = true /\
  check_billable (Str "Travel") = false /\
  check_billable (Str "Content Development") = true /\
  check_billable (Str "Admin Sync-up") = false.
Proof.
  split; [|repeat split].
  intros cat. unfold check_billable. rewrite existsb_exists. split.
  - intros (k & Hk & Hc). apply contains_spec in Hc as (pre & post & Hc).
    exists (Py.lower k), pre, post. split; [|exact Hc].
    rewrite <- keyword_set_lower. now apply in_map.
  - intros (k & pre & post & Hk & Hc).
    rewrite <- keyword_set_lower in Hk. apply in_map_iff in Hk as (k0 & <- & Hk0).
    exists k0. split; [exact Hk0|]. apply contains_spec. now exists pre, post.
Qed.

(** ** Work-time coercion *)

Lemma remove_commas_space (s : string) :
  Py.all_space s = true -> Py.remove_commas s = s.
Proof.
  induction s as [|c s IH]; simpl; [reflexivity|].
  intros H. apply andb_prop in H as [Hc Hs].
  destruct (space_char c Hc) as (_ & _ & _ & _ & Hcomma & _).
  rewrite Hcomma, (IH Hs). reflexivity.
Qed.

Lemma remove_commas_idem (s : string) :
  Py.remove_commas (Py.remove_commas s) = Py.remove_commas s.
Proof.
  induction s as [|c s IH]; simpl; [reflexivity|].
  destruct (Ascii.eqb c ",") eqn:E; [exact IH|].
  simpl. now rewrite E, IH.
Qed.

Lemma ltrim_space (s : string) :
  Py.all_space s = true -> Py.all_space (Float.ltrim s) = true.
Proof.
  induction s as [|c s IH]; simpl; [reflexivity|].
  intros H. pose proof H as H'. apply andb_prop in H as [Hc Hs].
  destruct (Float.isspace c); [now apply IH|].
  simpl. exact H'.
Qed.

Lemma rtrim_space (s : string) :
  Py.all_space s = true -> Py.all_space (Float.rtrim s) = true.
Proof.
  induction s as [|c s IH]; simpl; [reflexivity|].
  intros H. apply andb_prop in H as [Hc Hs]. specialize (IH Hs).
  destruct (Float.rtrim s) eqn:E.
  - destruct (Float.isspace c); simpl; [reflexivity|now rewrite Hc].
  - simpl. simpl in IH. now rewrite Hc, IH.
Qed.

Lemma strip_underscores_space (s : string) (prev : option ascii) :
  Py.all_space s = true ->
  match prev with Some p => Ascii.eqb p "_" = false | None => True end ->
  Float.strip_underscores prev s = Some s.
Proof.
  revert prev. induction s as [|c s IH]; intros prev H Hp.
  - simpl. destruct prev as [p|]; [now rewrite Hp|reflexivity].
  - simpl in H. apply andb_prop in H as [Hc Hs].
    destruct (space_char c Hc) as (_ & _ & _ & Hu & _).
    simpl. rewrite Hu.
    replace (match prev with Some p => Ascii.eqb p "_" | None => false end)
      with false by (destruct prev; [now rewrite Hp|reflexivity]).
    simpl. rewrite (IH (Some c) Hs Hu). reflexivity.
Qed.

Lemma parse_space (s : string) :
  Py.all_space s = true -> Float.parse s = None.
Proof.
  destruct s as [|c s]; [reflexivity|].
  simpl. intros H. apply andb_prop in H as [Hc Hs].
  destruct (space_char c Hc) as (Hm & Hp & Hd & _ & _ & Hg & Hi & Hn).
  unfold Float.parse, Float.sign. rewrite Hm, Hp.
  simpl Float.digits. rewrite Hg, Hd. simpl.
  unfold Float.inf_or_nan. simpl Py.lower.
  unfold String.eqb at 1 2 3; fold String.eqb. rewrite Hi, Hn. reflexivity.
Qed.

(** A text of blanks is not a number: [float] raises on it. *)
Lemma float_space (s : string) :
  Py.all_space s = true -> Float.float s = None.
Proof.
  intros H. unfold Float.float.
  pose proof (rtrim_space _ (ltrim_space _ H)) as Ht.
  rewrite (strip_underscores_space _ None Ht I).
  now apply parse_space.
Qed.

Lemma clean_minutes_unfold (x : cell) :
  clean_minutes x =
  if isna x || Py.all_space (str x) then PInt 0
  else match Float.float (Py.remove_commas (str x)) with
       | Some f => PFloat f
       | None => PInt 0
       end.
Proof. unfold clean_minutes. now rewrite strip_eqb_empty. Qed.

(** C5: the work-time coercion is defined on every cell value; a missing or
    blank value gives 0, a text that is not a number gives 0, commas are
    removed before the text is read as a number, and a negative number is
    returned as it is.  "1,250" gives 1250.0; "", "abc" and a missing value
    give 0. *)
Theorem clean_minutes_coercion :
  (forall x : cell, exists n : number, clean_minutes x = n) /\
  (forall x : cell,
      isna x = true \/ Py.strip (str x) = "" -> clean_minutes x = PInt 0) /\
  (forall x : cell,
      Float.float (Py.remove_commas (str x)) = None ->
      clean_minutes x = PInt 0) /\
  (forall s : string,
      clean_minutes (Str s) = clean_minutes (Str (Py.remove_commas s))) /\
  (forall (x : cell) (m : N) (e : Z),
      isna x = false ->
      Float.float (Py.remove_commas (str x)) = Some (FDec true m e) ->
      clean_minutes x = PFloat (FDec true m e)) /\
  clean_minutes (Str "1,250") = PFloat (FDec false 1250 0) /\
  clean_minutes (Str "") = PInt 0 /\
  clean_minutes (Str "abc") = PInt 0 /\
  clean_minutes NaN = PInt 0 /\
  clean_minutes (Num "0") = PFloat (FDec false 0 0) /\
  clean_minutes (Str "-5") = PFloat (FDec true 5 0).
Proof.
  split; [intros x; eexists; reflexivity|].
  split.
  { intros x [H|H]; rewrite clean_minutes_unfold.
    - now rewrite H.
    - apply strip_empty_iff in H. rewrite H. now rewrite orb_true_r. }
  split.
  { intros x H. rewrite clean_minutes_unfold, H.
    now destruct (isna x || Py.all_space (str x)). }
  split.
  { intros s. rewrite !clean_minutes_unfold. simpl isna. simpl str.
    rewrite remove_commas_idem. simpl orb.
    destruct (Py.all_space s) eqn:Es.
    - rewrite (remove_commas_space _ Es), Es. reflexivity.
    - destruct (Py.all_space (Py.remove_commas s)) eqn:Er; [|reflexivity].
      now rewrite (float_space _ Er). }
  split.
  { intros x m e Hna Hf. rewrite clean_minutes_unfold, Hna, Hf. simpl.
    destruct (Py.all_space (str x)) eqn:Es; [|reflexivity].
    rewrite (remove_commas_space _ Es), (float_space _ Es) in Hf.
    discriminate. }
  repeat split.
Qed.

(** The hypotheses of [clean_minutes_coercion] are met by actual cells. *)
Lemma clean_minutes_coercion_witness :
  clean_minutes (Str "  ") = PInt 0 /\
  clean_minutes (Str "12x") = PInt 0 /\
  clean_minutes (Str "-1,250.5") = PFloat (FDec true 12505 (-1)).
Proof.
  destruct clean_minutes_coercion as (_ & Hblank & Hbad & _ & Hneg & _).
  split; [|split].
  - apply Hblank. right. reflexivity.
  - apply Hbad. reflexivity.
  - apply Hneg; reflexivity.
Defined.

(** ** Date parsing *)

Lemma prefix_head_ne (a b : ascii) (x y : string) :
  a <> b -> prefix (String a x) (String b y) = false.
Proof.
  intros H.
  change (prefix (String a x) (String b y))
    with (if ascii_dec a b then prefix x y else false).
  destruct (ascii_dec a b); [contradiction|reflexivity].
Qed.

Lemma digit_not_suffix (d : ascii) (x : string) :
  Py.isdigit d = true ->
  prefix "st" (String d x) || prefix "nd" (String d x) ||
  prefix "rd" (String d x) || prefix "th" (String d x) = false.
Proof.
  intros H. destruct (digit_char d H) as (Hs & Hn & Hr & Ht).
  rewrite !prefix_head_ne; [reflexivity| | | |];
    intros <-; discriminate.
Qed.

Lemma sub_ordinal_from_cons (b : bool) (c : ascii) (rest : string) :
  sub_ordinal_from b (String c rest) =
  if b && (prefix "st" (String c rest) || prefix "nd" (String c rest) ||
           prefix "rd" (String c rest) || prefix "th" (String c rest))
  then match rest with
       | String _ rest' => sub_ordinal_from false rest'
       | EmptyString => EmptyString
       end
  else String c (sub_ordinal_from (Py.isdigit c) rest).
Proof. reflexivity. Qed.

(** Text without digits is copied. *)
Lemma sub_ordinal_no_digit (pre s : string) :
  no_digit pre = true ->
  sub_ordinal_from false (pre ++ s) = (pre ++ sub_ordinal_from false s)%string.
Proof.
  induction pre as [|c pre IH]; intros H; [reflexivity|].
  simpl in H. apply andb_prop in H as [Hc Hp].
  apply negb_true_iff in Hc.
  change (String c pre ++ s)%string with (String c (pre ++ s)%string).
  rewrite sub_ordinal_from_cons. simpl andb. cbv iota.
  rewrite Hc, (IH Hp). reflexivity.
Qed.

(** Right after a digit, an ordinal suffix is dropped. *)
Lemma sub_ordinal_suffix (suf rest : string) :
  In suf ordinal_suffixes ->
  sub_ordinal_from true (suf ++ rest) = sub_ordinal_from false rest.
Proof.
  intros Hs. pose proof (prefix_app suf rest) as Hp.
  simpl in Hs. destruct Hs as [<-|[<-|[<-|[<-|[]]]]];
    match goal with
    | |- context [(String ?a (String ?b "") ++ rest)%string] =>
        change (String a (String b "") ++ rest)%string
          with (String a (String b rest)) in *
    end;
    rewrite sub_ordinal_from_cons, Hp, ?orb_true_r; reflexivity.
Qed.

(** A run of digits followed by an ordinal suffix loses the suffix. *)
Lemma sub_ordinal_run (ds suf rest : string) (b : bool) :
  all_digits ds = true -> ds <> "" -> In suf ordinal_suffixes ->
  sub_ordinal_from b (ds ++ suf ++ rest) =
  (ds ++ sub_ordinal_from false rest)%string.
Proof.
  revert b. induction ds as [|d ds IH]; intros b Hd Hne Hs; [congruence|].
  simpl in Hd. apply andb_prop in Hd as [Hd Hds].
  change (String d ds ++ suf ++ rest)%string
    with (String d (ds ++ suf ++ rest)%string).
  rewrite sub_ordinal_from_cons, (digit_not_suffix d _ Hd), andb_false_r, Hd.
  change (String d ds ++ sub_ordinal_from false rest)%string
    with (String d (ds ++ sub_ordinal_from false rest)%string).
  f_equal. destruct ds as [|d' ds'].
  - change (sub_ordinal_from true (suf ++ rest) = sub_ordinal_from false rest).
    now apply sub_ordinal_suffix.
  - apply IH; [exact Hds|discriminate|exact Hs].
Qed.

(** Every reconstructed entry becomes one row of the result. *)
Lemma process_keeps_entries (df_raw : DataFrame) (entries : list entry) :
  reconstruct df_raw = inr entries -> entries <> [] ->
  process df_raw = inr (map post_process entries, None).
Proof.
  intros H Hne. unfold process. rewrite H. simpl.
  destruct entries; [congruence|reflexivity].
Qed.

(** C6: the label "Sat, Nov 01, 25" is read as 2025-11-01; an ordinal suffix
    after the digits of the day is removed before the label is parsed; a
    label that does not parse gives the null date, and the row that carries
    it stays in the result. *)
Theorem parse_custom_date_labels :
  parse_custom_date "Sat, Nov 01, 25" = Some (mkDate 2025 11 1) /\
  (forall pre ds suf post : string,
      no_digit pre = true -> all_digits ds = true -> ds <> "" ->
      In suf ordinal_suffixes ->
      parse_custom_date (pre ++ ds ++ suf ++ post) =
      Strptime.strptime (pre ++ ds ++ sub_ordinal post)) /\
  parse_custom_date "Sat, Nov 1st, 25" = Some (mkDate 2025 11 1) /\
  parse_custom_date "Nov 1st, 25" = None /\
  parse_custom_date "Sat, Feb 30, 25" = None /\
  (forall (df_raw : DataFrame) (entries : list entry) (e : entry),
      reconstruct df_raw = inr entries -> In e entries ->
      parse_custom_date (e_Date e) = None ->
      exists recs r,
        process df_raw = inr (recs, None) /\
        length recs = length entries /\
        In r recs /\ r_Date r = e_Date e /\ Date_Obj r = None).
Proof.
  split; [reflexivity|]. split.
  { intros pre ds suf post Hp Hd Hne Hs. unfold parse_custom_date, sub_ordinal.
    rewrite (sub_ordinal_no_digit _ _ Hp), (sub_ordinal_run _ _ _ _ Hd Hne Hs).
    reflexivity. }
  split; [reflexivity|]. split; [reflexivity|]. split; [reflexivity|].
  intros df_raw entries e Hr Hin Hnone.
  exists (map post_process entries), (post_process e).
  split; [|split; [|split; [|split]]].
  - apply process_keeps_entries; [exact Hr|]. intros ->. contradiction.
  - apply length_map.
  - now apply in_map.
  - reflexivity.
  - exact Hnone.
Qed.

(** The hypotheses of [parse_custom_date_labels] are met: a day written
    "22nd", and a sheet whose label has no weekday. *)
Lemma parse_custom_date_labels_witness :
  parse_custom_date ("Mon, Dec " ++ "22" ++ "nd" ++ ", 25") =
    Some (mkDate 2025 12 22) /\
  exists recs r,
    process (one_day_sheet (Str "Nov 1st, 25") (Str "Asha") (Str "Pune")
               (Str "Training") (Str "Session")) = inr (recs, None) /\
    length recs = 1 /\
    In r recs /\ r_Date r = "Nov 1st, 25" /\ Date_Obj r = None.
Proof.
  destruct parse_custom_date_labels as (_ & Hsub & _ & _ & _ & Hkeep).
  split.
  - rewrite (Hsub "Mon, Dec " "22" "nd" ", 25");
      [reflexivity|reflexivity|reflexivity|discriminate|simpl; tauto].
  - destruct (Hkeep (one_day_sheet (Str "Nov 1st, 25") (Str "Asha")
                        (Str "Pune") (Str "Training") (Str "Session"))
                _ _ eq_refl (or_introl eq_refl) eq_refl)
      as (recs & r & H1 & H2 & H3 & H4 & H5).
    exists recs, r. repeat split; assumption.
Defined.

(** ** Failures of the load *)

(** The accesses that raise inside the second [try]: a missing column 1 or
    2, then a missing row 1 or 2. *)
Lemma reconstruct_raises (df_raw : DataFrame) (e : exn) :
  reconstruct df_raw = inl e <->
  (shape1 df_raw <= 1 /\ e = KeyError 1) \/
  (shape1 df_raw = 2 /\ e = KeyError 2) \/
  (3 <= shape1 df_raw /\ shape0 df_raw <= 2 /\ e = IndexError).
Proof.
  unfold reconstruct, clean_data, filled_data, replace_blank, iloc, bind,
    date_row_idx, header_row_idx.
  destruct (1 <? shape1 df_raw) eqn:E1;
    [apply Nat.ltb_lt in E1|apply Nat.ltb_ge in E1].
  - destruct (2 <? shape1 df_raw) eqn:E2;
      [apply Nat.ltb_lt in E2|apply Nat.ltb_ge in E2].
    + destruct (1 <? shape0 df_raw) eqn:E3;
        [apply Nat.ltb_lt in E3|apply Nat.ltb_ge in E3].
      * destruct (2 <? shape0 df_raw) eqn:E4;
          [apply Nat.ltb_lt in E4|apply Nat.ltb_ge in E4].
        -- split; [discriminate|]. intros [[H _]|[[H _]|(_ & H & _)]]; lia.
        -- split.
           ++ intros H. inversion H. right. right. repeat split; lia.
           ++ intros [[H _]|[[H _]|(_ & _ & ->)]]; [lia|lia|reflexivity].
      * split.
        -- intros H. inversion H. right. right. repeat split; lia.
        -- intros [[H _]|[[H _]|(_ & _ & ->)]]; [lia|lia|reflexivity].
    + split.
      * intros H. inversion H. right. left. split; [lia|reflexivity].
      * intros [[H _]|[[_ ->]|(H & _)]]; [lia|reflexivity|lia].
  - split.
    + intros H. inversion H. left. split; [lia|reflexivity].
    + intros [[_ ->]|[[H _]|(H & _)]]; [reflexivity|lia|lia].
Qed.

Lemma process_raises (df_raw : DataFrame) (e : exn) :
  process df_raw = inl e <-> reconstruct df_raw = inl e.
Proof.
  unfold process, bind. destruct (reconstruct df_raw) as [e'|df].
  - split; intros H; inversion H; reflexivity.
  - destruct df; split; discriminate.
Qed.

(** C2: the load always returns a pair; when [read_csv] fails, or when an
    exception is raised while the frame is processed, the pair is the empty
    record set with a message that carries the cause. *)
Theorem load_and_clean_data_never_raises :
  forall (read_csv : string -> string + DataFrame) (file_path : string),
    (exists recs msg,
        load_and_clean_data read_csv file_path = (recs, msg)) /\
    (forall e : string,
        read_csv file_path = inl e ->
        load_and_clean_data read_csv file_path =
        ([], Some (Error_loading_CSV e))) /\
    (forall (df_raw : DataFrame) (e : exn),
        read_csv file_path = inr df_raw ->
        process df_raw = inl e ->
        load_and_clean_data read_csv file_path =
        ([], Some (Error_processing_data e))).
Proof.
  intros read_csv file_path. split; [|split].
  - destruct (load_and_clean_data read_csv file_path) as [recs msg].
    now exists recs, msg.
  - intros e H. unfold load_and_clean_data. now rewrite H.
  - intros df_raw e H Hp. unfold load_and_clean_data. now rewrite H, Hp.
Qed.

(** Both failures happen: a file that cannot be read, and a sheet of two
    columns, where looking up column 2 raises. *)
Lemma load_and_clean_data_never_raises_witness :
  load_and_clean_data (fun _ => inl "No columns to parse from file") "empty.csv" =
    ([], Some (Error_loading_CSV "No columns to parse from file")) /\
  load_and_clean_data
    (fun _ => inr (frame_of_rows [[NaN; Str "Asha"]])) "narrow.csv" =
    ([], Some (Error_processing_data (KeyError 2))).
Proof.
  split.
  - apply (load_and_clean_data_never_raises
             (fun _ => inl "No columns to parse from file") "empty.csv").
    reflexivity.
  - apply (load_and_clean_data_never_raises
             (fun _ => inr (frame_of_rows [[NaN; Str "Asha"]])) "narrow.csv"
             ) with (df_raw := frame_of_rows [[NaN; Str "Asha"]]).
    + reflexivity.
    + apply process_raises, reconstruct_raises. right. left.
      split; reflexivity.
Defined.

Lemma iloc_from_short (df_raw : DataFrame) :
  shape0 df_raw < 4 -> iloc_from df_raw data_start_idx = [].
Proof.
  intros H. unfold iloc_from, data_start_idx.
  replace (shape0 df_raw - 3) with 0 by lia. reflexivity.
Qed.

(** A sheet without data rows yields no entry. *)
Lemma reconstruct_short (df_raw : DataFrame) (entries : list entry) :
  shape0 df_raw < 4 -> reconstruct df_raw = inr entries -> entries = [].
Proof.
  intros H. unfold reconstruct, clean_data, filled_data.
  rewrite (iloc_from_short _ H).
  unfold replace_blank, bind.
  destruct (1 <? shape1 df_raw); [|discriminate].
  destruct (2 <? shape1 df_raw); [|discriminate].
  destruct (iloc df_raw date_row_idx); [discriminate|].
  destruct (iloc df_raw header_row_idx); [discriminate|].
  simpl. intros E. now inversion E.
Qed.

(** C9: a sheet of fewer than 4 rows gives the empty record set and a
    message, without raising. *)
Theorem short_grid_is_reported :
  forall (read_csv : string -> string + DataFrame) (file_path : string)
         (df_raw : DataFrame),
    read_csv file_path = inr df_raw ->
    shape0 df_raw < 4 ->
    exists msg : message,
      load_and_clean_data read_csv file_path = ([], Some msg).
Proof.
  intros read_csv file_path df_raw Hr Hs.
  unfold load_and_clean_data. rewrite Hr. unfold process, bind.
  destruct (reconstruct df_raw) as [e|entries] eqn:E.
  - now exists (Error_processing_data e).
  - rewrite (reconstruct_short _ _ Hs E). now exists No_data_found.
Qed.

(** A sheet that stops after its three header rows is reported as holding
    no data. *)
Lemma short_grid_is_reported_witness :
  exists msg : message,
    load_and_clean_data
      (fun _ => inr (frame_of_rows
                       [no_cells 14;
                        (no_cells 7 ++ [Str "Sat, Nov 01, 25"])%list;
                        (identity_headers ++ block_headers)%list]))
      "headers.csv" = ([], Some msg).
Proof.
  apply (short_grid_is_reported _ "headers.csv"
           (frame_of_rows
              [no_cells 14;
               (no_cells 7 ++ [Str "Sat, Nov 01, 25"])%list;
               (identity_headers ++ block_headers)%list])).
  - reflexivity.
  - simpl. lia.
Defined.

(** ** Column role map *)

(** The [if/elif] chain is the first match in the ordered marker table. *)
Lemma classify_first_marker (header_val : string) :
  classify header_val = first_marker markers header_val.
Proof.
  unfold classify, markers, first_marker.
  repeat match goal with
         | |- context [Py.contains ?m header_val] =>
             destruct (Py.contains m header_val); try reflexivity
         end.
Qed.

Lemma is_date_label_truthy (val : string) :
  is_date_label val = true -> Py.truthy val = true.
Proof. unfold is_date_label. intros H. now apply andb_prop in H. Qed.

Lemma label_in_force_is_label (dates_row : Series) (start n : nat) (d : string) :
  label_in_force dates_row start n = Some d -> is_date_label d = true.
Proof.
  induction n as [|n IH]; simpl; [discriminate|].
  destruct (is_date_label (Py.strip (str (dates_row (start + n))))) eqn:E.
  - intros H. inversion H; subst. exact E.
  - exact IH.
Qed.

Lemma label_in_force_shift (dates_row : Series) (s k : nat) :
  label_in_force dates_row s (S k) =
  match label_in_force dates_row (S s) k with
  | Some d => Some d
  | None =>
      if is_date_label (Py.strip (str (dates_row s)))
      then Some (Py.strip (str (dates_row s))) else None
  end.
Proof.
  induction k as [|k IH].
  - simpl. now rewrite Nat.add_0_r.
  - change (label_in_force dates_row s (S (S k)))
      with (if is_date_label (Py.strip (str (dates_row (s + S k))))
            then Some (Py.strip (str (dates_row (s + S k))))
            else label_in_force dates_row s (S k)).
    rewrite IH. simpl. rewrite Nat.add_succ_r.
    now destruct (is_date_label (Py.strip (str (dates_row (S (s + k)))))).
Qed.

Lemma label_in_force_exists (dates_row : Series) (s n : nat) :
  label_in_force dates_row s n <> None <->
  exists j, s <= j /\ j < s + n /\
            is_date_label (Py.strip (str (dates_row j))) = true.
Proof.
  induction n as [|n IH]; simpl.
  - split; [congruence|]. intros (j & H1 & H2 & _). lia.
  - destruct (is_date_label (Py.strip (str (dates_row (s + n))))) eqn:E.
    + split; [|discriminate]. intros _. exists (s + n). repeat split; [lia|lia|exact E].
    + rewrite IH. split.
      * intros (j & H1 & H2 & H3). exists j. repeat split; [lia|lia|exact H3].
      * intros (j & H1 & H2 & H3). exists j. repeat split; [lia| |exact H3].
        destruct (Nat.eq_dec j (s + n)) as [->|Hne]; [congruence|lia].
Qed.

(** What the scan of columns [s .. s+n-1] leaves in the map. *)
Lemma scan_columns_get (dates_row headers_row : Series) (n : nat) :
  forall (s : nat) (cur : option string) (col_map : ColMap) (c : nat),
    (forall c', s <= c' -> dict_get Nat.eqb c' col_map = None) ->
    dict_get Nat.eqb c
      (scan_columns dates_row headers_row (seq s n) cur col_map) =
    if (s <=? c) && (c <? s + n)
    then date_and_field
           match label_in_force dates_row s (S (c - s)) with
           | Some d => Some d
           | None => cur
           end
           (classify (Py.strip (str (headers_row c))))
    else dict_get Nat.eqb c col_map.
Proof.
  induction n as [|n IH]; intros s cur col_map c Hfresh.
  - simpl. destruct (Nat.leb_spec s c); [|reflexivity].
    replace (c <? s + 0) with false; [reflexivity|].
    symmetry. apply Nat.ltb_ge. lia.
  - simpl seq. simpl scan_columns.
    set (val := Py.strip (str (dates_row s))).
    set (cur' := if is_date_label val then Some val else cur).
    set (fld := classify (Py.strip (str (headers_row s)))).
    set (cm' := match date_and_field cur' fld with
                | Some df => dict_set Nat.eqb s df col_map
                | None => col_map
                end).
    assert (Hother : forall c', c' <> s ->
              dict_get Nat.eqb c' cm' = dict_get Nat.eqb c' col_map).
    { intros c' Hne. unfold cm'. destruct (date_and_field cur' fld); [|reflexivity].
      now apply dict_get_set_other; [apply nat_eqb_spec|]. }
    rewrite IH.
    2:{ intros c' Hc'. rewrite Hother by lia. apply Hfresh. lia. }
    destruct (Nat.lt_trichotomy c s) as [Hlt|[->|Hgt]].
    + replace (S s <=? c) with false by (symmetry; apply Nat.leb_gt; lia).
      replace (s <=? c) with false by (symmetry; apply Nat.leb_gt; lia).
      simpl. apply Hother. lia.
    + replace (S s <=? s) with false by (symmetry; apply Nat.leb_gt; lia).
      rewrite Nat.leb_refl.
      replace (s <? s + S n) with true by (symmetry; apply Nat.ltb_lt; lia).
      simpl andb. cbv iota. rewrite Nat.sub_diag.
      simpl label_in_force. rewrite Nat.add_0_r. fold val. fold fld.
      replace (match (if is_date_label val then Some val else None) with
               | Some d => Some d
               | None => cur
               end) with cur' by (unfold cur'; now destruct (is_date_label val)).
      unfold cm'. destruct (date_and_field cur' fld) as [df|].
      * now apply dict_get_set_same, nat_eqb_spec.
      * apply Hfresh. lia.
    + replace (S s <=? c) with true by (symmetry; apply Nat.leb_le; lia).
      replace (s <=? c) with true by (symmetry; apply Nat.leb_le; lia).
      replace (c <? S s + n) with (c <? s + S n)
        by (f_equal; lia).
      simpl andb. destruct (c <? s + S n); [|apply Hother; lia].
      replace (S (c - s)) with (S (S (c - S s))) by lia.
      rewrite (label_in_force_shift dates_row s (S (c - S s))).
      fold val. unfold cur'.
      destruct (label_in_force dates_row (S s) (S (c - S s)));
        [reflexivity|].
      now destruct (is_date_label val).
Qed.

(** The role map, column by column. *)
Lemma build_col_map_get (dates_row headers_row : Series) (total_cols c : nat) :
  dict_get Nat.eqb c (build_col_map dates_row headers_row total_cols) =
  if (7 <=? c) && (c <? total_cols)
  then match label_in_force dates_row 7 (c - 6),
             first_marker markers (Py.strip (str (headers_row c))) with
       | Some d, Some f => Some (d, f)
       | _, _ => None
       end
  else None.
Proof.
  unfold build_col_map. rewrite scan_columns_get by reflexivity.
  destruct (Nat.leb_spec 7 c) as [H7|H7]; [|reflexivity].
  replace (c <? 7 + (total_cols - 7)) with (c <? total_cols).
  2:{ destruct (Nat.ltb_spec c total_cols);
      symmetry; [apply Nat.ltb_lt|apply Nat.ltb_ge]; lia. }
  simpl andb. destruct (c <? total_cols); [|reflexivity].
  replace (S (c - 7)) with (c - 6) by lia.
  rewrite classify_first_marker.
  destruct (label_in_force dates_row 7 (c - 6)) as [d|] eqn:E; [|reflexivity].
  unfold date_and_field.
  rewrite (is_date_label_truthy _ (label_in_force_is_label _ _ _ _ E)).
  reflexivity.
Qed.

(** C3 (as stated): the rule fails on a sheet whose only non-blank date-axis
    cell lies left of column 7, and on a sheet whose date-axis cell over
    column 7 holds the text "NAN"; in both, column 7 has the header
    "Attendance" and is not mapped. *)
Lemma role_map_rule_counterexample :
  (7 <= 7 /\ 7 < shape1 caption_sheet /\
   ~ role_map_rule_as_specified caption_sheet 7) /\
  (7 <= 7 /\ 7 < shape1 nan_label_sheet /\
   ~ role_map_rule_as_specified nan_label_sheet 7).
Proof.
  split; (split; [lia|split; [simpl; lia|]]); intros [_ H].
  - assert (Hm : dict_mem Nat.eqb 7
             (build_col_map (iat caption_sheet 1) (iat caption_sheet 2)
                (shape1 caption_sheet)) = true).
    { apply H. split.
      - exists 0. split; [lia|reflexivity].
      - exists Attendance_Status. reflexivity. }
    vm_compute in Hm. discriminate.
  - assert (Hm : dict_mem Nat.eqb 7
             (build_col_map (iat nan_label_sheet 1) (iat nan_label_sheet 2)
                (shape1 nan_label_sheet)) = true).
    { apply H. split.
      - exists 7. split; [lia|reflexivity].
      - exists Attendance_Status. reflexivity. }
    vm_compute in Hm. discriminate.
Qed.

(** C3 (amended): a column [c] from 7 up to the last one is in the role map
    exactly when some date-axis cell of a column between 7 and [c] is, once
    trimmed, neither empty nor "nan" in any letter case, and the field-axis
    cell of [c] holds a marker of the ordered table, the first one found
    giving the role; the date recorded is the nearest such label at or left
    of [c].  A column met before any such label is not mapped. *)
Theorem col_map_roles :
  forall (dates_row headers_row : Series) (total_cols c : nat),
    7 <= c -> c < total_cols ->
    (dict_mem Nat.eqb c (build_col_map dates_row headers_row total_cols) = true
     <->
     (exists j, 7 <= j /\ j <= c /\
                is_date_label (Py.strip (str (dates_row j))) = true) /\
     (exists f,
         first_marker markers (Py.strip (str (headers_row c))) = Some f)) /\
    ((forall j, 7 <= j -> j <= c ->
                is_date_label (Py.strip (str (dates_row j))) = false) ->
     dict_mem Nat.eqb c (build_col_map dates_row headers_row total_cols)
     = false) /\
    dict_get Nat.eqb c (build_col_map dates_row headers_row total_cols) =
    match label_in_force dates_row 7 (c - 6),
          first_marker markers (Py.strip (str (headers_row c))) with
    | Some d, Some f => Some (d, f)
    | _, _ => None
    end.
Proof.
  intros dates_row headers_row total_cols c H7 Hc.
  assert (Hget :
    dict_get Nat.eqb c (build_col_map dates_row headers_row total_cols) =
    match label_in_force dates_row 7 (c - 6),
          first_marker markers (Py.strip (str (headers_row c))) with
    | Some d, Some f => Some (d, f)
    | _, _ => None
    end).
  { rewrite build_col_map_get.
    replace (7 <=? c) with true by (symmetry; apply Nat.leb_le; lia).
    replace (c <? total_cols) with true by (symmetry; apply Nat.ltb_lt; lia).
    reflexivity. }
  assert (Hlab : label_in_force dates_row 7 (c - 6) <> None <->
                 exists j, 7 <= j /\ j <= c /\
                   is_date_label (Py.strip (str (dates_row j))) = true).
  { rewrite label_in_force_exists. split;
      intros (j & H1 & H2 & H3); exists j; repeat split; try lia; exact H3. }
  split; [|split; [|exact Hget]].
  - unfold dict_mem. rewrite Hget. rewrite <- Hlab.
    destruct (label_in_force dates_row 7 (c - 6)) as [d|];
      destruct (first_marker markers (Py.strip (str (headers_row c)))) as [f|].
    + split; [|reflexivity]. intros _. split; [discriminate|now exists f].
    + split; [discriminate|]. intros (_ & f & Hf). discriminate.
    + split; [discriminate|]. intros (Hn & _). congruence.
    + split; [discriminate|]. intros (Hn & _). congruence.
  - intros Hnone. unfold dict_mem. rewrite Hget.
    destruct (label_in_force dates_row 7 (c - 6)) as [d|] eqn:E;
      [|reflexivity].
    exfalso. destruct (proj1 Hlab) as (j & H1 & H2 & H3); [discriminate|].
    rewrite (Hnone j H1 H2) in H3. discriminate.
Qed.

(** Column 8 of the one-day sheet: mapped to the label and to the role of
    "Activity Category"; on the caption sheet column 7 precedes every
    label. *)
Lemma col_map_roles_witness :
  dict_get Nat.eqb 8
    (build_col_map
       (iat (one_day_sheet (Str "Sat, Nov 01, 25") (Str "Asha") (Str "Pune")
               (Str "Training") (Str "Session")) 1)
       (iat (one_day_sheet (Str "Sat, Nov 01, 25") (Str "Asha") (Str "Pune")
               (Str "Training") (Str "Session")) 2) 14)
  = Some ("Sat, Nov 01, 25", Activity_Category) /\
  dict_mem Nat.eqb 7
    (build_col_map (iat caption_sheet 1) (iat caption_sheet 2) 8) = false.
Proof.
  split.
  - destruct (col_map_roles
                (iat (one_day_sheet (Str "Sat, Nov 01, 25") (Str "Asha")
                        (Str "Pune") (Str "Training") (Str "Session")) 1)
                (iat (one_day_sheet (Str "Sat, Nov 01, 25") (Str "Asha")
                        (Str "Pune") (Str "Training") (Str "Session")) 2)
                14 8) as (_ & _ & H); [lia|lia|].
    rewrite H. reflexivity.
  - destruct (col_map_roles (iat caption_sheet 1) (iat caption_sheet 2) 8 7)
      as (_ & H & _); [lia|lia|].
    apply H. intros j H1 H2. assert (j = 7) as -> by lia. reflexivity.
Defined.

(** ** Row reconstruction *)

Lemma cell_of_add_cell (row : Series) (row_tasks : RowTasks)
  (c : nat) (d : string) (f : field) (d' : string) (f' : field) :
  cell_of (add_cell row row_tasks (c, (d, f))) d' f' =
  if String.eqb d d' && field_eqb f f' then Some (row c)
  else cell_of row_tasks d' f'.
Proof.
  unfold add_cell, cell_of.
  set (rt1 := if dict_mem String.eqb d row_tasks then row_tasks
              else dict_set String.eqb d [] row_tasks).
  destruct (String.eqb d d') eqn:Ed.
  - apply String.eqb_eq in Ed. subst d'.
    rewrite (dict_get_set_same _ string_eqb_spec).
    assert (Hold : dict_get field_eqb f' (dict_get_or String.eqb d [] rt1) =
                   match dict_get String.eqb d row_tasks with
                   | Some task_data => dict_get field_eqb f' task_data
                   | None => None
                   end).
    { unfold rt1, dict_mem, dict_get_or.
      destruct (dict_get String.eqb d row_tasks) as [td|] eqn:E; cbv iota.
      - match goal with
        | |- context [match ?x with Some _ => _ | None => _ end] =>
            replace x with (Some td) by (symmetry; exact E)
        end. reflexivity.
      - now rewrite (dict_get_set_same _ string_eqb_spec). }
    destruct (field_eqb f f') eqn:Ef; simpl.
    + apply field_eqb_spec in Ef. subst f'.
      apply (dict_get_set_same _ field_eqb_spec).
    + rewrite (dict_get_set_other _ field_eqb_spec); [exact Hold|].
      intros ->. rewrite (proj2 (field_eqb_spec f f) eq_refl) in Ef.
      discriminate.
  - simpl. assert (Hne : d' <> d).
    { intros ->. rewrite String.eqb_refl in Ed. discriminate. }
    rewrite (dict_get_set_other _ string_eqb_spec) by exact Hne.
    unfold rt1. destruct (dict_mem String.eqb d row_tasks); [reflexivity|].
    now rewrite (dict_get_set_other _ string_eqb_spec) by exact Hne.
Qed.

(** The cell kept for a date and a role is the one read from the last
    column that carries them. *)
Lemma cell_of_fold (row : Series) (col_map : ColMap) :
  forall (row_tasks : RowTasks) (d : string) (f : field),
    cell_of (fold_left (add_cell row) col_map row_tasks) d f =
    match last_write col_map d f with
    | Some c => Some (row c)
    | None => cell_of row_tasks d f
    end.
Proof.
  induction col_map as [|[c [d0 f0]] rest IH]; intros row_tasks d f.
  - reflexivity.
  - change (fold_left (add_cell row) ((c, (d0, f0)) :: rest) row_tasks)
      with (fold_left (add_cell row) rest (add_cell row row_tasks (c, (d0, f0)))).
    rewrite IH. simpl last_write.
    destruct (last_write rest d f); [reflexivity|].
    rewrite cell_of_add_cell.
    now destruct (String.eqb d0 d && field_eqb f0 f).
Qed.

Lemma add_cell_nodup (row : Series) (row_tasks : RowTasks)
  (item : nat * (string * field)) :
  NoDup (map fst row_tasks) -> NoDup (map fst (add_cell row row_tasks item)).
Proof.
  intros H. destruct item as [c [d f]]. unfold add_cell.
  apply (dict_set_nodup _ string_eqb_spec).
  destruct (dict_mem String.eqb d row_tasks); [exact H|].
  now apply (dict_set_nodup _ string_eqb_spec).
Qed.

(** A row has one bundle per date label. *)
Lemma build_row_tasks_nodup (col_map : ColMap) (row : Series) :
  NoDup (map fst (build_row_tasks col_map row)).
Proof.
  unfold build_row_tasks.
  assert (H : forall rt, NoDup (map fst rt) ->
                NoDup (map fst (fold_left (add_cell row) col_map rt))).
  { induction col_map as [|item rest IH]; intros rt Hrt; [exact Hrt|].
    simpl. apply IH. now apply add_cell_nodup. }
  apply H. constructor.
Qed.

Lemma last_write_none (col_map : ColMap) (d : string) (f : field) :
  (forall c, ~ In (c, (d, f)) col_map) -> last_write col_map d f = None.
Proof.
  induction col_map as [|[c [d0 f0]] rest IH]; intros H; [reflexivity|].
  simpl. rewrite IH.
  - destruct (String.eqb d0 d) eqn:Ed; [|reflexivity].
    destruct (field_eqb f0 f) eqn:Ef; [|reflexivity].
    apply String.eqb_eq in Ed. apply field_eqb_spec in Ef. subst.
    exfalso. apply (H c). now left.
  - intros c' Hin. apply (H c'). now right.
Qed.

Lemma last_write_split (before after : ColMap) (c : nat) (d : string)
  (f : field) :
  (forall c', ~ In (c', (d, f)) after) ->
  last_write (before ++ (c, (d, f)) :: after)%list d f = Some c.
Proof.
  intros H. induction before as [|[c0 [d0 f0]] before IH].
  - simpl. rewrite (last_write_none _ _ _ H), String.eqb_refl.
    now rewrite (proj2 (field_eqb_spec f f) eq_refl).
  - simpl. now rewrite IH.
Qed.

Lemma entry_field_make (f : field) (emp_name location : cell)
  (date_str : string) (task_data : TaskData) :
  entry_field f (make_entry emp_name location date_str task_data) =
  dict_get_or field_eqb f (field_default f) task_data.
Proof. destruct f; reflexivity. Qed.

(** The entries of a row, read off its bundles. *)
Lemma in_row_entries (col_map : ColMap) (row : Series) (e : entry) :
  In e (row_entries col_map row) <->
  exists date_str task_data,
    In (date_str, task_data) (build_row_tasks col_map row) /\
    is_empty_task task_data = false /\
    e = make_entry (row 1) (row 2) date_str task_data.
Proof.
  unfold row_entries, flatten_row_tasks. rewrite in_flat_map. split.
  - intros ([d td] & Hin & He). exists d, td.
    destruct (is_empty_task td); [contradiction|].
    destruct He as [<-|[]]. auto.
  - intros (d & td & Hin & Hne & ->). exists (d, td).
    split; [exact Hin|]. rewrite Hne. now left.
Qed.

(** ** Validity of a bundle *)

Lemma is_filled_default (f : field) (task_data : TaskData) :
  is_filled (dict_get_or field_eqb f (Str "") task_data) =
  is_filled (bundle_cell f task_data).
Proof.
  unfold bundle_cell, dict_get_or.
  now destruct (dict_get field_eqb f task_data).
Qed.

Lemma is_empty_task_filled (task_data : TaskData) :
  is_empty_task task_data =
  negb (is_filled (bundle_cell Activity_Category task_data) ||
        is_filled (bundle_cell Description task_data)).
Proof.
  rewrite <- !is_filled_default. unfold is_empty_task, is_filled.
  rewrite negb_orb, !negb_involutive. reflexivity.
Qed.

(** C1 (as stated): on the sheet whose Activity Category is the text "NAN"
    and whose Description is missing, the bundle of the day has a
    non-blank Activity Category and yet gives no record; the load reports
    that no data was found. *)
Lemma validity_rule_counterexample :
  ~ validity_rule_as_specified
      (build_col_map (iat nan_activity_sheet 1) (iat nan_activity_sheet 2)
         (shape1 nan_activity_sheet))
      (iat nan_activity_sheet 3) /\
  load_and_clean_data (fun _ => inr nan_activity_sheet) "nov.csv" =
  ([], Some No_data_found).
Proof.
  split; [|reflexivity].
  intros H.
  destruct (H "Sat, Nov 01, 25"
              [(Attendance_Status, Str "P"); (Activity_Category, Str "NAN");
               (Task_Priority, Str "High"); (Start_Time, Str "09:00");
               (End_Time, Str "10:00"); (Work_Time_Mins, Str "1,250");
               (Description, NaN)]) as [_ Hback].
  - left. reflexivity.
  - destruct (Hback eq_refl) as (e & He & _). exact He.
Qed.

(** C1 (amended): for every row and every date-label bundle of the row, a
    record is made for the bundle exactly when its Activity Category or its
    Description, taken as text and trimmed, is neither empty nor "nan" in
    any letter case (a missing cell, and a role without a column, count as
    empty); a bundle that fails the test is skipped without any error, and
    a bundle that passes it gives the one record built from it. *)
Theorem validity_rule :
  forall (col_map : ColMap) (row : Series) (date_str : string)
         (task_data : TaskData),
    In (date_str, task_data) (build_row_tasks col_map row) ->
    ((exists e, In e (row_entries col_map row) /\ e_Date e = date_str) <->
     is_filled (bundle_cell Activity_Category task_data) ||
     is_filled (bundle_cell Description task_data) = true) /\
    (forall e, In e (row_entries col_map row) -> e_Date e = date_str ->
               e = make_entry (row 1) (row 2) date_str task_data).
Proof.
  intros col_map row date_str task_data Hin.
  assert (Huniq : forall e, In e (row_entries col_map row) ->
                    e_Date e = date_str ->
                    is_empty_task task_data = false /\
                    e = make_entry (row 1) (row 2) date_str task_data).
  { intros e He Hd. apply in_row_entries in He as (d & td & Hin' & Hne & ->).
    simpl in Hd. subst d.
    pose proof (build_row_tasks_nodup col_map row) as Hnd.
    apply (dict_in_get _ string_eqb_spec _ _ _ Hnd) in Hin.
    apply (dict_in_get _ string_eqb_spec _ _ _ Hnd) in Hin'.
    rewrite Hin in Hin'. inversion Hin'; subst td. auto. }
  split.
  - split.
    + intros (e & He & Hd). destruct (Huniq e He Hd) as [Hne _].
      rewrite is_empty_task_filled in Hne. now apply negb_false_iff in Hne.
    + intros Hf.
      exists (make_entry (row 1) (row 2) date_str task_data).
      split; [|reflexivity]. apply in_row_entries.
      exists date_str, task_data. repeat split; [exact Hin|].
      rewrite is_empty_task_filled, Hf. reflexivity.
  - intros e He Hd. now destruct (Huniq e He Hd).
Qed.

(** The bundle of the one-day sheet is filled and gives a record; the same
    sheet with the activity "NAN" and no description gives none. *)
Lemma validity_rule_witness :
  (exists e,
      In e (row_entries
              (build_col_map (iat two_descriptions_sheet 1)
                 (iat two_descriptions_sheet 2) (shape1 two_descriptions_sheet))
              (iat two_descriptions_sheet 3)) /\
      e_Date e = "Sat, Nov 01, 25") /\
  ~ (exists e,
        In e (row_entries
                (build_col_map (iat nan_activity_sheet 1)
                   (iat nan_activity_sheet 2) (shape1 nan_activity_sheet))
                (iat nan_activity_sheet 3)) /\
        e_Date e = "Sat, Nov 01, 25").
Proof.
  split.
  - apply (validity_rule _ (iat two_descriptions_sheet 3) "Sat, Nov 01, 25"
             [(Activity_Category, Str "Training"); (Description, Str "second")]).
    + left. reflexivity.
    + reflexivity.
  - intros Hex.
    apply (validity_rule _ (iat nan_activity_sheet 3) "Sat, Nov 01, 25"
             [(Attendance_Status, Str "P"); (Activity_Category, Str "NAN");
              (Task_Priority, Str "High"); (Start_Time, Str "09:00");
              (End_Time, Str "10:00"); (Work_Time_Mins, Str "1,250");
              (Description, NaN)]) in Hex.
    + discriminate Hex.
    + left. reflexivity.
Defined.

(** ** Identity columns *)

Lemma upd_same (row : Series) (c : nat) (v : cell) : upd row c v c = v.
Proof. unfold upd. now rewrite Nat.eqb_refl. Qed.

Lemma upd_other (row : Series) (c c' : nat) (v : cell) :
  c' <> c -> upd row c v c' = row c'.
Proof.
  intros H. unfold upd. destruct (Nat.eqb_spec c' c); [contradiction|reflexivity].
Qed.

Lemma column_ffill_from (c : nat) (data : list Series) :
  forall last,
    column c (ffill_from c last data) = ffill_values last (column c data).
Proof.
  induction data as [|row rest IH]; intros last; [reflexivity|].
  simpl. rewrite upd_same, IH. reflexivity.
Qed.

Lemma column_ffill_from_other (c c' : nat) (data : list Series) :
  c' <> c ->
  forall last, column c' (ffill_from c last data) = column c' data.
Proof.
  intros Hne. induction data as [|row rest IH]; intros last; [reflexivity|].
  simpl. rewrite upd_other by exact Hne. now rewrite IH.
Qed.

Lemma column_blank (c : nat) (data : list Series) :
  column c (map (fun row => upd row c (blank_to_nan (row c))) data) =
  map blank_to_nan (column c data).
Proof.
  unfold column. rewrite !map_map. apply map_ext. intros row.
  apply upd_same.
Qed.

Lemma column_blank_other (c c' : nat) (data : list Series) :
  c' <> c ->
  column c' (map (fun row => upd row c (blank_to_nan (row c))) data) =
  column c' data.
Proof.
  intros Hne. unfold column. rewrite map_map. apply map_ext. intros row.
  now apply upd_other.
Qed.

Lemma column_iloc_from (df_raw : DataFrame) (c : nat) :
  column c (iloc_from df_raw data_start_idx) =
  map (fun r => iat df_raw r c) (seq 3 (shape0 df_raw - 3)).
Proof. unfold column, iloc_from, data_start_idx. now rewrite map_map. Qed.

(** A filled column holds, at each place, the last valid value so far. *)
Lemma nth_ffill_values (col : list cell) :
  forall (last : cell) (i : nat),
    i < length col ->
    nth_error (ffill_values last col) i =
    Some (last_valid_from last (firstn (S i) col)).
Proof.
  induction col as [|x col IH]; intros last i Hi; [simpl in Hi; lia|].
  destruct i as [|i].
  - simpl. unfold last_valid_from. simpl. reflexivity.
  - simpl in Hi. simpl nth_error. rewrite IH by lia.
    reflexivity.
Qed.

Lemma firstn_map_seq {A : Type} (g : nat -> A) (s n m : nat) :
  m <= n -> firstn m (map g (seq s n)) = map g (seq s m).
Proof.
  intros H. rewrite firstn_map. f_equal.
  replace n with (m + (n - m)) by lia.
  rewrite seq_app, firstn_app, length_seq, Nat.sub_diag.
  simpl. rewrite app_nil_r. apply firstn_all2. rewrite length_seq. lia.
Qed.

(** The columns of [data] before the rows without a name are dropped. *)
Lemma filled_data_columns (df_raw : DataFrame) (data : list Series) :
  filled_data df_raw = inr data ->
  3 <= shape1 df_raw /\
  column 1 data =
    ffill_values NaN
      (map (fun r => blank_to_nan (iat df_raw r 1))
         (seq 3 (shape0 df_raw - 3))) /\
  column 2 data =
    ffill_values NaN
      (map (fun r => blank_to_nan (iat df_raw r 2))
         (seq 3 (shape0 df_raw - 3))) /\
  forall c, c <> 1 -> c <> 2 ->
    column c data =
    map (fun r => iat df_raw r c) (seq 3 (shape0 df_raw - 3)).
Proof.
  unfold filled_data, replace_blank, bind.
  destruct (1 <? shape1 df_raw) eqn:E1; [|discriminate].
  destruct (2 <? shape1 df_raw) eqn:E2; [|discriminate].
  apply Nat.ltb_lt in E2. intros H. inversion H; subst data. clear H.
  unfold ffill. split; [lia|]. split; [|split].
  - rewrite column_ffill_from_other by lia.
    rewrite column_ffill_from.
    rewrite column_blank_other by lia.
    rewrite column_blank, column_iloc_from, map_map. reflexivity.
  - rewrite column_ffill_from.
    rewrite column_ffill_from_other by lia.
    rewrite column_blank, column_blank_other by lia.
    rewrite column_iloc_from, map_map. reflexivity.
  - intros c H1 H2.
    rewrite !column_ffill_from_other by lia.
    rewrite !column_blank_other by lia.
    apply column_iloc_from.
Qed.

Lemma column_nth (c : nat) (data : list Series) (i : nat) (row : Series) :
  nth_error data i = Some row -> nth_error (column c data) i = Some (row c).
Proof.
  intros H. exact (map_nth_error (fun r : Series => r c) i data H).
Qed.

(** Row [i] of [data]: its name and its location are the nearest cells
    above that are not blank, its other cells are those of the sheet. *)
Lemma filled_data_row (df_raw : DataFrame) (data : list Series)
  (i : nat) (row : Series) :
  filled_data df_raw = inr data -> nth_error data i = Some row ->
  i < shape0 df_raw - 3 /\
  row 1 = nearest_above df_raw 1 i /\
  row 2 = nearest_above df_raw 2 i /\
  forall c, c <> 1 -> c <> 2 -> row c = iat df_raw (3 + i) c.
Proof.
  intros Hf Hrow.
  destruct (filled_data_columns _ _ Hf) as (_ & H1 & H2 & Hc).
  assert (Hlen : i < shape0 df_raw - 3).
  { pose proof (column_nth 0 _ _ _ Hrow) as H0.
    rewrite (Hc 0) in H0 by lia.
    assert (Hsome : nth_error
                      (map (fun r => iat df_raw r 0)
                         (seq 3 (shape0 df_raw - 3))) i <> None)
      by (rewrite H0; discriminate).
    apply nth_error_Some in Hsome.
    now rewrite length_map, length_seq in Hsome. }
  split; [exact Hlen|].
  assert (Hfill : forall c,
            column c data =
            ffill_values NaN
              (map (fun r => blank_to_nan (iat df_raw r c))
                 (seq 3 (shape0 df_raw - 3))) ->
            row c = nearest_above df_raw c i).
  { intros c Hcol. pose proof (column_nth c _ _ _ Hrow) as Hn.
    rewrite Hcol, nth_ffill_values in Hn
      by (rewrite length_map, length_seq; exact Hlen).
    rewrite firstn_map_seq in Hn by lia.
    inversion Hn as [Heq]. reflexivity. }
  split; [now apply Hfill|]. split; [now apply Hfill|].
  intros c Hc1 Hc2. pose proof (column_nth c _ _ _ Hrow) as Hn.
  rewrite (Hc c Hc1 Hc2) in Hn.
  rewrite (map_nth_error (fun r => iat df_raw r c) i (seq 3 (shape0 df_raw - 3))
             (d := 3 + i)) in Hn.
  - now inversion Hn.
  - rewrite nth_error_nth' with (d := 0) by (rewrite length_seq; exact Hlen).
    now rewrite seq_nth.
Qed.

Lemma blank_to_nan_normal (x : cell) :
  missing_or_present (blank_to_nan x) = true.
Proof.
  destruct x as [|s|r]; simpl; try reflexivity.
  destruct (Py.all_space s) eqn:E; [reflexivity|].
  unfold missing_or_present. simpl. now rewrite E.
Qed.

Lemma last_valid_from_normal (col : list cell) :
  forall last,
    missing_or_present last = true ->
    Forall (fun x => missing_or_present x = true) col ->
    missing_or_present (last_valid_from last col) = true.
Proof.
  unfold last_valid_from.
  induction col as [|x col IH]; intros last Hl Hc; [exact Hl|].
  inversion Hc as [|? ? Hx Hrest]; subst. simpl. apply IH; [|exact Hrest].
  now destruct (isna x).
Qed.

Lemma nearest_above_normal (df_raw : DataFrame) (c i : nat) :
  missing_or_present (nearest_above df_raw c i) = true.
Proof.
  unfold nearest_above, last_valid. apply last_valid_from_normal;
    [reflexivity|].
  unfold identity_cells. apply Forall_forall. intros x Hx.
  apply in_map_iff in Hx as (r & <- & _). apply blank_to_nan_normal.
Qed.

Lemma present_of_normal (x : cell) :
  missing_or_present x = true -> isna x = false -> name_ok x = true.
Proof. unfold missing_or_present. intros H Hn. now rewrite Hn in H. Qed.

Lemma last_valid_from_all_missing (col : list cell) :
  Forall (fun x => isna x = true) col -> last_valid_from NaN col = NaN.
Proof.
  unfold last_valid_from. induction col as [|x col IH]; intros H;
    [reflexivity|].
  inversion H as [|? ? Hx Hrest]; subst. simpl. rewrite Hx. now apply IH.
Qed.

Lemma last_valid_from_some_valid (col : list cell) :
  forall last,
    (isna last = false \/ exists x, In x col /\ isna x = false) ->
    isna (last_valid_from last col) = false.
Proof.
  unfold last_valid_from.
  induction col as [|x col IH]; intros last H.
  - simpl. destruct H as [H|(x & [] & _)]. exact H.
  - simpl. apply IH. destruct (isna x) eqn:Ex.
    + destruct H as [H|(y & [<-|Hy] & Hv)].
      * now left.
      * congruence.
      * right. now exists y.
    + now left.
Qed.

(** The rows that reach reconstruction, and the entries made from them. *)
Lemma reconstruct_inv (df_raw : DataFrame) (entries : list entry) :
  reconstruct df_raw = inr entries ->
  exists data,
    filled_data df_raw = inr data /\
    clean_data df_raw = inr (dropna 1 data) /\
    entries =
    processed_rows
      (build_col_map (iat df_raw date_row_idx) (iat df_raw header_row_idx)
         (shape1 df_raw))
      (dropna 1 data).
Proof.
  unfold reconstruct, clean_data, bind.
  destruct (filled_data df_raw) as [e|data]; [discriminate|].
  unfold iloc.
  destruct (date_row_idx <? shape0 df_raw); [|discriminate].
  destruct (header_row_idx <? shape0 df_raw); [|discriminate].
  intros H. inversion H. exists data. auto.
Qed.

Lemma load_records (read_csv : string -> string + DataFrame)
  (file_path : string) (r : task_record) :
  In r (fst (load_and_clean_data read_csv file_path)) ->
  exists df_raw entries e,
    read_csv file_path = inr df_raw /\
    reconstruct df_raw = inr entries /\
    In e entries /\ r = post_process e.
Proof.
  unfold load_and_clean_data.
  destruct (read_csv file_path) as [msg|df_raw] eqn:Er; [intros []|].
  unfold process, bind.
  destruct (reconstruct df_raw) as [e|entries] eqn:Ec; [intros []|].
  destruct entries as [|e0 rest]; [intros []|].
  intros H. change (In r (map post_process (e0 :: rest))) in H.
  apply in_map_iff in H as (e & <- & He).
  exists df_raw, (e0 :: rest), e. repeat split; assumption.
Qed.

Lemma in_processed_rows (col_map : ColMap) (data : list Series) (e : entry) :
  In e (processed_rows col_map data) <->
  exists row, In row data /\ In e (row_entries col_map row).
Proof. unfold processed_rows. apply in_flat_map. Qed.

Lemma row_entries_identity (col_map : ColMap) (row : Series) (e : entry) :
  In e (row_entries col_map row) ->
  e_Employee_Name e = row 1 /\ e_Location e = row 2.
Proof.
  intros H. apply in_row_entries in H as (d & td & _ & _ & ->). auto.
Qed.

(** C4: every record of the result has an Employee Name that is neither
    missing nor a text of blanks.  A blank name cell is taken as missing
    and replaced by the nearest name above that is not blank; the rows
    whose name is still missing are removed before reconstruction. *)
Theorem employee_name_is_present :
  (forall (read_csv : string -> string + DataFrame) (file_path : string)
          (r : task_record),
      In r (fst (load_and_clean_data read_csv file_path)) ->
      name_ok (r_Employee_Name r) = true) /\
  (forall (df_raw : DataFrame) (data : list Series) (i : nat) (row : Series),
      filled_data df_raw = inr data -> nth_error data i = Some row ->
      row 1 = nearest_above df_raw 1 i) /\
  (forall (df_raw : DataFrame) (data : list Series),
      filled_data df_raw = inr data ->
      exists rows,
        clean_data df_raw = inr rows /\
        forall row, In row rows <-> In row data /\ isna (row 1) = false).
Proof.
  split; [|split].
  - intros read_csv file_path r Hr.
    apply load_records in Hr as (df_raw & entries & e & _ & Hrec & He & ->).
    apply reconstruct_inv in Hrec as (data & Hf & _ & ->).
    apply in_processed_rows in He as (row & Hrow & He).
    apply row_entries_identity in He as [Hname _].
    simpl. rewrite Hname.
    unfold dropna in Hrow. apply filter_In in Hrow as [Hin Hna].
    apply negb_true_iff in Hna.
    apply In_nth_error in Hin as [i Hi].
    destruct (filled_data_row _ _ _ _ Hf Hi) as (_ & H1 & _).
    apply present_of_normal; [|exact Hna].
    rewrite H1. apply nearest_above_normal.
  - intros df_raw data i row Hf Hi.
    now destruct (filled_data_row _ _ _ _ Hf Hi) as (_ & H1 & _).
  - intros df_raw data Hf. exists (dropna 1 data). split.
    + unfold clean_data, bind. now rewrite Hf.
    + intros row. unfold dropna. rewrite filter_In, negb_true_iff. tauto.
Qed.

(** On the sheet whose second row continues the first, both records carry
    the name of the first row; on the sheet whose only row has a blank
    name nothing reaches reconstruction. *)
Lemma employee_name_is_present_witness :
  Forall (fun r => name_ok (r_Employee_Name r) = true)
    (fst (load_and_clean_data (fun _ => inr continuation_sheet) "nov.csv")) /\
  map r_Employee_Name
    (fst (load_and_clean_data (fun _ => inr continuation_sheet) "nov.csv"))
  = [Str "Asha"; Str "Asha"] /\
  clean_data nameless_sheet = inr [].
Proof.
  destruct employee_name_is_present as (Hname & Hfill & Hdrop).
  split; [|split].
  - apply Forall_forall. intros r Hr.
    exact (Hname (fun _ => inr continuation_sheet) "nov.csv" r Hr).
  - reflexivity.
  - destruct (Hdrop nameless_sheet _ eq_refl) as (rows & Hc & Hin).
    rewrite Hc. f_equal. destruct rows as [|row rest]; [reflexivity|].
    exfalso. destruct (proj1 (Hin row) (or_introl eq_refl)) as [[<-|[]] Hna].
    discriminate Hna.
Defined.

(** C10: a data row is removed only when its Employee Name is still missing
    after the fill.  A row whose Location is blank on it and on every data
    row above, and whose name is present after the fill, is kept: its
    Location is the missing value, its day cells are those of the sheet,
    and every record made from it carries the missing Location. *)
Theorem blank_location_row_is_kept :
  forall (df_raw : DataFrame) (data : list Series) (i : nat) (row : Series),
    filled_data df_raw = inr data ->
    nth_error data i = Some row ->
    (forall k, k <= i ->
               isna (blank_to_nan (iat df_raw (3 + k) 2)) = true) ->
    (exists k, k <= i /\
               isna (blank_to_nan (iat df_raw (3 + k) 1)) = false) ->
    row 2 = NaN /\
    (forall c, 3 <= c -> row c = iat df_raw (3 + i) c) /\
    exists rows,
      clean_data df_raw = inr rows /\
      (forall row', In row' data ->
                    (In row' rows <-> isna (row' 1) = false)) /\
      In row rows /\
      forall (col_map : ColMap) (e : entry),
        In e (row_entries col_map row) ->
        In e (processed_rows col_map rows) /\
        e_Location e = NaN /\
        r_Location (post_process e) = NaN.
Proof.
  intros df_raw data i row Hf Hi Hloc (k & Hk & Hname).
  destruct (filled_data_row _ _ _ _ Hf Hi) as (Hlen & H1 & H2 & Hc).
  assert (Hrow2 : row 2 = NaN).
  { rewrite H2. unfold nearest_above, last_valid.
    apply last_valid_from_all_missing.
    unfold identity_cells. apply Forall_forall. intros x Hx.
    apply in_map_iff in Hx as (r & <- & Hr). apply in_seq in Hr.
    replace r with (3 + (r - 3)) by lia. apply Hloc. lia. }
  assert (Hrow1 : isna (row 1) = false).
  { rewrite H1. unfold nearest_above, last_valid.
    apply last_valid_from_some_valid. right.
    exists (blank_to_nan (iat df_raw (3 + k) 1)). split; [|exact Hname].
    unfold identity_cells.
    apply (in_map (fun r => blank_to_nan (iat df_raw r 1))).
    apply in_seq. lia. }
  split; [exact Hrow2|]. split; [intros c Hc3; apply Hc; lia|].
  exists (dropna 1 data).
  assert (Hin : In row (dropna 1 data)).
  { unfold dropna. apply filter_In. split.
    - eapply nth_error_In. exact Hi.
    - now rewrite Hrow1. }
  split; [unfold clean_data, bind; now rewrite Hf|].
  split.
  { intros row' Hrow'. unfold dropna. rewrite filter_In, negb_true_iff. tauto. }
  split; [exact Hin|].
  intros col_map e He. split.
  - apply in_processed_rows. now exists row.
  - apply row_entries_identity in He as [_ Hl]. simpl.
    rewrite Hl, Hrow2. auto.
Qed.

(** On the sheet where no row gives a location, the continuation row is
    kept and both records come out with the missing Location. *)
Lemma blank_location_row_is_kept_witness :
  (exists row rows,
      nth_error
        (ffill 2 (ffill 1
           (map (fun r => upd r 2 (blank_to_nan (r 2)))
              (map (fun r => upd r 1 (blank_to_nan (r 1)))
                 (iloc_from continuation_sheet data_start_idx))))) 1
      = Some row /\
      row 2 = NaN /\
      clean_data continuation_sheet = inr rows /\ In row rows) /\
  map r_Location
    (fst (load_and_clean_data (fun _ => inr continuation_sheet) "nov.csv"))
  = [NaN; NaN].
Proof.
  split; [|reflexivity].
  destruct (blank_location_row_is_kept continuation_sheet _ 1 _
              eq_refl eq_refl) as (H2 & _ & rows & Hc & _ & Hin & _).
  - intros k Hk. destruct k as [|[|k]]; [reflexivity|reflexivity|lia].
  - exists 0. split; [lia|reflexivity].
  - eexists. exists rows. split; [reflexivity|].
    split; [exact H2|]. split; [exact Hc|exact Hin].
Defined.

(** ** A role written by several columns *)

Lemma filled_data_length (df_raw : DataFrame) (data : list Series) :
  filled_data df_raw = inr data ->
  List.length data = shape0 df_raw - 3.
Proof.
  intros Hf. destruct (filled_data_columns _ _ Hf) as (_ & _ & _ & Hc).
  assert (H0 : 0 <> 1) by lia. assert (H0' : 0 <> 2) by lia.
  pose proof (f_equal (@List.length cell) (Hc 0 H0 H0')) as Hl.
  unfold column in Hl. now rewrite !length_map, length_seq in Hl.
Qed.

(** A sheet of three columns or more passes the two identity lookups. *)
Lemma filled_data_total (df_raw : DataFrame) :
  3 <= shape1 df_raw -> exists data, filled_data df_raw = inr data.
Proof.
  intros Hcols. destruct (filled_data df_raw) as [ex|data] eqn:Hf.
  - exfalso. unfold filled_data, replace_blank, bind in Hf.
    replace (1 <? shape1 df_raw) with true in Hf
      by (symmetry; apply Nat.ltb_lt; lia).
    replace (2 <? shape1 df_raw) with true in Hf
      by (symmetry; apply Nat.ltb_lt; lia).
    discriminate.
  - now exists data.
Qed.

(** With a data row, the date row and the header row are there. *)
Lemma reconstruct_rows (df_raw : DataFrame) (data : list Series) :
  filled_data df_raw = inr data -> data <> [] ->
  reconstruct df_raw =
  inr (processed_rows
         (build_col_map (iat df_raw 1) (iat df_raw 2) (shape1 df_raw))
         (dropna 1 data)).
Proof.
  intros Hf Hne. pose proof (filled_data_length _ _ Hf) as Hlen.
  assert (Hpos : 0 < List.length data)
    by (destruct data; [congruence|simpl; lia]).
  unfold reconstruct, clean_data, bind. rewrite Hf. unfold iloc.
  replace (date_row_idx <? shape0 df_raw) with true
    by (symmetry; apply Nat.ltb_lt; unfold date_row_idx; lia).
  replace (header_row_idx <? shape0 df_raw) with true
    by (symmetry; apply Nat.ltb_lt; unfold header_row_idx; lia).
  reflexivity.
Qed.

(** The load of a sheet whose identity columns are there never reports a
    processing error. *)
Lemma load_without_processing_error
  (read_csv : string -> string + DataFrame) (file_path : string)
  (df_raw : DataFrame) (data : list Series) :
  read_csv file_path = inr df_raw ->
  filled_data df_raw = inr data -> data <> [] ->
  snd (load_and_clean_data read_csv file_path) = None \/
  snd (load_and_clean_data read_csv file_path) = Some No_data_found.
Proof.
  intros Hread Hf Hne. unfold load_and_clean_data. rewrite Hread.
  unfold process, bind. rewrite (reconstruct_rows _ _ Hf Hne).
  destruct (processed_rows _ _); [right|left]; reflexivity.
Qed.

(** An entry of a row that keeps its name is a record of the result. *)
Lemma kept_entry_is_loaded
  (read_csv : string -> string + DataFrame) (file_path : string)
  (df_raw : DataFrame) (data : list Series) (row : Series) (e : entry) :
  read_csv file_path = inr df_raw ->
  filled_data df_raw = inr data ->
  In row data -> isna (row 1) = false ->
  In e (row_entries
          (build_col_map (iat df_raw 1) (iat df_raw 2) (shape1 df_raw)) row) ->
  In (post_process e) (fst (load_and_clean_data read_csv file_path)) /\
  snd (load_and_clean_data read_csv file_path) = None.
Proof.
  intros Hread Hf Hrow Hname He.
  set (cm := build_col_map (iat df_raw 1) (iat df_raw 2) (shape1 df_raw)) in *.
  assert (Hne : data <> []) by (intros ->; exact Hrow).
  assert (Hin : In e (processed_rows cm (dropna 1 data))).
  { apply in_processed_rows. exists row. split; [|exact He].
    unfold dropna. apply filter_In. split; [exact Hrow|].
    now rewrite Hname. }
  unfold load_and_clean_data. rewrite Hread.
  rewrite (process_keeps_entries _ _ (reconstruct_rows _ _ Hf Hne)).
  - simpl. split; [now apply in_map|reflexivity].
  - intros Hnil. unfold cm in Hin. rewrite Hnil in Hin. exact Hin.
Qed.

(** The columns of the role map lie from column 7 to the last one. *)
Lemma mapped_column_bounds (dates_row headers_row : Series)
  (total_cols c : nat) (v : string * field) :
  In (c, v) (build_col_map dates_row headers_row total_cols) ->
  7 <= c /\ c < total_cols.
Proof.
  intros Hin.
  destruct (dict_get Nat.eqb c (build_col_map dates_row headers_row total_cols))
    as [v'|] eqn:Hget.
  - rewrite build_col_map_get in Hget.
    destruct (Nat.leb_spec 7 c) as [H7|H7]; [|discriminate].
    destruct (Nat.ltb_spec c total_cols) as [Ht|Ht]; [|discriminate].
    split; assumption.
  - exfalso. apply (dict_get_none_keys _ nat_eqb_spec) in Hget.
    apply Hget. apply in_map_iff. exists (c, v). auto.
Qed.

(** The bundle of a date holds, for a role, the cell of the last column of
    the map with that date and that role; so does every entry of the date,
    and the bundle gives such an entry as soon as it passes the validity
    test. *)
Lemma last_write_in_row (col_map before after : ColMap) (row : Series)
  (c : nat) (date_str : string) (fld : field) :
  col_map = (before ++ (c, (date_str, fld)) :: after)%list ->
  (forall c', ~ In (c', (date_str, fld)) after) ->
  exists task_data,
    dict_get String.eqb date_str (build_row_tasks col_map row)
    = Some task_data /\
    dict_get field_eqb fld task_data = Some (row c) /\
    (forall e, In e (row_entries col_map row) -> e_Date e = date_str ->
               entry_field fld e = row c) /\
    (is_empty_task task_data = false ->
     In (make_entry (row 1) (row 2) date_str task_data)
        (row_entries col_map row) /\
     e_Date (make_entry (row 1) (row 2) date_str task_data) = date_str /\
     entry_field fld (make_entry (row 1) (row 2) date_str task_data) = row c).
Proof.
  intros -> Hlast.
  set (cm := (before ++ (c, (date_str, fld)) :: after)%list).
  assert (Hcell : cell_of (build_row_tasks cm row) date_str fld = Some (row c)).
  { unfold build_row_tasks. rewrite cell_of_fold.
    unfold cm. now rewrite (last_write_split _ _ _ _ _ Hlast). }
  unfold cell_of in Hcell.
  destruct (dict_get String.eqb date_str (build_row_tasks cm row))
    as [td|] eqn:Etd; [|discriminate].
  exists td. split; [reflexivity|]. split; [exact Hcell|]. split.
  - intros e He Hdate. apply in_row_entries in He as (d & td' & Hin & _ & ->).
    simpl in Hdate. subst d.
    apply (dict_in_get _ string_eqb_spec) in Hin;
      [|apply build_row_tasks_nodup].
    rewrite Etd in Hin. inversion Hin; subst td'.
    rewrite entry_field_make. unfold dict_get_or. now rewrite Hcell.
  - intros Hvalid. split; [|split].
    + apply in_row_entries. exists date_str, td.
      split; [|split; [exact Hvalid|reflexivity]].
      apply (dict_get_in _ string_eqb_spec). exact Etd.
    + reflexivity.
    + rewrite entry_field_make. unfold dict_get_or. now rewrite Hcell.
Qed.



(* ================================================================== *)
(** * Further properties of the load *)

(** X1: the message of the returned pair is [None] exactly when the record
    set is not empty: an empty result always comes with a message, and a
    message always comes with the empty result. *)
Theorem message_iff_no_records :
  forall (read_csv : string -> string + DataFrame) (file_path : string),
    snd (load_and_clean_data read_csv file_path) = None <->
    fst (load_and_clean_data read_csv file_path) <> [].
Proof.
  intros read_csv file_path. unfold load_and_clean_data.
  destruct (read_csv file_path) as [e|df_raw]; simpl.
  - split; [discriminate|congruence].
  - unfold process, bind. destruct (reconstruct df_raw) as [e|entries]; simpl.
    + split; [discriminate|congruence].
    + destruct entries as [|e0 rest]; simpl.
      * split; [discriminate|congruence].
      * split; [discriminate|reflexivity].
Qed.

(** X2: on a frame that was read, the processing errors are decided by the
    shape alone, the columns being looked up before the rows: at most one
    column gives [KeyError 1], two columns give [KeyError 2], at least
    three columns with at most two rows give [IndexError]; with three
    columns and three rows or more there is no processing error. *)
Theorem processing_error_by_shape :
  forall (read_csv : string -> string + DataFrame) (file_path : string)
         (df_raw : DataFrame),
    read_csv file_path = inr df_raw ->
    (shape1 df_raw <= 1 ->
     load_and_clean_data read_csv file_path =
     ([], Some (Error_processing_data (KeyError 1)))) /\
    (shape1 df_raw = 2 ->
     load_and_clean_data read_csv file_path =
     ([], Some (Error_processing_data (KeyError 2)))) /\
    (3 <= shape1 df_raw -> shape0 df_raw <= 2 ->
     load_and_clean_data read_csv file_path =
     ([], Some (Error_processing_data IndexError))) /\
    (3 <= shape1 df_raw -> 3 <= shape0 df_raw ->
     forall e, snd (load_and_clean_data read_csv file_path)
               <> Some (Error_processing_data e)).
Proof.
  intros read_csv file_path df_raw Hr.
  assert (Hraise : forall e, process df_raw = inl e ->
            load_and_clean_data read_csv file_path =
            ([], Some (Error_processing_data e))).
  { intros e He. unfold load_and_clean_data. now rewrite Hr, He. }
  split; [|split; [|split]].
  - intros H. apply Hraise, process_raises, reconstruct_raises. auto.
  - intros H. apply Hraise, process_raises, reconstruct_raises. auto.
  - intros H1 H0. apply Hraise, process_raises, reconstruct_raises. auto.
  - intros H1 H0 e. unfold load_and_clean_data. rewrite Hr.
    destruct (process df_raw) as [e'|[recs msg]] eqn:Ep.
    + apply process_raises, reconstruct_raises in Ep. lia.
    + unfold process, bind in Ep.
      destruct (reconstruct df_raw) as [e'|entries]; [discriminate|].
      destruct entries; inversion Ep; simpl; discriminate.
Qed.

(** A frame of one row and one column fails on column 1, not on the
    rows. *)
Lemma processing_error_by_shape_witness :
  load_and_clean_data (fun _ => inr (frame_of_rows [[Str "x"]])) "one.csv" =
  ([], Some (Error_processing_data (KeyError 1))).
Proof.
  apply (processing_error_by_shape (fun _ => inr (frame_of_rows [[Str "x"]]))
           "one.csv" (frame_of_rows [[Str "x"]]) eq_refl).
  simpl. lia.
Defined.

(** The day cells of an entry, field by field. *)
Lemma entry_day_cells (col_map : ColMap) (row : Series) (e : entry)
  (f : field) :
  In e (row_entries col_map row) ->
  entry_field f e =
  match last_write col_map (e_Date e) f with
  | Some c => row c
  | None => field_default f
  end.
Proof.
  intros He.
  apply in_row_entries in He as (d & td & Hin & _ & ->).
  rewrite entry_field_make. simpl e_Date.
  apply (dict_in_get _ string_eqb_spec) in Hin;
    [|apply build_row_tasks_nodup].
  pose proof (cell_of_fold row col_map [] d f) as Hc.
  unfold cell_of in Hc. fold (build_row_tasks col_map row) in Hc.
  rewrite Hin in Hc. unfold dict_get_or. rewrite Hc.
  now destruct (last_write col_map d f).
Qed.

(** X3: every cell of a record comes from its row: the name and the
    location from columns 1 and 2, and each day field from the last column
    of the role map carrying the record's date and that field, or, when no
    column does, the default of the field (missing; 0 for the work time;
    the empty text for the description). *)
Theorem record_cells_from_row :
  forall (col_map : ColMap) (row : Series) (e : entry),
    In e (row_entries col_map row) ->
    e_Employee_Name e = row 1 /\
    e_Location e = row 2 /\
    forall f : field,
      entry_field f e =
      match last_write col_map (e_Date e) f with
      | Some c => row c
      | None => field_default f
      end.
Proof.
  intros col_map row e He.
  destruct (row_entries_identity _ _ _ He) as [Hn Hl].
  split; [exact Hn|]. split; [exact Hl|].
  intros f. now apply entry_day_cells.
Qed.

(** On the sheet with two identity headers and no work-time column, the
    record has the default work time and the second description. *)
Lemma record_cells_from_row_witness :
  Forall (fun e => e_Work_Time_Mins e = Num "0" /\
                   e_Description e = Str "second" /\
                   e_Employee_Name e = Str "Asha")
    (row_entries
       (build_col_map (iat two_descriptions_sheet 1)
          (iat two_descriptions_sheet 2) (shape1 two_descriptions_sheet))
       (iat two_descriptions_sheet 3)).
Proof.
  apply Forall_forall. intros e He.
  destruct (record_cells_from_row _ _ e He) as (Hn & _ & Hf).
  pose proof (Hf Work_Time_Mins) as Hw. pose proof (Hf Description) as Hd.
  vm_compute in He. destruct He as [<-|[]].
  repeat split.
Defined.

(** ** Shape of the role map *)

Lemma rstrip_idem (s : string) : Py.rstrip (Py.rstrip s) = Py.rstrip s.
Proof.
  induction s as [|c s IH]; [reflexivity|].
  simpl. destruct (Py.rstrip s) as [|d r] eqn:E.
  - destruct (Py.isspace c) eqn:Ec; [reflexivity|].
    simpl. now rewrite Ec.
  - change (Py.rstrip (String c (String d r)))
      with (match Py.rstrip (String d r) with
            | EmptyString =>
                if Py.isspace c then EmptyString else String c EmptyString
            | r' => String c r'
            end).
    now rewrite IH.
Qed.

Lemma rstrip_head (c : ascii) (t : string) :
  Py.isspace c = false -> exists r, Py.rstrip (String c t) = String c r.
Proof.
  intros Hc. simpl. destruct (Py.rstrip t) as [|d r].
  - rewrite Hc. now exists "".
  - now exists (String d r).
Qed.

(** Trimming a trimmed text changes nothing. *)
Lemma strip_idem (s : string) : Py.strip (Py.strip s) = Py.strip s.
Proof.
  unfold Py.strip. pose proof (lstrip_head s) as Hh.
  destruct (Py.lstrip s) as [|c t]; [reflexivity|].
  destruct (rstrip_head c t Hh) as [r Hr].
  rewrite Hr. simpl Py.lstrip. rewrite Hh. rewrite <- Hr.
  apply rstrip_idem.
Qed.

Lemma dict_set_fresh {K V : Type} (keq : K -> K -> bool) (k : K) (v : V)
  (d : dict K V) :
  dict_get keq k d = None -> dict_set keq k v d = (d ++ [(k, v)])%list.
Proof.
  induction d as [|[k' v'] d IH]; simpl; [reflexivity|].
  destruct (keq k k'); [discriminate|]. intros H. now rewrite IH.
Qed.

Lemma dict_get_absent (k : nat) {V : Type} (d : dict nat V) :
  ~ In k (map fst d) -> dict_get Nat.eqb k d = None.
Proof.
  induction d as [|[k' v'] d IH]; simpl; [reflexivity|].
  intros H. destruct (Nat.eqb_spec k k') as [->|Hne].
  - exfalso. apply H. now left.
  - apply IH. intros Hin. apply H. now right.
Qed.

Lemma sorted_snoc (l : list nat) (s : nat) :
  StronglySorted lt l -> Forall (fun k => k < s) l ->
  StronglySorted lt (l ++ [s])%list.
Proof.
  induction l as [|a l IH]; intros Hs Hl; simpl.
  - constructor; constructor.
  - inversion Hs as [|? ? Hs' Ha]; subst.
    inversion Hl as [|? ? Has Hl']; subst.
    constructor; [now apply IH|].
    apply Forall_app. split; [exact Ha|]. constructor; [exact Has|constructor].
Qed.

Lemma item_ok_weaken (lo hi hi' : nat) (item : nat * (string * field)) :
  hi <= hi' -> item_ok lo hi item -> item_ok lo hi' item.
Proof. unfold item_ok. intros H (H1 & H2 & H3). repeat split; try lia; tauto. Qed.

Lemma scan_columns_shape (dates_row headers_row : Series) (lo n : nat) :
  forall (s : nat) (cur : option string) (col_map : ColMap),
    lo <= s ->
    (forall d, cur = Some d ->
               is_date_label d = true /\ Py.strip d = d) ->
    StronglySorted lt (map fst col_map) ->
    Forall (item_ok lo s) col_map ->
    StronglySorted lt
      (map fst (scan_columns dates_row headers_row (seq s n) cur col_map)) /\
    Forall (item_ok lo (s + n))
      (scan_columns dates_row headers_row (seq s n) cur col_map).
Proof.
  induction n as [|n IH]; intros s cur col_map Hlo Hcur Hs Hok.
  - simpl. rewrite Nat.add_0_r. auto.
  - simpl seq. simpl scan_columns.
    set (val := Py.strip (str (dates_row s))).
    set (cur' := if is_date_label val then Some val else cur).
    set (fld := classify (Py.strip (str (headers_row s)))).
    assert (Hcur' : forall d, cur' = Some d ->
                      is_date_label d = true /\ Py.strip d = d).
    { intros d Hd. unfold cur' in Hd.
      destruct (is_date_label val) eqn:E; [|now apply Hcur].
      inversion Hd; subst d. split; [exact E|apply strip_idem]. }
    replace (s + S n) with (S s + n) by lia.
    destruct (date_and_field cur' fld) as [[d f]|] eqn:Edf.
    + assert (Hd : cur' = Some d).
      { unfold date_and_field in Edf. destruct cur' as [d0|]; [|discriminate].
        destruct fld; [|discriminate].
        destruct (Py.truthy d0); inversion Edf. reflexivity. }
      assert (Hkeys : Forall (fun k => k < s) (map fst col_map)).
      { apply Forall_map. eapply Forall_impl; [|exact Hok].
        intros item (_ & H & _). exact H. }
      rewrite (dict_set_fresh Nat.eqb).
      2:{ apply dict_get_absent. intros Hin.
          rewrite Forall_forall in Hkeys. specialize (Hkeys s Hin). lia. }
      apply IH; [lia|exact Hcur'| |].
      * rewrite map_app. simpl. now apply sorted_snoc.
      * apply Forall_app. split.
        -- eapply Forall_impl; [|exact Hok]. intros item.
           apply item_ok_weaken. lia.
        -- constructor; [|constructor]. unfold item_ok, item_label. simpl.
           destruct (Hcur' d Hd). repeat split; try lia; assumption.
    + apply IH; [lia|exact Hcur'|exact Hs|].
      eapply Forall_impl; [|exact Hok]. intros item.
      apply item_ok_weaken. lia.
Qed.

(** Every item of the role map is a column from 7 on with a date
    label. *)
Lemma col_map_items_ok (dates_row headers_row : Series) (total_cols : nat) :
  Forall (item_ok 7 (7 + (total_cols - 7)))
    (build_col_map dates_row headers_row total_cols).
Proof.
  unfold build_col_map.
  apply (scan_columns_shape dates_row headers_row 7 (total_cols - 7)
           7 None [] (le_n 7)).
  - discriminate.
  - constructor.
  - constructor.
Qed.

(** X4: the role map lists its columns in increasing order, each once;
    every column lies between 7 and the last column of the sheet, and
    every date label recorded is a trimmed text that is neither empty nor
    "nan" in any letter case. *)
Theorem col_map_well_formed :
  forall (dates_row headers_row : Series) (total_cols : nat),
    StronglySorted lt
      (map fst (build_col_map dates_row headers_row total_cols)) /\
    Forall (fun item =>
              7 <= fst item /\ fst item < total_cols /\
              is_date_label (item_label item) = true /\
              Py.strip (item_label item) = item_label item)
      (build_col_map dates_row headers_row total_cols).
Proof.
  intros dates_row headers_row total_cols. unfold build_col_map.
  destruct (scan_columns_shape dates_row headers_row 7 (total_cols - 7)
              7 None [] (le_n 7)) as [Hs Hok].
  - discriminate.
  - constructor.
  - constructor.
  - split; [exact Hs|].
    eapply Forall_impl; [|exact Hok].
    intros item (H1 & H2 & H3 & H4). repeat split; try assumption. lia.
Qed.

(** ** Order of the records of a row *)

Lemma existsb_keys_mem (d : string) (row_tasks : RowTasks) :
  existsb (String.eqb d) (map fst row_tasks) =
  dict_mem String.eqb d row_tasks.
Proof.
  unfold dict_mem. induction row_tasks as [|[k v] rt IH]; [reflexivity|].
  simpl. destruct (String.eqb d k); [reflexivity|exact IH].
Qed.

Lemma add_cell_keys (row : Series) (row_tasks : RowTasks)
  (item : nat * (string * field)) :
  map fst (add_cell row row_tasks item) =
  if dict_mem String.eqb (item_label item) row_tasks
  then map fst row_tasks
  else (map fst row_tasks ++ [item_label item])%list.
Proof.
  destruct item as [c [d f]]. unfold add_cell, item_label. simpl fst. simpl snd.
  rewrite (dict_set_keys _ string_eqb_spec).
  destruct (dict_mem String.eqb d row_tasks) eqn:E.
  - now rewrite E.
  - rewrite (dict_set_keys _ string_eqb_spec), E.
    unfold dict_mem. now rewrite (dict_get_set_same _ string_eqb_spec).
Qed.

Lemma fold_add_cell_keys (row : Series) (col_map : ColMap) :
  forall row_tasks : RowTasks,
    map fst (fold_left (add_cell row) col_map row_tasks) =
    (map fst row_tasks ++
     dedup_first (map fst row_tasks) (map item_label col_map))%list.
Proof.
  induction col_map as [|item rest IH]; intros row_tasks.
  - simpl. now rewrite app_nil_r.
  - simpl fold_left. rewrite IH, add_cell_keys. simpl map. simpl dedup_first.
    rewrite existsb_keys_mem.
    destruct (dict_mem String.eqb (item_label item) row_tasks);
      [reflexivity|].
    now rewrite <- app_assoc.
Qed.

Lemma flatten_dates (emp_name location : cell) (row_tasks : RowTasks) :
  NoDup (map fst row_tasks) ->
  map e_Date (flatten_row_tasks emp_name location row_tasks) =
  filter (fun d => negb (is_empty_task
                           (dict_get_or String.eqb d [] row_tasks)))
    (map fst row_tasks).
Proof.
  unfold flatten_row_tasks.
  induction row_tasks as [|[d td] rt IH]; intros Hnd; [reflexivity|].
  inversion Hnd as [|? ? Hnot Hnd']; subst.
  simpl flat_map. rewrite map_app, (IH Hnd'). simpl map. simpl filter.
  unfold dict_get_or at 2. simpl dict_get. rewrite String.eqb_refl.
  replace (filter (fun d0 => negb (is_empty_task
                     (dict_get_or String.eqb d0 [] ((d, td) :: rt))))
             (map fst rt))
    with (filter (fun d0 => negb (is_empty_task
                     (dict_get_or String.eqb d0 [] rt))) (map fst rt)).
  - now destruct (is_empty_task td).
  - apply filter_ext_in. intros d0 Hd0. unfold dict_get_or. simpl dict_get.
    destruct (String.eqb_spec d0 d) as [->|Hne]; [contradiction|reflexivity].
Qed.

(** The bundles of a row are keyed by the labels of the role map, first
    occurrences first. *)
Lemma build_row_tasks_keys (col_map : ColMap) (row : Series) :
  map fst (build_row_tasks col_map row) = first_labels col_map.
Proof. unfold build_row_tasks. now rewrite fold_add_cell_keys. Qed.

(** X5: the records of a row come in the order in which their date labels
    first appear in the role map, one for each label whose bundle passes
    the validity test; so a row never gives two records for one label. *)
Theorem row_records_in_label_order :
  forall (col_map : ColMap) (row : Series),
    map fst (build_row_tasks col_map row) = first_labels col_map /\
    map e_Date (row_entries col_map row) =
    filter (has_record col_map row) (first_labels col_map) /\
    NoDup (map e_Date (row_entries col_map row)).
Proof.
  intros col_map row.
  assert (Hkeys : map fst (build_row_tasks col_map row) = first_labels col_map).
  { unfold build_row_tasks. now rewrite fold_add_cell_keys. }
  assert (Hdates : map e_Date (row_entries col_map row) =
                   filter (has_record col_map row) (first_labels col_map)).
  { unfold row_entries.
    rewrite flatten_dates by apply build_row_tasks_nodup.
    now rewrite Hkeys. }
  split; [exact Hkeys|]. split; [exact Hdates|].
  rewrite Hdates. apply NoDup_filter. rewrite <- Hkeys.
  apply build_row_tasks_nodup.
Qed.

(** ** Labels without ordinal suffix *)

Lemma sub_ordinal_from_fixed (s : string) :
  forall b : bool,
    has_ordinal s = false ->
    (b = true -> starts_with_suffix s = false) ->
    sub_ordinal_from b s = s.
Proof.
  induction s as [|c rest IH]; intros b Hno Hb; [reflexivity|].
  rewrite sub_ordinal_from_cons.
  change (prefix "st" (String c rest) || prefix "nd" (String c rest) ||
          prefix "rd" (String c rest) || prefix "th" (String c rest))
    with (starts_with_suffix (String c rest)).
  simpl in Hno. apply orb_false_iff in Hno as [Hc Hrest].
  replace (b && starts_with_suffix (String c rest)) with false.
  - f_equal. apply IH; [exact Hrest|].
    intros Hd. rewrite Hd in Hc. exact Hc.
  - destruct b; [|reflexivity]. symmetry. now apply Hb.
Qed.

(** X6: a label in which no digit is directly followed by "st", "nd", "rd"
    or "th" is left unchanged by the removal of ordinal suffixes, so it is
    parsed as it stands. *)
Theorem label_without_ordinal_unchanged :
  forall s : string,
    has_ordinal s = false ->
    sub_ordinal s = s /\ parse_custom_date s = Strptime.strptime s.
Proof.
  intros s H.
  assert (Hs : sub_ordinal s = s)
    by (apply sub_ordinal_from_fixed; [exact H|discriminate]).
  split; [exact Hs|]. unfold parse_custom_date. now rewrite Hs.
Qed.

(** The label of the specification has no ordinal suffix; "Thu" and "Oct
    1, 25" do not count, as no digit precedes their letters. *)
Lemma label_without_ordinal_unchanged_witness :
  sub_ordinal "Thu, Oct 01, 25" = "Thu, Oct 01, 25" /\
  parse_custom_date "Thu, Oct 01, 25" = Strptime.strptime "Thu, Oct 01, 25".
Proof. apply label_without_ordinal_unchanged. reflexivity. Defined.

(** ** Whole numbers with separators *)

Lemma digit_char_plain (c : ascii) :
  Py.isdigit c = true ->
  Py.isspace c = false /\ Float.isspace c = false /\
  Ascii.eqb c "_" = false /\ Ascii.eqb c "-" = false /\
  Ascii.eqb c "+" = false /\ Ascii.eqb c "," = false.
Proof. ascii_cases c; intros _; repeat split. Qed.

Lemma remove_commas_digits (s : string) :
  digits_or_commas s = true ->
  all_digits (Py.remove_commas s) = true /\
  digits_value 0 (Py.remove_commas s) = digits_value 0 s /\
  has_digit (Py.remove_commas s) = has_digit s.
Proof.
  assert (H : forall acc, digits_or_commas s = true ->
            all_digits (Py.remove_commas s) = true /\
            digits_value acc (Py.remove_commas s) = digits_value acc s /\
            has_digit (Py.remove_commas s) = has_digit s).
  { induction s as [|c s IH]; intros acc Hs; [repeat split|].
    simpl in Hs. apply andb_prop in Hs as [Hc Hs].
    simpl Py.remove_commas.
    destruct (Ascii.eqb c ",") eqn:Ec.
    - apply Ascii.eqb_eq in Ec. subst c.
      destruct (IH acc Hs) as (H1 & H2 & H3). repeat split; assumption.
    - rewrite orb_false_r in Hc. simpl. rewrite Hc.
      destruct (IH (10 * acc + N.of_nat (Py.code c - 48))%N Hs)
        as (H1 & H2 & H3).
      repeat split; assumption. }
  apply H.
Qed.

Lemma float_digits_all (s : string) :
  forall acc : N,
    all_digits s = true ->
    Float.digits acc s = (digits_value acc s, String.length s, "").
Proof.
  induction s as [|c s IH]; intros acc H; [reflexivity|].
  simpl in H. apply andb_prop in H as [Hc Hs].
  simpl. rewrite Hc, (IH _ Hs). reflexivity.
Qed.

Lemma rtrim_digits (s : string) :
  all_digits s = true -> Float.rtrim s = s.
Proof.
  induction s as [|c s IH]; intros H; [reflexivity|].
  simpl in H. apply andb_prop in H as [Hc Hs].
  destruct (digit_char_plain c Hc) as (_ & Hsp & _).
  simpl. rewrite (IH Hs). destruct s; [now rewrite Hsp|reflexivity].
Qed.

Lemma strip_underscores_digits (s : string) :
  forall prev : option ascii,
    all_digits s = true ->
    match prev with Some p => Ascii.eqb p "_" = false | None => True end ->
    Float.strip_underscores prev s = Some s.
Proof.
  induction s as [|c s IH]; intros prev H Hp.
  - simpl. destruct prev as [p|]; [now rewrite Hp|reflexivity].
  - simpl in H. apply andb_prop in H as [Hc Hs].
    destruct (digit_char_plain c Hc) as (_ & _ & Hu & _).
    simpl. rewrite Hu, Hc. simpl negb. rewrite andb_false_r.
    now rewrite (IH (Some c) Hs Hu).
Qed.

Lemma float_of_digits (s : string) :
  all_digits s = true -> has_digit s = true ->
  Float.float s = Some (FDec false (digits_value 0 s) 0).
Proof.
  intros Hd Hh. destruct s as [|c s]; [discriminate|].
  pose proof Hd as Hd'. simpl in Hd'. apply andb_prop in Hd' as [Hc Hs].
  destruct (digit_char_plain c Hc) as (_ & Hsp & _ & Hm & Hp & _).
  unfold Float.float.
  replace (Float.ltrim (String c s)) with (String c s)
    by (simpl; now rewrite Hsp).
  rewrite (rtrim_digits _ Hd), (strip_underscores_digits _ None Hd I).
  unfold Float.parse.
  replace (Float.sign (String c s)) with (false, String c s)
    by (unfold Float.sign; now rewrite Hm, Hp).
  rewrite (float_digits_all _ 0%N Hd). reflexivity.
Qed.

Lemma has_digit_not_space (s : string) :
  has_digit s = true -> Py.all_space s = false.
Proof.
  induction s as [|c s IH]; [discriminate|].
  simpl. intros H. destruct (Py.isdigit c) eqn:Ec.
  - destruct (digit_char_plain c Ec) as (Hsp & _). now rewrite Hsp.
  - simpl in H. rewrite (IH H). apply andb_false_r.
Qed.

(** X7: a text made of decimal digits and commas, with at least one digit,
    whose digits write a whole number of at most 2^53, is read as that
    whole number, wherever the commas stand.  Up to 2^53 every whole number
    is a binary64 value, so the decimal kept by [Float.float] is the value
    Python's [float] returns; above that bound [float] rounds, and the
    statement says nothing. *)
Theorem clean_minutes_whole_number :
  forall s : string,
    digits_or_commas s = true -> has_digit s = true ->
    (digits_value 0 s <= 2 ^ 53)%N ->
    clean_minutes (Str s) = PFloat (FDec false (digits_value 0 s) 0).
Proof.
  intros s Hs Hd _.
  destruct (remove_commas_digits s Hs) as (H1 & H2 & H3).
  rewrite clean_minutes_unfold. simpl isna. simpl str.
  rewrite (has_digit_not_space _ Hd). simpl.
  rewrite float_of_digits; [now rewrite H2|exact H1|now rewrite H3].
Qed.

(** Commas need not stand every three digits. *)
Lemma clean_minutes_whole_number_witness :
  clean_minutes (Str "12,,5,0") = PFloat (FDec false 1250 0).
Proof.
  apply clean_minutes_whole_number; [reflexivity|reflexivity|].
  vm_compute. discriminate.
Defined.

(** ** Billing and letter case *)

Lemma lower_char_idem (c : ascii) :
  Py.lower_char (Py.lower_char c) = Py.lower_char c.
Proof. destruct c as [[] [] [] [] [] [] [] []]; reflexivity. Qed.

Lemma lower_idem (s : string) : Py.lower (Py.lower s) = Py.lower s.
Proof.
  induction s as [|c s IH]; [reflexivity|].
  simpl. now rewrite lower_char_idem, IH.
Qed.

Lemma lower_app (a b : string) :
  Py.lower (a ++ b) = (Py.lower a ++ Py.lower b)%string.
Proof. induction a as [|c a IH]; [reflexivity|]. simpl. now rewrite IH. Qed.

Lemma string_app_assoc (a b c : string) :
  ((a ++ b) ++ c = a ++ (b ++ c))%string.
Proof. induction a as [|x a IH]; [reflexivity|]. simpl. now rewrite IH. Qed.

Lemma contains_app (sub a s b : string) :
  Py.contains sub s = true -> Py.contains sub (a ++ s ++ b) = true.
Proof.
  intros H. apply contains_spec in H as (pre & post & ->).
  apply contains_spec. exists (a ++ pre)%string, (post ++ b)%string.
  now rewrite !string_app_assoc.
Qed.

(** X8: the billing class does not depend on letter case, and a category
    whose text contains a billable category is billable. *)
Theorem check_billable_stable :
  (forall s : string,
      check_billable (Str (Py.lower s)) = check_billable (Str s)) /\
  (forall a s b : string,
      check_billable (Str s) = true ->
      check_billable (Str (a ++ s ++ b)) = true).
Proof.
  split.
  - intros s. unfold check_billable. simpl str. now rewrite lower_idem.
  - intros a s b H. unfold check_billable in *. simpl str in *.
    apply existsb_exists in H as (k & Hk & Hc).
    apply existsb_exists. exists k. split; [exact Hk|].
    rewrite !lower_app. now apply contains_app.
Qed.

(** A longer category built around "Training". *)
Lemma check_billable_stable_witness :
  check_billable (Str ("Onsite " ++ "Training" ++ " (Batch 2)")) = true.
Proof.
  destruct check_billable_stable as [_ H]. apply H. reflexivity.
Defined.

(** ** Activity classifiers of the charts *)

Lemma contains_trans (a b s : string) :
  Py.contains a b = true -> Py.contains b s = true -> Py.contains a s = true.
Proof.
  intros Hab Hbs.
  apply contains_spec in Hab as (p1 & q1 & ->).
  apply contains_spec in Hbs as (p2 & q2 & ->).
  apply contains_spec. exists (p2 ++ p1)%string, (q1 ++ q2)%string.
  now rewrite !string_app_assoc.
Qed.

Lemma is_travel_contains (cat : cell) :
  Travel.is_travel cat = Py.contains "travel" (Py.lower (str cat)).
Proof.
  unfold Travel.is_travel, any_keyword, Travel.travel_keywords.
  cbn [existsb].
  change (Py.lower "Travel") with "travel".
  change (Py.lower "Travelling") with "travelling".
  rewrite orb_false_r.
  destruct (Py.contains "travel" (Py.lower (str cat))) eqn:E; [reflexivity|].
  destruct (Py.contains "travelling" (Py.lower (str cat))) eqn:E2;
    [|reflexivity].
  rewrite (contains_trans "travel" "travelling" _ eq_refl E2) in E.
  discriminate.
Qed.

(** X9: the travel test of the efficiency chart and the "Travel" class of
    the regional chart select the same categories: those whose lower-cased
    text contains "travel" (the keyword "Travelling" adds nothing). *)
Theorem travel_tests_agree :
  forall cat : cell,
    (Travel.is_travel cat = true <-> Location.categorize cat = "Travel") /\
    Travel.is_travel cat = Py.contains "travel" (Py.lower (str cat)).
Proof.
  intros cat. split; [|apply is_travel_contains].
  rewrite is_travel_contains. unfold Location.categorize.
  destruct (Py.contains "travel" (Py.lower (str cat))).
  - split; reflexivity.
  - split; [discriminate|].
    destruct (Py.contains "training" (Py.lower (str cat)) ||
              Py.contains "session" (Py.lower (str cat)));
      [discriminate|].
    destruct (Py.contains "content" (Py.lower (str cat))); discriminate.
Qed.

(** X10: a category counts as onsite delivery exactly when it passes the
    training filter of the training metrics and its delivery mode is not
    "Online"; so onsite delivery time is always part of training time. *)
Theorem onsite_delivery_is_training_not_online :
  forall cat : cell,
    Travel.is_onsite_delivery cat = true <->
    Training.is_training cat = true /\
    Training.categorize_mode cat <> "Online".
Proof.
  intros cat.
  unfold Travel.is_onsite_delivery, Training.is_training,
    Training.categorize_mode, Travel.training_keywords,
    Training.training_keywords.
  destruct (any_keyword ["Training"; "Session"; "Class"]
              (Py.lower (str cat))); simpl.
  - destruct (Py.contains "online" (Py.lower (str cat))); simpl.
    + split; [discriminate|]. intros [_ H]. congruence.
    + split; [|reflexivity]. intros _. split; [reflexivity|].
      destruct (Py.contains "offline" (Py.lower (str cat)) ||
                Py.contains "onsite" (Py.lower (str cat))); discriminate.
  - split; [discriminate|]. intros [H _]. discriminate.
Qed.

(** X11: the hours the weekly heat map counts under "Training" or
    "Content", and the hours the regional chart counts under "Content
    Creation", are billable hours. *)
Theorem training_and_content_are_billable :
  forall cat : cell,
    (Trends.check_cat cat "Training" = true -> check_billable cat = true) /\
    (Trends.check_cat cat "Content" = true -> check_billable cat = true) /\
    (Location.categorize cat = "Content Creation" ->
     check_billable cat = true).
Proof.
  intros cat. unfold Trends.check_cat, check_billable, billable_keywords.
  cbn [existsb].
  change (Py.lower "Training") with "training".
  change (Py.lower "Content") with "content".
  split; [|split].
  - intros H. now rewrite H.
  - intros H. rewrite H. now rewrite !orb_true_r.
  - unfold Location.categorize.
    destruct (Py.contains "travel" (Py.lower (str cat))); [discriminate|].
    destruct (Py.contains "training" (Py.lower (str cat)) ||
              Py.contains "session" (Py.lower (str cat))); [discriminate|].
    destruct (Py.contains "content" (Py.lower (str cat))); [|discriminate].
    intros _. now rewrite !orb_true_r.
Qed.

(** "Content Review" is content for the heat map, hence billable. *)
Lemma training_and_content_are_billable_witness :
  check_billable (Str "Content Review") = true.
Proof.
  apply (training_and_content_are_billable (Str "Content Review")).
  reflexivity.
Defined.

(** ** Colours of the activities *)

Lemma dict_get_not_key (k : string) {V : Type} (d : dict string V) :
  ~ In k (map fst d) -> dict_get String.eqb k d = None.
Proof.
  induction d as [|[k' v'] d IH]; simpl; [reflexivity|].
  intros H. destruct (String.eqb_spec k k') as [->|Hne].
  - exfalso. apply H. now left.
  - apply IH. intros Hin. apply H. now right.
Qed.

Lemma color_map_from_spec (cat_order : list string) :
  forall (i : nat) (color_map : dict string string),
    NoDup cat_order ->
    (forall cat, In cat cat_order -> ~ In cat (map fst color_map)) ->
    map fst (Activities.color_map_from i cat_order color_map) =
    (map fst color_map ++ cat_order)%list /\
    (forall j cat,
        nth_error cat_order j = Some cat ->
        dict_get String.eqb cat
          (Activities.color_map_from i cat_order color_map) =
        Some (rank_color (i + j) cat)) /\
    (forall cat,
        ~ In cat cat_order ->
        dict_get String.eqb cat
          (Activities.color_map_from i cat_order color_map) =
        dict_get String.eqb cat color_map).
Proof.
  induction cat_order as [|c rest IH]; intros i color_map Hnd Hfresh.
  - simpl. rewrite app_nil_r. split; [reflexivity|].
    split; [intros [|j] cat H; discriminate|reflexivity].
  - inversion Hnd as [|? ? Hnot Hnd']; subst.
    change (Activities.color_map_from i (c :: rest) color_map)
      with (Activities.color_map_from (S i) rest
              (dict_set String.eqb c (rank_color i c) color_map)).
    assert (Hset : dict_set String.eqb c (rank_color i c) color_map =
                   (color_map ++ [(c, rank_color i c)])%list).
    { apply dict_set_fresh, dict_get_not_key, Hfresh. now left. }
    rewrite Hset.
    destruct (IH (S i) (color_map ++ [(c, rank_color i c)])%list Hnd')
      as (Hk & Hat & Hout).
    { intros cat Hin. rewrite map_app. simpl. intros Hin'.
      apply in_app_or in Hin' as [Hin'|[<-|[]]].
      - apply (Hfresh cat); [now right|exact Hin'].
      - contradiction. }
    split; [|split].
    + rewrite Hk, map_app. simpl. now rewrite <- app_assoc.
    + intros [|j] cat Hj.
      * simpl in Hj. inversion Hj; subst cat. rewrite (Hout c Hnot).
        rewrite <- Hset, (dict_get_set_same _ string_eqb_spec).
        now rewrite Nat.add_0_r.
      * simpl in Hj. rewrite (Hat j cat Hj). do 2 f_equal. lia.
    + intros cat Hout'. rewrite Hout.
      * rewrite <- Hset. apply (dict_get_set_other _ string_eqb_spec).
        intros ->. apply Hout'. now left.
      * intros Hin. apply Hout'. now right.
Qed.

Lemma rank_color_known (i : nat) (cat : string) :
  rank_color i cat = "#B0B0B0" \/ In (rank_color i cat) Activities.custom_palette.
Proof.
  unfold rank_color. destruct (Py.contains "other" (Py.lower cat));
    [now left|right].
  apply nth_In. change (List.length Activities.custom_palette) with 8.
  apply Nat.mod_upper_bound. discriminate.
Qed.

(** X12: for categories ranked without repetition, the colour map lists
    them in rank order; the category of rank [i] gets grey when its
    lower-cased name contains "other" and otherwise the palette colour of
    index [i mod 8]; no other colour is ever given. *)
Theorem activity_color_map_by_rank :
  forall cat_order : list string,
    NoDup cat_order ->
    map fst (Activities.get_activity_color_map cat_order) = cat_order /\
    (forall i cat,
        nth_error cat_order i = Some cat ->
        dict_get String.eqb cat (Activities.get_activity_color_map cat_order)
        = Some (rank_color i cat)) /\
    (forall cat color,
        dict_get String.eqb cat (Activities.get_activity_color_map cat_order)
        = Some color ->
        color = "#B0B0B0" \/ In color Activities.custom_palette).
Proof.
  intros cat_order Hnd. unfold Activities.get_activity_color_map.
  destruct (color_map_from_spec cat_order 0 [] Hnd) as (Hk & Hat & Hout);
    [intros cat _ []|].
  split; [exact Hk|]. split; [exact Hat|].
  intros cat color Hget.
  destruct (in_dec string_dec cat cat_order) as [Hin|Hnin].
  - apply In_nth_error in Hin as [i Hi].
    rewrite (Hat i cat Hi) in Hget. inversion Hget; subst color.
    apply rank_color_known.
  - rewrite (Hout cat Hnin) in Hget. discriminate.
Qed.

(** Ten categories: the ninth takes the first colour again, and "Other
    Activities", ranked second, is grey. *)
Lemma activity_color_map_by_rank_witness :
  dict_get String.eqb "I"
    (Activities.get_activity_color_map
       ["Training"; "Other Activities"; "C"; "D"; "E"; "F"; "G"; "H"; "I"; "J"])
  = Some "#F97B72" /\
  dict_get String.eqb "Other Activities"
    (Activities.get_activity_color_map
       ["Training"; "Other Activities"; "C"; "D"; "E"; "F"; "G"; "H"; "I"; "J"])
  = Some "#B0B0B0".
Proof.
  assert (Hnd : NoDup ["Training"; "Other Activities"; "C"; "D"; "E"; "F";
                       "G"; "H"; "I"; "J"]).
  { repeat (constructor; [simpl; intros H;
      repeat (destruct H as [H|H]; [discriminate H|]); exact H|]).
    constructor. }
  destruct (activity_color_map_by_rank _ Hnd) as (_ & Hat & _).
  split.
  - apply (Hat 8 "I"). reflexivity.
  - apply (Hat 1 "Other Activities"). reflexivity.
Defined.

(** ** Parsed dates are calendar dates *)

Lemma many0_sound {R : Type} (p : ascii -> bool) (s : string)
  (k : string -> option R) (res : R) :
  Re.many0 p s k = Some res ->
  exists pre s', s = (pre ++ s')%string /\ all_chars p pre = true /\
                 k s' = Some res.
Proof.
  induction s as [|x t IH]; simpl; intros H.
  - exists "", "". auto.
  - destruct (p x) eqn:Ep.
    + destruct (Re.many0 p t k) as [r|] eqn:Em.
      * inversion H; subst r. destruct (IH eq_refl) as (pre & s' & -> & Hp & Hk).
        exists (String x pre), s'. simpl. rewrite Ep, Hp. auto.
      * exists "", (String x t). auto.
    + exists "", (String x t). auto.
Qed.

(** The matcher only succeeds through a match. *)
Lemma exec_sound {R : Type} (r : Re.re) :
  forall (s : string) (caps : Re.captures)
         (k : string -> Re.captures -> option R) (res : R),
    Re.exec r s caps k = Some res ->
    exists s' caps', matched r s s' caps caps' /\ k s' caps' = Some res.
Proof.
  induction r as [|c|p|p|a IHa b IHb|a IHa b IHb|name a IHa];
    intros s caps k res H; simpl in H.
  - exists s, caps. simpl. auto.
  - destruct s as [|x s']; [discriminate|].
    destruct (Ascii.eqb (Py.lower_char x) (Py.lower_char c)) eqn:E;
      [|discriminate].
    apply Ascii.eqb_eq in E. exists s', caps. split; [|exact H].
    simpl. exists x. auto.
  - destruct s as [|x s']; [discriminate|].
    destruct (p x) eqn:E; [|discriminate].
    exists s', caps. split; [|exact H]. simpl. exists x. auto.
  - destruct s as [|x t]; [discriminate|].
    destruct (p x) eqn:E; [|discriminate].
    apply many0_sound in H as (pre & s' & -> & Hp & Hk).
    exists s', caps. split; [|exact Hk]. simpl. exists x, pre. auto.
  - apply IHa in H as (s1 & c1 & Ha & H).
    apply IHb in H as (s2 & c2 & Hb & H).
    exists s2, c2. split; [|exact H]. simpl. exists s1, c1. auto.
  - destruct (Re.exec a s caps k) as [r|] eqn:E.
    + inversion H; subst r. apply IHa in E as (s' & caps' & Ha & Hk).
      exists s', caps'. split; [|exact Hk]. simpl. now left.
    + apply IHb in H as (s' & caps' & Hb & Hk).
      exists s', caps'. split; [|exact Hk]. simpl. now right.
  - apply IHa in H as (s' & c1 & Ha & Hk).
    eexists s', _. split; [|exact Hk]. simpl. exists c1. auto.
Qed.

Lemma matched_lit (nm s s' : string) (caps caps' : Re.captures) :
  matched (Re.lit nm) s s' caps caps' ->
  caps' = caps /\ String.length s = String.length nm + String.length s'.
Proof.
  revert s caps. induction nm as [|c nm IH]; intros s caps H; simpl in H.
  - destruct H as [-> ->]. auto.
  - destruct H as (s1 & c1 & (x & -> & _ & ->) & H).
    apply IH in H as [-> Hl]. simpl. auto.
Qed.

Lemma matched_names (names : list string) (n : nat) (s s' : string)
  (caps caps' : Re.captures) :
  Forall (fun nm => String.length nm = n) names ->
  matched (Re.alts (map Re.lit names)) s s' caps caps' ->
  caps' = caps /\ String.length s = n + String.length s'.
Proof.
  induction names as [|nm rest IH]; intros Hn H.
  - simpl in H. destruct H as (x & _ & Hf & _). discriminate.
  - inversion Hn as [|? ? Hnm Hrest]; subst.
    destruct rest as [|nm2 rest'].
    + simpl in H. apply matched_lit in H. exact H.
    + change (matched (Re.Alt (Re.lit nm)
                         (Re.alts (map Re.lit (nm2 :: rest'))))
                s s' caps caps') in H.
      simpl matched in H. destruct H as [H|H].
      * apply matched_lit in H. exact H.
      * now apply IH.
Qed.

Lemma take_length (n : nat) (s : string) :
  n <= String.length s -> String.length (Py.take n s) = n.
Proof.
  revert s. induction n as [|n IH]; intros s H; [reflexivity|].
  destruct s as [|c s]; simpl in *; [lia|]. rewrite IH; lia.
Qed.

Lemma matched_name_group (names : list string) (directive : string)
  (n : nat) (s s' : string) (caps caps' : Re.captures) :
  Forall (fun nm => String.length nm = n) names ->
  matched (Strptime.seqToRE names directive) s s' caps caps' ->
  exists t, caps' = (directive, t) :: caps /\ String.length t = n.
Proof.
  intros Hn H. unfold Strptime.seqToRE in H. simpl in H.
  destruct H as (c1 & H & ->).
  apply (matched_names names n) in H as [-> Hl]; [|exact Hn].
  eexists. split; [reflexivity|]. rewrite take_length by lia. lia.
Qed.

Lemma matched_plain (r : Re.re) (s s' : string) (caps caps' : Re.captures) :
  match r with
  | Re.Chr _ | Re.Many1 _ => True
  | _ => False
  end ->
  matched r s s' caps caps' -> caps' = caps.
Proof.
  destruct r; simpl; try contradiction; intros _.
  - intros (x & _ & _ & H). exact H.
  - intros (x & pre & _ & _ & _ & H). exact H.
Qed.

Lemma matched_year (s s' : string) (caps caps' : Re.captures) :
  matched Strptime.re_y s s' caps caps' ->
  exists t, caps' = ("y", t) :: caps /\ String.length t = 2.
Proof.
  unfold Strptime.re_y. simpl.
  intros (c1 & (s1 & c2 & (x & -> & _ & ->) & (y & -> & _ & ->)) & ->).
  eexists. split; [reflexivity|].
  change (String.length (String x (String y s')))
    with (S (S (String.length s'))).
  rewrite take_length; cbn [String.length]; lia.
Qed.

Lemma matched_day (s s' : string) (caps caps' : Re.captures) :
  matched Strptime.re_d s s' caps caps' ->
  exists t, caps' = ("d", t) :: caps.
Proof.
  unfold Strptime.re_d. simpl.
  intros (c1 & H & ->).
  assert (c1 = caps); [|subst c1; eexists; reflexivity].
  destruct H as [H|[H|[H|[H|H]]]].
  - destruct H as (s1 & c2 & (x & _ & _ & ->) & (y & _ & _ & ->)).
    reflexivity.
  - destruct H as (s1 & c2 & (x & _ & _ & ->) & (y & _ & _ & ->)).
    reflexivity.
  - destruct H as (s1 & c2 & (x & _ & _ & ->) & (y & _ & _ & ->)).
    reflexivity.
  - destruct H as (x & _ & _ & ->). reflexivity.
  - destruct H as (s1 & c2 & (x & _ & _ & ->) & (y & _ & _ & ->)).
    reflexivity.
Qed.

(** The captures of a match of the whole format. *)
Lemma format_captures (s rest : string) (found_dict : Re.captures) :
  Re.rmatch Strptime.format_regex s = Some (rest, found_dict) ->
  exists ta tb td ty,
    found_dict = [("y", ty); ("d", td); ("b", tb); ("a", ta)] /\
    String.length tb = 3 /\ String.length ty = 2.
Proof.
  unfold Re.rmatch. intros H.
  apply exec_sound in H as (s' & caps' & Hm & Hk).
  inversion Hk; subst s' caps'. clear Hk.
  unfold Strptime.format_regex in Hm.
  simpl Re.cats in Hm.
  destruct Hm as (s1 & c1 & Ha & s2 & c2 & Hc1 & s3 & c3 & Hw1 &
                  s4 & c4 & Hb & s5 & c5 & Hw2 & s6 & c6 & Hd &
                  s7 & c7 & Hc2 & s8 & c8 & Hw3 & s9 & c9 & Hy & Hend).
  apply (matched_name_group Strptime.a_weekday "a" 3) in Ha
    as (ta & -> & _);
    [|unfold Strptime.a_weekday; repeat constructor].
  apply matched_plain in Hc1; [subst c2|exact I].
  apply matched_plain in Hw1; [subst c3|exact I].
  apply (matched_name_group (tl Strptime.a_month) "b" 3) in Hb
    as (tb & -> & Hlb);
    [|unfold Strptime.a_month; repeat constructor].
  apply matched_plain in Hw2; [subst c5|exact I].
  apply matched_day in Hd as (td & ->).
  apply matched_plain in Hc2; [subst c7|exact I].
  apply matched_plain in Hw3; [subst c8|exact I].
  apply matched_year in Hy as (ty & -> & Hly).
  simpl in Hend. destruct Hend as [_ ->].
  exists ta, tb, td, ty. auto.
Qed.

Lemma digit_value_bound (c : ascii) :
  Py.isdigit c = true -> Py.code c - 48 <= 9.
Proof.
  unfold Py.isdigit, Py.between. intros H.
  apply andb_prop in H as [_ H]. apply Nat.leb_le in H. lia.
Qed.

Lemma int_of_two (t : string) :
  String.length t = 2 -> Strptime.int_of t <= 99.
Proof.
  destruct t as [|a [|b [|c t]]]; try discriminate. intros _.
  unfold Strptime.int_of.
  destruct (Py.isdigit a) eqn:Ea; destruct (Py.isdigit b) eqn:Eb;
    rewrite ?Ea, ?Eb;
    try (pose proof (digit_value_bound a Ea));
    try (pose proof (digit_value_bound b Eb)); lia.
Qed.

Lemma index_of_month (x : string) (m : nat) :
  x <> "" -> Strptime.index_of x Strptime.a_month = Some m ->
  1 <= m /\ m <= 12.
Proof.
  intros Hx H. unfold Strptime.a_month in H.
  simpl in H. destruct (String.eqb_spec x "") as [->|_]; [congruence|].
  repeat match type of H with
         | context [String.eqb x ?n] => destruct (String.eqb x n)
         end;
    simpl in H; inversion H; lia.
Qed.

Lemma lower_length (s : string) :
  String.length (Py.lower s) = String.length s.
Proof. induction s as [|c s IH]; [reflexivity|]. simpl. now rewrite IH. Qed.

(** X13: a label that parses gives a date of the calendar: the year lies
    between 1969 and 2068 (two-digit years up to 68 belong to the 2000s),
    the month between 1 and 12, and the day between 1 and the length of
    that month in that year. *)
Theorem parsed_date_is_calendar_date :
  forall (d_str : string) (d : date),
    parse_custom_date d_str = Some d ->
    1969 <= year d /\ year d <= 2068 /\
    1 <= month d /\ month d <= 12 /\
    1 <= day d /\ day d <= Strptime.days_in_month (year d) (month d).
Proof.
  intros d_str d. unfold parse_custom_date, Strptime.strptime.
  destruct (Re.rmatch Strptime.format_regex (sub_ordinal d_str))
    as [[rest found_dict]|] eqn:Em; [|discriminate].
  destruct (format_captures _ _ _ Em) as (ta & tb & td & ty & -> & Hb & Hy).
  destruct (negb (rest =? "")%string); [discriminate|].
  unfold Re.group_get, dict_get_or. simpl dict_get.
  destruct (Strptime.index_of (Py.lower tb) Strptime.a_month)
    as [m|] eqn:Eb; [|discriminate].
  destruct (Strptime.index_of (Py.lower ta) Strptime.a_weekday);
    [|discriminate].
  destruct ((1 <=? Strptime.int_of td) &&
            (Strptime.int_of td <=?
             Strptime.days_in_month
               (if Strptime.int_of ty <=? 68
                then Strptime.int_of ty + 2000
                else Strptime.int_of ty + 1900) m)) eqn:Ed; [|discriminate].
  intros H. inversion H; subst d. clear H. simpl.
  apply andb_prop in Ed as [Hd1 Hd2].
  apply Nat.leb_le in Hd1. apply Nat.leb_le in Hd2.
  pose proof (int_of_two ty Hy) as Hy99.
  assert (Hne : Py.lower tb <> "").
  { intros E. pose proof (lower_length tb) as Hl. rewrite E, Hb in Hl.
    discriminate. }
  destruct (index_of_month _ _ Hne Eb) as [Hm1 Hm2].
  destruct (Nat.leb_spec (Strptime.int_of ty) 68); repeat split; lia.
Qed.

(** The last day of a leap February of the 1900s. *)
Lemma parsed_date_is_calendar_date_witness :
  1969 <= 1972 /\ 1972 <= 2068 /\ 1 <= 2 /\ 2 <= 12 /\ 1 <= 29 /\
  29 <= Strptime.days_in_month 1972 2.
Proof.
  exact (parsed_date_is_calendar_date "Tue, Feb 29th, 72"
           (mkDate 1972 2 29) eq_refl).
Defined.

(** ** From the sheet to the records, both ways *)

Lemma last_write_in (col_map : ColMap) (d : string) (f : field) (c : nat) :
  last_write col_map d f = Some c -> In (c, (d, f)) col_map.
Proof.
  induction col_map as [|[c0 [d0 f0]] rest IH]; simpl; [discriminate|].
  destruct (last_write rest d f) as [c'|].
  - intros H. inversion H; subst c'. right. now apply IH.
  - destruct (String.eqb_spec d0 d) as [->|]; [|discriminate].
    destruct (field_eqb f0 f) eqn:Ef; [|discriminate].
    apply field_eqb_spec in Ef. subst f0.
    intros H. inversion H. now left.
Qed.

Lemma dedup_first_in (l : list string) :
  forall (seen : list string) (d : string),
    In d (dedup_first seen l) -> In d l.
Proof.
  induction l as [|x l IH]; intros seen d H; [exact H|].
  simpl in H. destruct (existsb (String.eqb x) seen).
  - right. now apply (IH seen).
  - destruct H as [->|H]; [now left|right; now apply (IH _ _ H)].
Qed.

Lemma bundle_label_in_map (col_map : ColMap) (row : Series)
  (d : string) (td : TaskData) :
  In (d, td) (build_row_tasks col_map row) ->
  exists item, In item col_map /\ item_label item = d.
Proof.
  intros H. apply (in_map fst) in H. simpl in H.
  rewrite build_row_tasks_keys in H. unfold first_labels in H.
  apply dedup_first_in in H. apply in_map_iff in H as (item & Hl & Hin).
  now exists item.
Qed.

Lemma sorted_nodup (l : list nat) : StronglySorted lt l -> NoDup l.
Proof.
  induction 1 as [|a l Hs IH Ha]; constructor; [|exact IH].
  intros Hin. rewrite Forall_forall in Ha. specialize (Ha _ Hin). lia.
Qed.

Lemma col_map_keys_nodup (dates_row headers_row : Series) (total_cols : nat) :
  NoDup (map fst (build_col_map dates_row headers_row total_cols)).
Proof.
  apply sorted_nodup. unfold build_col_map.
  apply (scan_columns_shape dates_row headers_row 7 (total_cols - 7)
           7 None [] (le_n 7)).
  - discriminate.
  - constructor.
  - constructor.
Qed.

(** The label in force is the trimmed text of a cell of the date row. *)
Lemma label_in_force_source (dates_row : Series) (s n : nat) (d : string) :
  label_in_force dates_row s n = Some d ->
  exists j, s <= j /\ j < s + n /\ d = Py.strip (str (dates_row j)).
Proof.
  induction n as [|n IH]; simpl; [discriminate|].
  destruct (is_date_label (Py.strip (str (dates_row (s + n))))).
  - intros H. inversion H. exists (s + n). repeat split; lia.
  - intros H. destruct (IH H) as (j & H1 & H2 & H3).
    exists j. repeat split; [lia|lia|exact H3].
Qed.

(** The label of a mapped column is the trimmed text of a cell of the date
    row, at that column or left of it, from column 7 on. *)
Lemma mapped_label_source (dates_row headers_row : Series)
  (total_cols c : nat) (d : string) (f : field) :
  In (c, (d, f)) (build_col_map dates_row headers_row total_cols) ->
  exists j, 7 <= j /\ j <= c /\ c < total_cols /\
            d = Py.strip (str (dates_row j)).
Proof.
  intros Hin.
  apply (dict_in_get _ nat_eqb_spec) in Hin; [|apply col_map_keys_nodup].
  rewrite build_col_map_get in Hin.
  destruct (Nat.leb_spec 7 c) as [H7|H7]; [|discriminate].
  destruct (Nat.ltb_spec c total_cols) as [Ht|Ht]; [|discriminate].
  cbn [andb] in Hin.
  destruct (label_in_force dates_row 7 (c - 6)) as [d'|] eqn:El;
    [|discriminate].
  destruct (first_marker markers (Py.strip (str (headers_row c))));
    [|discriminate].
  inversion Hin; subst d'.
  destruct (label_in_force_source _ _ _ _ El) as (j & Hj1 & Hj2 & Hj3).
  exists j. repeat split; [lia|lia|lia|exact Hj3].
Qed.

(** X14: every record of the result comes from one data row of the sheet.
    Its name and its location are the nearest non-blank cells of columns 1
    and 2 at or above that row; its date is the trimmed text of a cell of
    the date row, in a column from 7 on, and is a date label; each of its
    day fields is the cell of that row in the last column mapped to the
    date and the field, or the default of the field, the work time being
    that cell coerced by [clean_minutes]; its parsed date and its billable
    flag are computed from its own date and activity category. *)
Theorem loaded_record_provenance :
  forall (read_csv : string -> string + DataFrame) (file_path : string)
         (r : task_record),
    In r (fst (load_and_clean_data read_csv file_path)) ->
    exists (df_raw : DataFrame) (i j : nat),
      read_csv file_path = inr df_raw /\
      i < shape0 df_raw - 3 /\
      r_Employee_Name r = nearest_above df_raw 1 i /\
      r_Location r = nearest_above df_raw 2 i /\
      7 <= j /\ j < shape1 df_raw /\
      r_Date r = Py.strip (str (iat df_raw 1 j)) /\
      is_date_label (r_Date r) = true /\
      r_Attendance r = day_cell df_raw i (r_Date r) Attendance_Status /\
      r_Activity_Category r = day_cell df_raw i (r_Date r) Activity_Category /\
      r_Task_Priority r = day_cell df_raw i (r_Date r) Task_Priority /\
      r_Start_Time r = day_cell df_raw i (r_Date r) Start_Time /\
      r_End_Time r = day_cell df_raw i (r_Date r) End_Time /\
      r_Work_Time_Mins r =
        clean_minutes (day_cell df_raw i (r_Date r) Work_Time_Mins) /\
      r_Description r = day_cell df_raw i (r_Date r) Description /\
      Date_Obj r = parse_custom_date (r_Date r) /\
      Is_Billable r = check_billable (r_Activity_Category r).
Proof.
  intros read_csv file_path r Hr.
  apply load_records in Hr as (df_raw & entries & e & Hread & Hrec & He & ->).
  apply reconstruct_inv in Hrec as (data & Hf & _ & ->).
  apply in_processed_rows in He as (row & Hrow & He).
  unfold dropna in Hrow. apply filter_In in Hrow as [Hin _].
  apply In_nth_error in Hin as [i Hi].
  destruct (filled_data_row _ _ _ _ Hf Hi) as (Hlen & H1 & H2 & Hc).
  destruct (row_entries_identity _ _ _ He) as [Hn Hl].
  change date_row_idx with 1 in He. change header_row_idx with 2 in He.
  set (cm := build_col_map (iat df_raw 1) (iat df_raw 2) (shape1 df_raw)) in *.
  assert (Hday : forall f, entry_field f e = day_cell df_raw i (e_Date e) f).
  { intros f. rewrite (entry_day_cells _ _ _ f He). unfold day_cell.
    fold cm. destruct (last_write cm (e_Date e) f) as [c|] eqn:El;
      [|reflexivity].
    apply last_write_in in El. unfold cm in El.
    apply mapped_label_source in El as (j & H7 & Hj & _).
    apply Hc; lia. }
  assert (Hsrc : exists j, 7 <= j /\ j < shape1 df_raw /\
                           e_Date e = Py.strip (str (iat df_raw 1 j)) /\
                           is_date_label (e_Date e) = true).
  { apply in_row_entries in He as (d & td & Hb & _ & ->). simpl e_Date.
    apply bundle_label_in_map in Hb as ([c [d' f]] & Hitem & <-).
    unfold item_label. simpl.
    pose proof (col_map_items_ok (iat df_raw 1) (iat df_raw 2)
                  (shape1 df_raw)) as Hwf.
    rewrite Forall_forall in Hwf.
    destruct (Hwf _ Hitem) as (_ & _ & Hlab & _).
    unfold cm in Hitem.
    apply mapped_label_source in Hitem as (j & H7 & Hj & Ht & Hd).
    exists j. repeat split; [lia|lia|exact Hd|exact Hlab]. }
  destruct Hsrc as (j & H7 & Hj & Hd & Hlab).
  exists df_raw, i, j. simpl.
  split; [exact Hread|]. split; [exact Hlen|].
  split; [now rewrite Hn|]. split; [now rewrite Hl|].
  split; [exact H7|]. split; [exact Hj|]. split; [exact Hd|].
  split; [exact Hlab|].
  split; [exact (Hday Attendance_Status)|].
  split; [exact (Hday Activity_Category)|].
  split; [exact (Hday Task_Priority)|].
  split; [exact (Hday Start_Time)|].
  split; [exact (Hday End_Time)|].
  split; [now rewrite <- (Hday Work_Time_Mins)|].
  split; [exact (Hday Description)|].
  split; reflexivity.
Qed.

(** The second record loaded from the two-row sheet comes from one of its
    data rows: the name is the one filled from above, the date a cell of
    the date row, the description and the work time those of the row. *)
Lemma loaded_record_provenance_witness :
  exists r : task_record,
    In r (fst (load_and_clean_data (fun _ => inr continuation_sheet)
                 "nov.csv")) /\
    r_Description r = Str "Evening" /\
    exists (i j : nat),
      i < shape0 continuation_sheet - 3 /\
      r_Employee_Name r = nearest_above continuation_sheet 1 i /\
      7 <= j /\ j < shape1 continuation_sheet /\
      r_Date r = Py.strip (str (iat continuation_sheet 1 j)) /\
      r_Description r = day_cell continuation_sheet i (r_Date r) Description /\
      r_Work_Time_Mins r =
        clean_minutes
          (day_cell continuation_sheet i (r_Date r) Work_Time_Mins).
Proof.
  set (r := post_process
              (make_entry (Str "Asha") NaN "Sat, Nov 01, 25"
                 [(Activity_Category, Str "Travel");
                  (Description, Str "Evening")])).
  assert (Hin : In r (fst (load_and_clean_data
                             (fun _ => inr continuation_sheet) "nov.csv")))
    by (right; left; reflexivity).
  exists r. split; [exact Hin|]. split; [reflexivity|].
  destruct (loaded_record_provenance (fun _ => inr continuation_sheet)
              "nov.csv" r Hin)
    as (df_raw & i & j & Hread & Hi & Hn & _ & H7 & Hj & Hd & _ & _ & _ & _
        & _ & _ & Hw & Hdesc & _).
  inversion Hread; subst df_raw.
  exists i, j. repeat split; assumption.
Defined.

(** X15: conversely, on a sheet of at least three columns, every data row
    whose filled name is not missing gives, for each of its date-label
    bundles that passes the validity test, a record of the result, which
    carries the filled name and location of the row. *)
Theorem valid_bundle_is_loaded :
  forall (read_csv : string -> string + DataFrame) (file_path : string)
         (df_raw : DataFrame) (i : nat),
    read_csv file_path = inr df_raw ->
    3 <= shape1 df_raw ->
    i < shape0 df_raw - 3 ->
    isna (nearest_above df_raw 1 i) = false ->
    exists row : Series,
      row 1 = nearest_above df_raw 1 i /\
      row 2 = nearest_above df_raw 2 i /\
      (forall c, 3 <= c -> row c = iat df_raw (3 + i) c) /\
      forall (d : string) (td : TaskData),
        In (d, td)
          (build_row_tasks
             (build_col_map (iat df_raw 1) (iat df_raw 2) (shape1 df_raw))
             row) ->
        is_empty_task td = false ->
        In (post_process (make_entry (row 1) (row 2) d td))
          (fst (load_and_clean_data read_csv file_path)) /\
        snd (load_and_clean_data read_csv file_path) = None.
Proof.
  intros read_csv file_path df_raw i Hread Hcols Hi Hname.
  destruct (filled_data df_raw) as [ex|data] eqn:Hf.
  { exfalso. unfold filled_data, replace_blank, bind in Hf.
    replace (1 <? shape1 df_raw) with true in Hf
      by (symmetry; apply Nat.ltb_lt; lia).
    replace (2 <? shape1 df_raw) with true in Hf
      by (symmetry; apply Nat.ltb_lt; lia).
    discriminate. }
  pose proof (filled_data_length _ _ Hf) as Hlen.
  destruct (nth_error data i) as [row|] eqn:Hrow.
  2:{ exfalso. apply nth_error_None in Hrow. lia. }
  destruct (filled_data_row _ _ _ _ Hf Hrow) as (_ & H1 & H2 & Hc).
  exists row. split; [exact H1|]. split; [exact H2|].
  split; [intros c Hc3; apply Hc; lia|].
  intros d td Hb Hvalid.
  set (cm := build_col_map (iat df_raw 1) (iat df_raw 2) (shape1 df_raw)) in *.
  assert (He : In (make_entry (row 1) (row 2) d td)
                 (processed_rows cm (dropna 1 data))).
  { apply in_processed_rows. exists row. split.
    - unfold dropna. apply filter_In. split.
      + eapply nth_error_In. exact Hrow.
      + rewrite H1, Hname. reflexivity.
    - apply in_row_entries. exists d, td. auto. }
  assert (Hrec : reconstruct df_raw = inr (processed_rows cm (dropna 1 data))).
  { unfold reconstruct, clean_data, bind. rewrite Hf. unfold iloc.
    replace (date_row_idx <? shape0 df_raw) with true
      by (symmetry; apply Nat.ltb_lt; unfold date_row_idx; lia).
    replace (header_row_idx <? shape0 df_raw) with true
      by (symmetry; apply Nat.ltb_lt; unfold header_row_idx; lia).
    reflexivity. }
  unfold load_and_clean_data. rewrite Hread.
  rewrite (process_keeps_entries _ _ Hrec).
  - simpl. split; [now apply in_map|reflexivity].
  - intros Hnil. rewrite Hnil in He. exact He.
Qed.

(** The second row of the two-row sheet: its records are loaded under the
    name of the first row. *)
Lemma valid_bundle_is_loaded_witness :
  exists r,
    In r (fst (load_and_clean_data (fun _ => inr continuation_sheet)
                 "nov.csv")) /\
    r_Employee_Name r = Str "Asha" /\
    r_Description r = Str "Evening".
Proof.
  destruct (valid_bundle_is_loaded (fun _ => inr continuation_sheet)
              "nov.csv" continuation_sheet 1 eq_refl)
    as (row & H1 & H2 & Hc & Hload).
  - simpl. lia.
  - simpl. lia.
  - reflexivity.
  - destruct (Hload "Sat, Nov 01, 25"
                [(Activity_Category, row 7); (Description, row 8)])
      as [Hin _].
    + left. reflexivity.
    + rewrite (Hc 7), (Hc 8) by lia. reflexivity.
    + eexists. split; [exact Hin|].
      simpl. rewrite H1, (Hc 8) by lia. split; reflexivity.
Defined.

(** ** Sign of the work time *)

Lemma prefix_empty (s : string) : prefix "" s = true.
Proof. now destruct s. Qed.

Lemma contains_char (c : ascii) (s : string) :
  Py.contains (String c "") s = has_char c s.
Proof.
  induction s as [|x s IH]; [reflexivity|].
  rewrite contains_cons, IH. simpl has_char. f_equal.
  change (prefix (String c "") (String x s))
    with (if ascii_dec c x then prefix "" s else false).
  destruct (ascii_dec c x) as [->|Hne].
  - now rewrite prefix_empty, Ascii.eqb_refl.
  - symmetry. apply Ascii.eqb_neq. congruence.
Qed.

Lemma has_minus_remove_commas (s : string) :
  has_char "-" (Py.remove_commas s) = has_char "-" s.
Proof.
  induction s as [|x s IH]; [reflexivity|].
  simpl. destruct (Ascii.eqb x ",") eqn:E.
  - apply Ascii.eqb_eq in E. subst x. exact IH.
  - simpl. now rewrite IH.
Qed.

Lemma has_char_ltrim (c : ascii) (s : string) :
  has_char c (Float.ltrim s) = true -> has_char c s = true.
Proof.
  induction s as [|x s IH]; [discriminate|].
  simpl. destruct (Float.isspace x); [|exact (fun H => H)].
  intros H. rewrite (IH H). apply orb_true_r.
Qed.

Lemma rtrim_head (w : string) (c : ascii) (r : string) :
  Float.rtrim w = String c r -> exists w', w = String c w'.
Proof.
  destruct w as [|x w]; [discriminate|]. simpl.
  destruct (Float.rtrim w).
  - destruct (Float.isspace x); [discriminate|].
    intros H. inversion H. now exists w.
  - intros H. inversion H. now exists w.
Qed.

Lemma strip_underscores_head (u : string) (c : ascii) (t : string) :
  Float.strip_underscores None u = Some (String c t) ->
  exists u', u = String c u'.
Proof.
  destruct u as [|x u]; [discriminate|]. simpl.
  destruct (Ascii.eqb x "_"); [discriminate|].
  destruct (Float.strip_underscores (Some x) u); [|discriminate].
  intros H. inversion H. now exists u.
Qed.

Lemma sign_minus (t : string) :
  fst (Float.sign t) = true -> exists t', t = String "-" t'.
Proof.
  destruct t as [|x t]; [discriminate|]. unfold Float.sign.
  destruct (Ascii.eqb x "-") eqn:E.
  - apply Ascii.eqb_eq in E. subst x. now exists t.
  - destruct (Ascii.eqb x "+"); discriminate.
Qed.

Lemma parse_negative (t : string) (f : pyfloat) :
  Float.parse t = Some f -> is_negative f = true ->
  fst (Float.sign t) = true.
Proof.
  unfold Float.parse. destruct (Float.sign t) as [neg t'].
  destruct (Float.digits 0 t') as [[ip ni] r1].
  destruct (match r1 with
            | String c r =>
                if Ascii.eqb c "." then Float.digits ip r else (ip, 0, r1)
            | EmptyString => (ip, 0, r1)
            end) as [[m nf] r2].
  destruct (ni + nf =? 0).
  - unfold Float.inf_or_nan.
    destruct ((Py.lower t' =? "inf")%string ||
              (Py.lower t' =? "infinity")%string).
    + intros H. inversion H. exact (fun H => H).
    + destruct (Py.lower t' =? "nan")%string; [|discriminate].
      intros H. inversion H. discriminate.
  - destruct (Float.exponent r2); [|discriminate].
    intros H. inversion H. exact (fun H => H).
Qed.

(** X16: the coerced work time carries a minus sign only when the cell
    text contains the character "-": a cell without it never gives a
    negative duration. *)
Theorem negative_minutes_need_minus :
  forall (x : cell) (f : pyfloat),
    clean_minutes x = PFloat f -> is_negative f = true ->
    Py.contains "-" (str x) = true.
Proof.
  intros x f Hc Hneg. rewrite clean_minutes_unfold in Hc.
  destruct (isna x || Py.all_space (str x)); [discriminate|].
  destruct (Float.float (Py.remove_commas (str x))) as [g|] eqn:Ef;
    [|discriminate].
  inversion Hc; subst g. clear Hc.
  unfold Float.float in Ef.
  destruct (Float.strip_underscores None
              (Float.rtrim (Float.ltrim (Py.remove_commas (str x)))))
    as [t|] eqn:Eu; [|discriminate].
  apply parse_negative in Ef; [|exact Hneg].
  apply sign_minus in Ef as [t' ->].
  apply strip_underscores_head in Eu as [u' Eu].
  apply rtrim_head in Eu as [w' Ew].
  rewrite contains_char, <- has_minus_remove_commas.
  apply has_char_ltrim. rewrite Ew. reflexivity.
Qed.

(** A negative entry with a separator. *)
Lemma negative_minutes_need_minus_witness :
  Py.contains "-" " -1,250" = true.
Proof.
  apply (negative_minutes_need_minus (Str " -1,250") (FDec true 1250 0));
    reflexivity.
Defined.

(** ** The PDF report *)

Lemma take_le (n : nat) (s : string) : String.length (Py.take n s) <= n.
Proof.
  revert s. induction n as [|n IH]; intros s; [simpl; lia|].
  destruct s as [|c s]; simpl; [lia|]. specialize (IH s). lia.
Qed.

Lemma take_short (n : nat) (s : string) :
  String.length s <= n -> Py.take n s = s.
Proof.
  revert s. induction n as [|n IH]; intros s H.
  - destruct s; [reflexivity|simpl in H; lia].
  - destruct s as [|c s]; [reflexivity|]. simpl in *. rewrite IH; [reflexivity|lia].
Qed.

Lemma ncols_zero (table_data : list (list string)) :
  Pdf.ncols table_data = 0 <-> forall row, In row table_data -> row = [].
Proof.
  induction table_data as [|r rest IH]; simpl.
  - split; [intros _ row []|reflexivity].
  - split.
    + intros H row [<-|Hin].
      * destruct r; [reflexivity|]. simpl in H.
        destruct (Pdf.ncols rest); discriminate.
      * apply IH; [|exact Hin]. lia.
    + intros H. rewrite (H r (or_introl eq_refl)). simpl.
      apply IH. intros row Hin. apply H. now right.
Qed.

(** [Table] accepts its data exactly when some row of it has a cell. *)
Lemma new_table_none {Png : Type} (table_data : list (list string))
  (k : Pdf.table_kind) :
  Pdf.new_table (Png := Png) table_data k = None <->
  forall row, In row table_data -> row = [].
Proof.
  unfold Pdf.new_table. rewrite <- ncols_zero.
  destruct table_data as [|r rest]; [simpl; tauto|].
  replace (0 <? List.length (r :: rest)) with true by reflexivity.
  rewrite andb_true_l.
  destruct (Nat.ltb_spec 0 (Pdf.ncols (r :: rest))) as [Hpos|Hzero].
  - split; [intros H; discriminate H|lia].
  - split; [lia|reflexivity].
Qed.

Lemma new_table_some {Png : Type} (table_data : list (list string))
  (k : Pdf.table_kind) (table : Pdf.flowable Png) :
  Pdf.new_table table_data k = Some table -> table = Pdf.Table table_data k.
Proof.
  unfold Pdf.new_table.
  destruct ((0 <? List.length table_data) && (0 <? Pdf.ncols table_data));
    [|discriminate].
  intros H. now inversion H.
Qed.

Lemma new_table_header {Png : Type} (c : string) (header : list string)
  (body : list (list string)) (k : Pdf.table_kind) :
  Pdf.new_table (Png := Png) ((c :: header) :: body) k =
  Some (Pdf.Table ((c :: header) :: body) k).
Proof.
  destruct (Pdf.new_table (Png := Png) ((c :: header) :: body) k)
    as [table|] eqn:E.
  - now rewrite (new_table_some _ _ _ E).
  - exfalso. rewrite new_table_none in E.
    specialize (E (c :: header) (or_introl eq_refl)). discriminate.
Qed.

(** The summary table has its two header cells: it is never refused. *)
Lemma create_summary_section_total {Png : Type}
  (metrics : list (string * cell)) :
  Pdf.create_summary_section (Png := Png) metrics =
  Some [Pdf.Paragraph (Pdf.Plain "Executive Summary") "CustomTitle";
        Pdf.Spacer 3;
        Pdf.Table (["Metric"; "Value"] ::
                   map (fun kv => [fst kv; str (snd kv)]) metrics)
          Pdf.SummaryTable;
        Pdf.Spacer 5].
Proof. unfold Pdf.create_summary_section. now rewrite new_table_header. Qed.

(** The rows of a data table have no cell at all exactly when the frame
    has no column name and the rows shown have no value. *)
Lemma data_rows_empty (df : Pdf.frame) (max_rows : nat) :
  (forall row, In row (Pdf.data_rows df max_rows) -> row = []) <->
  Pdf.columns df = [] /\
  forall src, In src (firstn max_rows (Pdf.iterrows df)) -> src = [].
Proof.
  unfold Pdf.data_rows. split.
  - intros H. split; [apply H; now left|].
    intros src Hin.
    assert (Hm : map (fun val => Py.take 50 (str val)) src = []).
    { apply H. right. apply in_map_iff. now exists src. }
    now destruct src.
  - intros [Hc Hr] row [<-|Hin]; [exact Hc|].
    apply in_map_iff in Hin as (src & <- & Hsrc).
    now rewrite (Hr src Hsrc).
Qed.

Lemma create_data_table_none {Png : Type} (df : Pdf.frame) (title : string)
  (max_rows : nat) :
  Pdf.create_data_table (Png := Png) df title max_rows = None <->
  Pdf.columns df = [] /\
  forall src, In src (firstn max_rows (Pdf.iterrows df)) -> src = [].
Proof.
  rewrite <- data_rows_empty,
    <- (new_table_none (Png := Png) _ Pdf.DataTable).
  unfold Pdf.create_data_table.
  destruct (Pdf.new_table (Pdf.data_rows df max_rows) Pdf.DataTable);
    split; congruence.
Qed.



Lemma extend_story_app {Fig Png : Type} (to_image : Fig -> option Png)
  (l1 l2 : list (Pdf.section Fig)) :
  forall story : list (Pdf.flowable Png),
    Pdf.extend_story to_image (l1 ++ l2) story =
    match Pdf.extend_story to_image l1 story with
    | Some story' => Pdf.extend_story to_image l2 story'
    | None => None
    end.
Proof.
  induction l1 as [|s l1 IH]; intros story; [reflexivity|].
  simpl. destruct (Pdf.section_story to_image s); [apply IH|reflexivity].
Qed.

(** The flowables of the charts of a report. *)
Lemma extend_story_charts {Fig Png : Type} (to_image : Fig -> option Png)
  (charts : list (Fig * option string)) :
  forall story : list (Pdf.flowable Png),
    exists chart_story : list (Pdf.flowable Png),
      Pdf.extend_story to_image
        (map (fun chart_info =>
                Pdf.Chart (fst chart_info)
                  (Pdf.get_or (snd chart_info) "Chart")) charts) story =
      Some (story ++ chart_story)%list /\
      List.length chart_story = 4 * List.length charts /\
      existsb Pdf.is_table chart_story = false.
Proof.
  induction charts as [|ci rest IH]; intros story.
  - exists []. simpl. now rewrite app_nil_r.
  - simpl.
    destruct (IH (story ++
                  Pdf.add_chart_image to_image (fst ci)
                    (Pdf.get_or (snd ci) "Chart"))%list)
      as (cs & Heq & Hlen & Htab).
    exists (Pdf.add_chart_image to_image (fst ci)
              (Pdf.get_or (snd ci) "Chart") ++ cs)%list.
    split; [now rewrite Heq, <- app_assoc|]. split.
    + rewrite length_app, Hlen. simpl. lia.
    + rewrite existsb_app, Htab. unfold Pdf.add_chart_image. simpl.
      now destruct (to_image (fst ci)).
Qed.

(** The story of a report up to its charts: it is always built, it has
    no data table, and it has 5 + 4 n flowables for n charts after the 7
    of the cover page, if any. *)
Lemma report_head {Fig Png : Type} (to_image : Fig -> option Png)
  (now : string) (metrics : list (string * cell))
  (charts : list (Fig * option string)) (cfg : Pdf.config) :
  exists head : list (Pdf.flowable Png),
    Pdf.extend_story to_image
      ([Pdf.Summary metrics; Pdf.PageBreakSection] ++
       map (fun chart_info =>
              Pdf.Chart (fst chart_info)
                (Pdf.get_or (snd chart_info) "Chart")) charts)%list
      (if Pdf.get_or (Pdf.include_cover cfg) true
       then Pdf.create_cover_page now
              (Pdf.get_or (Pdf.page_size cfg) "A4")
              (Pdf.get_or (Pdf.orientation cfg) "Portrait")
       else []) = Some head /\
    List.length head =
      (if Pdf.get_or (Pdf.include_cover cfg) true then 7 else 0) + 5 +
      4 * List.length charts /\
    existsb Pdf.is_table head = false.
Proof.
  rewrite extend_story_app.
  cbn [Pdf.extend_story Pdf.section_story].
  rewrite create_summary_section_total.
  set (cover := if Pdf.get_or (Pdf.include_cover cfg) true
                then Pdf.create_cover_page now
                       (Pdf.get_or (Pdf.page_size cfg) "A4")
                       (Pdf.get_or (Pdf.orientation cfg) "Portrait")
                else []).
  match goal with
  | |- context [Pdf.extend_story _ _ ?st] =>
      destruct (extend_story_charts to_image charts st)
        as (cs & Heq & Hlen & Htab)
  end.
  eexists. split; [exact Heq|]. split.
  - rewrite !length_app, Hlen. unfold cover.
    destruct (Pdf.get_or (Pdf.include_cover cfg) true); simpl; lia.
  - rewrite !existsb_app, Htab. unfold cover.
    destruct (Pdf.get_or (Pdf.include_cover cfg) true); reflexivity.
Qed.

Lemma raw_data_listed (l : list string) :
  existsb (String.eqb "raw_data") l = true <-> In "raw_data" l.
Proof.
  rewrite existsb_exists. split.
  - intros (x & Hx & Heq). apply String.eqb_eq in Heq. now subst x.
  - intros H. exists "raw_data". split; [exact H|apply String.eqb_refl].
Qed.




